(** * Layered temperature/humidity driver stack: bus engine, AHT21 protocol
      driver, backend adapter, and sensor abstraction with its scheduler.

    The C sources are embedded shallowly.  Memory is a typed store: one
    finite map per struct type, keyed by address, with address 0 playing
    the role of NULL.  Every C function becomes a function in a state
    monad whose failure case stands for "the C program has no defined
    result here" (a dereference of NULL or of an unallocated address, a
    call through a NULL function pointer, an out-of-bounds read, an
    integer division by zero).

    The platform pin operations are external: a call to one of them is
    recorded in a chronological log, and the levels returned by the
    platform's input line are read from an oracle indexed by the number of
    reads made so far.

    Single-precision floats are IEEE-754 binary32 values with
    round-to-nearest-even, every operation rounded to binary32. *)

From Stdlib Require Import ZArith Lia SpecFloat.
From stdpp Require Import base option list gmap.

Local Open Scope Z_scope.

(* ===================================================================== *)
(** ** State monad with undefined behaviour *)
(* ===================================================================== *)

Definition StateErr (S A : Type) : Type := S → option (A * S).

#[global] Instance StateErr_ret {S} : MRet (StateErr S) :=
  λ A a s, Some (a, s).

#[global] Instance StateErr_bind {S} : MBind (StateErr S) :=
  λ A B f c s, match c s with
               | Some (a, s') => f a s'
               | None => None
               end.

(** No defined result. *)
Definition undefined {S A} : StateErr S A := λ _, None.

Definition get_state_of {S} : StateErr S S := λ s, Some (s, s).
Definition modify {S} (f : S → S) : StateErr S unit := λ s, Some (tt, f s).

(* ===================================================================== *)
(** ** Machine integers and binary32 floats *)
(* ===================================================================== *)

Definition u8 (z : Z) : Z := Z.land z 255.
Definition u16 (z : Z) : Z := z mod 65536.
Definition u32 (z : Z) : Z := z mod 4294967296.

Abbreviation f32 := spec_float.
Definition f32_of_Z (z : Z) : f32 := binary_normalize 24 128 z 0 false.
Definition f32_mul : f32 → f32 → f32 := SFmul 24 128.
Definition f32_div : f32 → f32 → f32 := SFdiv 24 128.
Definition f32_sub : f32 → f32 → f32 := SFsub 24 128.
(** All-zero bytes read back as a float. *)
Definition f32_zero : f32 := S754_zero false.

(* ===================================================================== *)
(** ** Bus engine data (iic_abstract.h) *)
(* ===================================================================== *)

Inductive IIC_Result :=
  | IIC_OK
  | IIC_ERR_NACK
  | IIC_ERR_TIMEOUT
  | IIC_ERR_BUS_BUSY
  | IIC_ERR_INVALID_PARAM.

#[global] Instance IIC_Result_eq_dec : EqDecision IIC_Result.
Proof. solve_decision. Defined.

(** One call of a platform pin operation, with its argument (or, for the
    input line, the level it returned). *)
Inductive PinEvent :=
  | EvDelayUs (us : Z)
  | EvDelayMs (ms : Z)
  | EvSetSda (level : Z)
  | EvSetScl (level : Z)
  | EvReadSda (level : Z)
  | EvSdaMode (is_output : Z).

#[global] Instance PinEvent_eq_dec : EqDecision PinEvent.
Proof. solve_decision. Defined.

(** The table of platform operations.  The functions themselves are
    external; a field records whether the function pointer is non-NULL. *)
Record IIC_HAL_Ops := {
  delay_us : bool;
  delay_ms : bool;
  set_sda : bool;
  set_scl : bool;
  read_sda : bool;
  sda_mode : bool;
}.

Record IIC_Handle := {
  hal_ops : option IIC_HAL_Ops;   (* NULL is None *)
  speed_khz : Z;                  (* uint32_t *)
  timeout_ms : Z;                 (* uint16_t *)
  bus_busy : Z;                   (* uint8_t *)
}.

(* ===================================================================== *)
(** ** Protocol driver data (aht21.h) *)
(* ===================================================================== *)

Definition AHT21_ADDR : Z := 0x38.
Definition AHT21_CMD_INIT : Z := 0xBE.
Definition AHT21_CMD_TRIGGER : Z := 0xAC.
Definition AHT21_CMD_SOFT_RESET : Z := 0xBA.
Definition AHT21_STATUS_BUSY : Z := 0x80.
Definition AHT21_STATUS_CALIBRATED : Z := 0x08.

Inductive AHT21_State :=
  | AHT21_STATE_IDLE
  | AHT21_STATE_INIT
  | AHT21_STATE_WAIT_MEASURE
  | AHT21_STATE_READY
  | AHT21_STATE_ERROR.

#[global] Instance AHT21_State_eq_dec : EqDecision AHT21_State.
Proof. solve_decision. Defined.

Inductive AHT21_Result :=
  | AHT21_OK
  | AHT21_ERR_NOT_INIT
  | AHT21_ERR_BUSY
  | AHT21_ERR_TIMEOUT
  | AHT21_ERR_IIC
  | AHT21_ERR_INVALID_PARAM
  | AHT21_ERR_CRC.

#[global] Instance AHT21_Result_eq_dec : EqDecision AHT21_Result.
Proof. solve_decision. Defined.

Record AHT21_Handle := {
  iic : N;                        (* IIC_Handle* *)
  state : AHT21_State;
  measure_ticks : Z;              (* uint32_t *)
  raw_data : list Z;              (* uint8_t[7] *)
  temperature : f32;
  humidity : f32;
  measure_interval : Z;           (* uint16_t *)
}.

(* ===================================================================== *)
(** ** Driver-side memory and the platform *)
(* ===================================================================== *)

Record Mem := {
  pins : list PinEvent;           (* platform calls so far, oldest first *)
  sda_line : nat → Z;             (* level returned by the n-th read_sda *)
  sda_reads : nat;                (* number of read_sda calls so far *)
  iic_handles : gmap N IIC_Handle;
  aht21_handles : gmap N AHT21_Handle;
}.

Definition emit (evs : list PinEvent) (m : Mem) : Mem :=
  {| pins := pins m ++ evs; sda_line := sda_line m; sda_reads := sda_reads m;
     iic_handles := iic_handles m; aht21_handles := aht21_handles m |}.

Definition sample (m : Mem) : Z := u8 (sda_line m (sda_reads m)).

Definition consume (m : Mem) : Mem :=
  {| pins := pins m ++ [EvReadSda (sample m)]; sda_line := sda_line m;
     sda_reads := S (sda_reads m);
     iic_handles := iic_handles m; aht21_handles := aht21_handles m |}.

Definition put_iic (p : N) (h : IIC_Handle) (m : Mem) : Mem :=
  {| pins := pins m; sda_line := sda_line m; sda_reads := sda_reads m;
     iic_handles := <[p := h]> (iic_handles m);
     aht21_handles := aht21_handles m |}.

Definition put_aht21 (p : N) (h : AHT21_Handle) (m : Mem) : Mem :=
  {| pins := pins m; sda_line := sda_line m; sda_reads := sda_reads m;
     iic_handles := iic_handles m;
     aht21_handles := <[p := h]> (aht21_handles m) |}.

(** Dereference of an [IIC_Handle*]. *)
Definition load_iic (p : N) : StateErr Mem IIC_Handle :=
  λ m, match iic_handles m !! p with
       | Some h => Some (h, m)
       | None => None
       end.

Definition store_iic (p : N) (h : IIC_Handle) : StateErr Mem unit :=
  λ m, match iic_handles m !! p with
       | Some _ => Some (tt, put_iic p h m)
       | None => None
       end.

(** [handle->hal_ops] followed by a dereference of the table. *)
Definition load_hal (p : N) : StateErr Mem IIC_HAL_Ops :=
  h ← load_iic p;
  match hal_ops h with
  | Some ops => mret ops
  | None => undefined
  end.

(** A call through one of the table's function pointers. *)
Definition hal_call (present : bool) (ev : PinEvent) : StateErr Mem unit :=
  if present then modify (emit [ev]) else undefined.

Definition hal_delay_ms (p : N) (ms : Z) : StateErr Mem unit :=
  ops ← load_hal p; hal_call (delay_ms ops) (EvDelayMs ms).
Definition hal_set_sda (p : N) (level : Z) : StateErr Mem unit :=
  ops ← load_hal p; hal_call (set_sda ops) (EvSetSda level).
Definition hal_set_scl (p : N) (level : Z) : StateErr Mem unit :=
  ops ← load_hal p; hal_call (set_scl ops) (EvSetScl level).
Definition hal_sda_mode (p : N) (is_output : Z) : StateErr Mem unit :=
  ops ← load_hal p; hal_call (sda_mode ops) (EvSdaMode is_output).
Definition read_level : StateErr Mem Z := λ m, Some (sample m, consume m).
Definition hal_read_sda (p : N) : StateErr Mem Z :=
  ops ← load_hal p;
  if read_sda ops then read_level else undefined.

(* ===================================================================== *)
(** ** Bus engine (iic_abstract.c) *)
(* ===================================================================== *)

Definition iic_delay (handle : N) : StateErr Mem unit :=
  ops ← load_hal handle;
  if delay_us ops then
    h ← load_iic handle;
    if speed_khz h =? 0 then undefined      (* 500 / 0 *)
    else
      let delay := 500 / speed_khz h in
      hal_call (delay_us ops) (EvDelayUs (if 0 <? delay then delay else 1))
  else mret tt.

Definition iic_init (handle : N) (hal : option IIC_HAL_Ops) : StateErr Mem unit :=
  if decide (handle = 0%N) then mret tt
  else match hal with
  | None => mret tt
  | Some _ =>
    store_iic handle {| hal_ops := hal; speed_khz := 100;
                        timeout_ms := 1000; bus_busy := 0 |};;
    ops ← load_hal handle;
    (if sda_mode ops then hal_sda_mode handle 1 else mret tt);;
    hal_set_sda handle 1;;
    hal_set_scl handle 1
  end.

Definition iic_set_speed (handle : N) (speed : Z) : StateErr Mem unit :=
  if decide (handle = 0%N) then mret tt
  else
    h ← load_iic handle;
    store_iic handle {| hal_ops := hal_ops h; speed_khz := u32 speed;
                        timeout_ms := timeout_ms h; bus_busy := bus_busy h |}.

Definition iic_set_timeout (handle : N) (timeout : Z) : StateErr Mem unit :=
  if decide (handle = 0%N) then mret tt
  else
    h ← load_iic handle;
    store_iic handle {| hal_ops := hal_ops h; speed_khz := speed_khz h;
                        timeout_ms := u16 timeout; bus_busy := bus_busy h |}.

Definition set_bus_busy (handle : N) (b : Z) : StateErr Mem unit :=
  h ← load_iic handle;
  store_iic handle {| hal_ops := hal_ops h; speed_khz := speed_khz h;
                      timeout_ms := timeout_ms h; bus_busy := b |}.

Definition iic_start (handle : N) : StateErr Mem IIC_Result :=
  if decide (handle = 0%N) then mret IIC_ERR_INVALID_PARAM
  else
    hal_sda_mode handle 1;;
    hal_set_sda handle 1;;
    hal_set_scl handle 1;;
    iic_delay handle;;
    hal_set_sda handle 0;;
    iic_delay handle;;
    hal_set_scl handle 0;;
    set_bus_busy handle 1;;
    mret IIC_OK.

Definition iic_stop (handle : N) : StateErr Mem IIC_Result :=
  if decide (handle = 0%N) then mret IIC_ERR_INVALID_PARAM
  else
    hal_sda_mode handle 1;;
    hal_set_scl handle 0;;
    hal_set_sda handle 0;;
    iic_delay handle;;
    hal_set_scl handle 1;;
    iic_delay handle;;
    hal_set_sda handle 1;;
    iic_delay handle;;
    set_bus_busy handle 0;;
    mret IIC_OK.

(** The eight-iteration transmit loop; [n] iterations remain. *)
Fixpoint iic_write_byte_bits (n : nat) (handle : N) (data : Z) : StateErr Mem unit :=
  match n with
  | O => mret tt
  | S n' =>
    hal_set_sda handle (if Z.land data 0x80 =? 0 then 0 else 1);;
    let data := u8 (Z.shiftl data 1) in
    iic_delay handle;;
    hal_set_scl handle 1;;
    iic_delay handle;;
    hal_set_scl handle 0;;
    iic_write_byte_bits n' handle data
  end.

Definition iic_write_byte (handle : N) (data : Z) : StateErr Mem IIC_Result :=
  if decide (handle = 0%N) then mret IIC_ERR_INVALID_PARAM
  else
    hal_sda_mode handle 1;;
    hal_set_scl handle 0;;
    iic_write_byte_bits 8 handle data;;
    hal_set_sda handle 1;;
    hal_sda_mode handle 0;;
    iic_delay handle;;
    hal_set_scl handle 1;;
    iic_delay handle;;
    ack ← hal_read_sda handle;
    hal_set_scl handle 0;;
    mret (if ack =? 0 then IIC_OK else IIC_ERR_NACK).

(** The eight-iteration receive loop; [n] iterations remain. *)
Fixpoint iic_read_byte_bits (n : nat) (handle : N) (receive : Z) : StateErr Mem Z :=
  match n with
  | O => mret receive
  | S n' =>
    hal_set_scl handle 0;;
    iic_delay handle;;
    hal_set_scl handle 1;;
    let receive := u8 (Z.shiftl receive 1) in
    level ← hal_read_sda handle;
    let receive := if level =? 0 then receive else Z.lor receive 0x01 in
    iic_delay handle;;
    iic_read_byte_bits n' handle receive
  end.

(** [data] tells whether the destination pointer is non-NULL; the byte
    stored through it is returned next to the result. *)
Definition iic_read_byte (handle : N) (data : bool) (ack : Z)
    : StateErr Mem (IIC_Result * option Z) :=
  if decide (handle = 0%N) then mret (IIC_ERR_INVALID_PARAM, None)
  else if negb data then mret (IIC_ERR_INVALID_PARAM, None)
  else
    hal_sda_mode handle 0;;
    receive ← iic_read_byte_bits 8 handle 0;
    hal_set_scl handle 0;;
    hal_sda_mode handle 1;;
    hal_set_sda handle (if ack =? 0 then 1 else 0);;
    iic_delay handle;;
    hal_set_scl handle 1;;
    iic_delay handle;;
    hal_set_scl handle 0;;
    mret (IIC_OK, Some receive).

(** The payload loop of [iic_write]: [n] iterations remain, [i] is the
    index.  [Some r] is an early return of [r] from inside the loop. *)
Fixpoint iic_write_loop (n : nat) (handle : N) (data : list Z) (i : nat)
    : StateErr Mem (option IIC_Result) :=
  match n with
  | O => mret None
  | S n' =>
    match data !! i with
    | None => undefined                  (* read past the end of the array *)
    | Some b =>
      result ← iic_write_byte handle b;
      if decide (result ≠ IIC_OK) then
        iic_stop handle;; mret (Some result)
      else iic_write_loop n' handle data (S i)
    end
  end.

(** [data] is the payload array ([None] for a NULL pointer), [len] the
    uint16_t length argument. *)
Definition iic_write (handle : N) (addr : Z) (data : option (list Z)) (len : Z)
    : StateErr Mem IIC_Result :=
  if decide (handle = 0%N) then mret IIC_ERR_INVALID_PARAM
  else match data with
  | None => mret IIC_ERR_INVALID_PARAM
  | Some bytes =>
    if len =? 0 then mret IIC_ERR_INVALID_PARAM
    else
      result ← iic_start handle;
      if decide (result ≠ IIC_OK) then mret result
      else
        result ← iic_write_byte handle (u8 (Z.shiftl addr 1));
        if decide (result ≠ IIC_OK) then
          iic_stop handle;; mret result
        else
          early ← iic_write_loop (Z.to_nat len) handle bytes 0;
          match early with
          | Some result => mret result
          | None => iic_stop handle;; mret IIC_OK
          end
  end.

(** The receive loop of [iic_read]: [n] iterations remain, [i] is the
    index, [acc] the bytes stored in [data[0..i)] so far. *)
Fixpoint iic_read_loop (n : nat) (handle : N) (len : Z) (i : Z) (acc : list Z)
    : StateErr Mem (option IIC_Result * list Z) :=
  match n with
  | O => mret (None, acc)
  | S n' =>
    '(result, byte) ← iic_read_byte handle true (if i <? len - 1 then 1 else 0);
    if decide (result ≠ IIC_OK) then
      iic_stop handle;; mret (Some result, acc)
    else iic_read_loop n' handle len (i + 1) (acc ++ option_list byte)
  end.

(** [data] tells whether the destination pointer is non-NULL; the bytes
    stored in [data[0..]] are returned next to the result. *)
Definition iic_read (handle : N) (addr : Z) (data : bool) (len : Z)
    : StateErr Mem (IIC_Result * list Z) :=
  if decide (handle = 0%N) then mret (IIC_ERR_INVALID_PARAM, [])
  else if negb data then mret (IIC_ERR_INVALID_PARAM, [])
  else if len =? 0 then mret (IIC_ERR_INVALID_PARAM, [])
  else
    result ← iic_start handle;
    if decide (result ≠ IIC_OK) then mret (result, [])
    else
      result ← iic_write_byte handle (u8 (Z.lor (Z.shiftl addr 1) 0x01));
      if decide (result ≠ IIC_OK) then
        iic_stop handle;; mret (result, [])
      else
        '(early, bytes) ← iic_read_loop (Z.to_nat len) handle len 0 [];
        match early with
        | Some result => mret (result, bytes)
        | None => iic_stop handle;; mret (IIC_OK, bytes)
        end.

(* ===================================================================== *)
(** ** Protocol driver (aht21.c) *)
(* ===================================================================== *)

(** Dereference of an [AHT21_Handle*]. *)
Definition load_aht21 (p : N) : StateErr Mem AHT21_Handle :=
  λ m, match aht21_handles m !! p with
       | Some h => Some (h, m)
       | None => None
       end.

Definition store_aht21 (p : N) (h : AHT21_Handle) : StateErr Mem unit :=
  λ m, match aht21_handles m !! p with
       | Some _ => Some (tt, put_aht21 p h m)
       | None => None
       end.

Definition with_state (s : AHT21_State) (h : AHT21_Handle) : AHT21_Handle :=
  {| iic := iic h; state := s; measure_ticks := measure_ticks h;
     raw_data := raw_data h; temperature := temperature h;
     humidity := humidity h; measure_interval := measure_interval h |}.

Definition with_measure_ticks (t : Z) (h : AHT21_Handle) : AHT21_Handle :=
  {| iic := iic h; state := state h; measure_ticks := t;
     raw_data := raw_data h; temperature := temperature h;
     humidity := humidity h; measure_interval := measure_interval h |}.

Definition with_raw_data (r : list Z) (h : AHT21_Handle) : AHT21_Handle :=
  {| iic := iic h; state := state h; measure_ticks := measure_ticks h;
     raw_data := r; temperature := temperature h;
     humidity := humidity h; measure_interval := measure_interval h |}.

Definition with_readings (t hu : f32) (h : AHT21_Handle) : AHT21_Handle :=
  {| iic := iic h; state := state h; measure_ticks := measure_ticks h;
     raw_data := raw_data h; temperature := t;
     humidity := hu; measure_interval := measure_interval h |}.

(** [handle->field = value] *)
Definition update_aht21 (p : N) (f : AHT21_Handle → AHT21_Handle)
    : StateErr Mem unit :=
  h ← load_aht21 p; store_aht21 p (f h).

(** A read of [raw_data[i]]. *)
Definition raw_byte (h : AHT21_Handle) (i : nat) : StateErr Mem Z :=
  match raw_data h !! i with
  | Some b => mret b
  | None => undefined
  end.

(** The status byte is returned next to the result when it was stored. *)
Definition aht21_check_status (handle : N)
    : StateErr Mem (AHT21_Result * option Z) :=
  h ← load_aht21 handle;
  '(result, bytes) ← iic_read (iic h) AHT21_ADDR true 1;
  if decide (result ≠ IIC_OK) then mret (AHT21_ERR_IIC, None)
  else mret (AHT21_OK, head bytes).

Definition humidity_raw_of (r1 r2 r3 : Z) : Z :=
  Z.lor (Z.lor (u32 (Z.shiftl r1 12)) (u32 (Z.shiftl r2 4))) (Z.shiftr r3 4).

Definition temperature_raw_of (r3 r4 r5 : Z) : Z :=
  Z.lor (Z.lor (u32 (Z.shiftl (Z.land r3 0x0F) 16)) (u32 (Z.shiftl r4 8))) r5.

Definition humidity_of_raw (humidity_raw : Z) : f32 :=
  f32_div (f32_mul (f32_of_Z humidity_raw) (f32_of_Z 100)) (f32_of_Z 1048576).

Definition temperature_of_raw (temperature_raw : Z) : f32 :=
  f32_sub
    (f32_div (f32_mul (f32_of_Z temperature_raw) (f32_of_Z 200))
             (f32_of_Z 1048576))
    (f32_of_Z 50).

Definition aht21_parse_data (handle : N) : StateErr Mem unit :=
  h ← load_aht21 handle;
  r1 ← raw_byte h 1; r2 ← raw_byte h 2; r3 ← raw_byte h 3;
  r4 ← raw_byte h 4; r5 ← raw_byte h 5;
  let humidity_raw := humidity_raw_of r1 r2 r3 in
  let temperature_raw := temperature_raw_of r3 r4 r5 in
  store_aht21 handle
    (with_readings (temperature_of_raw temperature_raw)
                   (humidity_of_raw humidity_raw) h).

Definition aht21_init (handle : N) (iic_p : N) : StateErr Mem AHT21_Result :=
  if decide (handle = 0%N) then mret AHT21_ERR_INVALID_PARAM
  else if decide (iic_p = 0%N) then mret AHT21_ERR_INVALID_PARAM
  else
    store_aht21 handle
      {| iic := iic_p; state := AHT21_STATE_INIT; measure_ticks := 0;
         raw_data := replicate 7 0; temperature := f32_zero;
         humidity := f32_zero; measure_interval := 100 |};;
    ops ← load_hal iic_p;
    (if delay_ms ops then hal_delay_ms iic_p 40 else mret tt);;
    result ← iic_write iic_p AHT21_ADDR (Some [AHT21_CMD_INIT; 0x08; 0x00]) 3;
    if decide (result ≠ IIC_OK) then
      update_aht21 handle (with_state AHT21_STATE_ERROR);;
      mret AHT21_ERR_IIC
    else
      ops ← load_hal iic_p;
      (if delay_ms ops then hal_delay_ms iic_p 10 else mret tt);;
      '(result, status) ← aht21_check_status handle;
      if decide (result ≠ AHT21_OK) then
        update_aht21 handle (with_state AHT21_STATE_ERROR);;
        mret AHT21_ERR_IIC
      else
        match status with
        | None => undefined
        | Some status =>
          if Z.land status AHT21_STATUS_CALIBRATED =? 0 then
            update_aht21 handle (with_state AHT21_STATE_ERROR);;
            mret AHT21_ERR_NOT_INIT
          else
            update_aht21 handle (with_state AHT21_STATE_IDLE);;
            mret AHT21_OK
        end.

Definition aht21_soft_reset (handle : N) : StateErr Mem AHT21_Result :=
  if decide (handle = 0%N) then mret AHT21_ERR_INVALID_PARAM
  else
    h ← load_aht21 handle;
    result ← iic_write (iic h) AHT21_ADDR (Some [AHT21_CMD_SOFT_RESET]) 1;
    if decide (result ≠ IIC_OK) then mret AHT21_ERR_IIC
    else
      ops ← load_hal (iic h);
      (if delay_ms ops then hal_delay_ms (iic h) 20 else mret tt);;
      update_aht21 handle (with_state AHT21_STATE_IDLE);;
      mret AHT21_OK.

Definition aht21_trigger_measure (handle : N) : StateErr Mem AHT21_Result :=
  if decide (handle = 0%N) then mret AHT21_ERR_INVALID_PARAM
  else
    h ← load_aht21 handle;
    if decide (state h = AHT21_STATE_WAIT_MEASURE) then mret AHT21_ERR_BUSY
    else
      result ← iic_write (iic h) AHT21_ADDR
                 (Some [AHT21_CMD_TRIGGER; 0x33; 0x00]) 3;
      if decide (result ≠ IIC_OK) then mret AHT21_ERR_IIC
      else
        update_aht21 handle (with_state AHT21_STATE_WAIT_MEASURE);;
        update_aht21 handle (with_measure_ticks 0);;
        mret AHT21_OK.

Definition aht21_read_data (handle : N) : StateErr Mem AHT21_Result :=
  if decide (handle = 0%N) then mret AHT21_ERR_INVALID_PARAM
  else
    '(result, status) ← aht21_check_status handle;
    if decide (result ≠ AHT21_OK) then mret AHT21_ERR_IIC
    else
      match status with
      | None => undefined
      | Some status =>
        if Z.land status AHT21_STATUS_BUSY =? 0 then
          h ← load_aht21 handle;
          '(result, bytes) ← iic_read (iic h) AHT21_ADDR true 7;
          (* the bytes received were stored in raw_data[0..] *)
          update_aht21 handle
            (λ h, with_raw_data (bytes ++ drop (length bytes) (raw_data h)) h);;
          if decide (result ≠ IIC_OK) then mret AHT21_ERR_IIC
          else
            aht21_parse_data handle;;
            update_aht21 handle (with_state AHT21_STATE_READY);;
            mret AHT21_OK
        else mret AHT21_ERR_BUSY
      end.

(** [temp] tells whether the destination pointer is non-NULL; the float
    stored through it, if any, is returned next to the result. *)
Definition aht21_get_temperature (handle : N) (temp : bool)
    : StateErr Mem (AHT21_Result * option f32) :=
  if decide (handle = 0%N) then mret (AHT21_ERR_INVALID_PARAM, None)
  else if negb temp then mret (AHT21_ERR_INVALID_PARAM, None)
  else
    h ← load_aht21 handle;
    if decide (state h ≠ AHT21_STATE_READY) then mret (AHT21_ERR_NOT_INIT, None)
    else mret (AHT21_OK, Some (temperature h)).

Definition aht21_get_humidity (handle : N) (humi : bool)
    : StateErr Mem (AHT21_Result * option f32) :=
  if decide (handle = 0%N) then mret (AHT21_ERR_INVALID_PARAM, None)
  else if negb humi then mret (AHT21_ERR_INVALID_PARAM, None)
  else
    h ← load_aht21 handle;
    if decide (state h ≠ AHT21_STATE_READY) then mret (AHT21_ERR_NOT_INIT, None)
    else mret (AHT21_OK, Some (humidity h)).

Definition aht21_ticks (handle : N) : StateErr Mem unit :=
  if decide (handle = 0%N) then mret tt
  else
    h ← load_aht21 handle;
    match state h with
    | AHT21_STATE_IDLE =>
      aht21_trigger_measure handle;; mret tt
    | AHT21_STATE_WAIT_MEASURE =>
      update_aht21 handle (λ h, with_measure_ticks (u32 (measure_ticks h + 1)) h);;
      h ← load_aht21 handle;
      if 80 / 5 <=? measure_ticks h then
        result ← aht21_read_data handle;
        if decide (result = AHT21_OK) then
          update_aht21 handle (with_state AHT21_STATE_READY)
        else mret tt
      else mret tt
    | AHT21_STATE_READY =>
      update_aht21 handle (λ h, with_measure_ticks (u32 (measure_ticks h + 1)) h);;
      h ← load_aht21 handle;
      if measure_interval h / 5 <=? measure_ticks h then
        update_aht21 handle (with_state AHT21_STATE_IDLE);;
        update_aht21 handle (with_measure_ticks 0)
      else mret tt
    | AHT21_STATE_ERROR =>
      aht21_soft_reset handle;; mret tt
    | AHT21_STATE_INIT =>
      update_aht21 handle (with_state AHT21_STATE_IDLE)
    end.

(** [temp] and [humi] tell whether the destination pointers are non-NULL;
    the two floats stored through them, if any, are returned next to the
    result. *)
Definition aht21_read_blocking (handle : N) (temp humi : bool)
    : StateErr Mem (AHT21_Result * option (f32 * f32)) :=
  if decide (handle = 0%N) then mret (AHT21_ERR_INVALID_PARAM, None)
  else if negb temp then mret (AHT21_ERR_INVALID_PARAM, None)
  else if negb humi then mret (AHT21_ERR_INVALID_PARAM, None)
  else
    result ← aht21_trigger_measure handle;
    if decide (result ≠ AHT21_OK) then mret (result, None)
    else
      h ← load_aht21 handle;
      ops ← load_hal (iic h);
      (if delay_ms ops then hal_delay_ms (iic h) 80 else mret tt);;
      result ← aht21_read_data handle;
      if decide (result ≠ AHT21_OK) then mret (result, None)
      else
        h ← load_aht21 handle;
        mret (AHT21_OK, Some (temperature h, humidity h)).

(* ===================================================================== *)
(** ** Generic sensor vocabulary (sensor.h) *)
(* ===================================================================== *)

Inductive SensorType :=
  | SENSOR_TYPE_UNKNOWN
  | SENSOR_TYPE_AHT21
  | SENSOR_TYPE_SHT30
  | SENSOR_TYPE_DHT11
  | SENSOR_TYPE_DHT22.

Inductive SensorState :=
  | SENSOR_STATE_IDLE
  | SENSOR_STATE_MEASURING
  | SENSOR_STATE_READY
  | SENSOR_STATE_ERROR.

#[global] Instance SensorState_eq_dec : EqDecision SensorState.
Proof. solve_decision. Defined.

Inductive SensorResult :=
  | SENSOR_OK
  | SENSOR_ERR_INIT
  | SENSOR_ERR_BUSY
  | SENSOR_ERR_TIMEOUT
  | SENSOR_ERR_COMM
  | SENSOR_ERR_INVALID_PARAM
  | SENSOR_ERR_NOT_READY.

#[global] Instance SensorResult_eq_dec : EqDecision SensorResult.
Proof. solve_decision. Defined.

(* ===================================================================== *)
(** ** Backend adapter (temp_humi_adapter.c) *)
(* ===================================================================== *)

(** The result translations written inline in the adapter functions. *)
Definition adapter_reset_result (result : AHT21_Result) : SensorResult :=
  if decide (result = AHT21_OK) then SENSOR_OK else SENSOR_ERR_COMM.

Definition adapter_measure_result (result : AHT21_Result) : SensorResult :=
  if decide (result = AHT21_OK) then SENSOR_OK
  else if decide (result = AHT21_ERR_BUSY) then SENSOR_ERR_BUSY
  else SENSOR_ERR_COMM.

Definition adapter_getter_result (result : AHT21_Result) : SensorResult :=
  if decide (result = AHT21_OK) then SENSOR_OK else SENSOR_ERR_NOT_READY.

(** The [switch] of [aht21_adapter_get_state]. *)
Definition adapter_state (s : AHT21_State) : SensorState :=
  match s with
  | AHT21_STATE_IDLE => SENSOR_STATE_IDLE
  | AHT21_STATE_WAIT_MEASURE => SENSOR_STATE_MEASURING
  | AHT21_STATE_READY => SENSOR_STATE_READY
  | AHT21_STATE_ERROR => SENSOR_STATE_ERROR
  | _ => SENSOR_STATE_IDLE
  end.

Definition aht21_adapter_init (handle : N) : StateErr Mem SensorResult :=
  mret SENSOR_OK.

Definition aht21_adapter_reset (handle : N) : StateErr Mem SensorResult :=
  result ← aht21_soft_reset handle;
  mret (adapter_reset_result result).

Definition aht21_adapter_trigger (handle : N) : StateErr Mem SensorResult :=
  result ← aht21_trigger_measure handle;
  mret (adapter_measure_result result).

Definition aht21_adapter_read (handle : N) : StateErr Mem SensorResult :=
  result ← aht21_read_data handle;
  mret (adapter_measure_result result).

Definition aht21_adapter_get_temp (handle : N) (temp : bool)
    : StateErr Mem (SensorResult * option f32) :=
  '(result, v) ← aht21_get_temperature handle temp;
  mret (adapter_getter_result result, v).

Definition aht21_adapter_get_humi (handle : N) (humi : bool)
    : StateErr Mem (SensorResult * option f32) :=
  '(result, v) ← aht21_get_humidity handle humi;
  mret (adapter_getter_result result, v).

Definition aht21_adapter_get_state (handle : N) : StateErr Mem SensorState :=
  aht21 ← load_aht21 handle;
  mret (adapter_state (state aht21)).

(* ===================================================================== *)
(** ** Sensor abstraction and scheduler (sensor.c) *)
(* ===================================================================== *)

(** The backend slots receive only the opaque driver handle: they act on
    the driver-side memory [D], never on the sensor instances or on the
    registry.  A slot is [None] when its function pointer is NULL.  The
    two getters are always called with the address of a field of the
    instance; the float they store there, if any, is part of their
    result. *)
Record SensorOps (D : Type) := {
  init : option (N → StateErr D SensorResult);
  reset : option (N → StateErr D SensorResult);
  trigger : option (N → StateErr D SensorResult);
  read : option (N → StateErr D SensorResult);
  get_temp : option (N → StateErr D (SensorResult * option f32));
  get_humi : option (N → StateErr D (SensorResult * option f32));
  get_state : option (N → StateErr D SensorState);
}.
Arguments init {D}.
Arguments reset {D}.
Arguments trigger {D}.
Arguments read {D}.
Arguments get_temp {D}.
Arguments get_humi {D}.
Arguments get_state {D}.

Record TempHumiSensor (D : Type) := {
  sensor_type : SensorType;
  sensor_ops : option (SensorOps D);      (* const SensorOps*, NULL is None *)
  sensor_driver_handle : N;               (* void* *)
  sensor_temperature : f32;
  sensor_humidity : f32;
  sensor_state : SensorState;
  sensor_next : N;                        (* TempHumiSensor* *)
}.
Arguments sensor_type {D}.
Arguments sensor_ops {D}.
Arguments sensor_driver_handle {D}.
Arguments sensor_temperature {D}.
Arguments sensor_humidity {D}.
Arguments sensor_state {D}.
Arguments sensor_next {D}.

(** The sensor instances, the global [head_sensor] and the driver-side
    memory the backends work on. *)
Record SensorWorld (D : Type) := {
  driver : D;
  sensors : gmap N (TempHumiSensor D);
  head_sensor : N;
}.
Arguments driver {D}.
Arguments sensors {D}.
Arguments head_sensor {D}.

(** The aht21_ops table. *)
Definition aht21_ops : SensorOps Mem := {|
  init := Some aht21_adapter_init;
  reset := Some aht21_adapter_reset;
  trigger := Some aht21_adapter_trigger;
  read := Some aht21_adapter_read;
  get_temp := Some (λ handle, aht21_adapter_get_temp handle true);
  get_humi := Some (λ handle, aht21_adapter_get_humi handle true);
  get_state := Some aht21_adapter_get_state;
|}.

Section Sensor.
Context {D : Type}.

Abbreviation World := (SensorWorld D).
Abbreviation Sensor := (TempHumiSensor D).

Definition with_cached_state (s : SensorState) (h : Sensor) : Sensor :=
  {| sensor_type := sensor_type h; sensor_ops := sensor_ops h;
     sensor_driver_handle := sensor_driver_handle h;
     sensor_temperature := sensor_temperature h;
     sensor_humidity := sensor_humidity h;
     sensor_state := s; sensor_next := sensor_next h |}.

Definition with_cached_temperature (t : f32) (h : Sensor) : Sensor :=
  {| sensor_type := sensor_type h; sensor_ops := sensor_ops h;
     sensor_driver_handle := sensor_driver_handle h;
     sensor_temperature := t;
     sensor_humidity := sensor_humidity h;
     sensor_state := sensor_state h; sensor_next := sensor_next h |}.

Definition with_cached_humidity (hu : f32) (h : Sensor) : Sensor :=
  {| sensor_type := sensor_type h; sensor_ops := sensor_ops h;
     sensor_driver_handle := sensor_driver_handle h;
     sensor_temperature := sensor_temperature h;
     sensor_humidity := hu;
     sensor_state := sensor_state h; sensor_next := sensor_next h |}.

Definition with_next (n : N) (h : Sensor) : Sensor :=
  {| sensor_type := sensor_type h; sensor_ops := sensor_ops h;
     sensor_driver_handle := sensor_driver_handle h;
     sensor_temperature := sensor_temperature h;
     sensor_humidity := sensor_humidity h;
     sensor_state := sensor_state h; sensor_next := n |}.

Definition put_sensor (p : N) (h : Sensor) (w : World) : World :=
  {| driver := driver w; sensors := <[p := h]> (sensors w);
     head_sensor := head_sensor w |}.

Definition put_head (p : N) (w : World) : World :=
  {| driver := driver w; sensors := sensors w; head_sensor := p |}.

Definition put_driver (d : D) (w : World) : World :=
  {| driver := d; sensors := sensors w; head_sensor := head_sensor w |}.

(** Dereference of a [TempHumiSensor*]. *)
Definition load_sensor (p : N) : StateErr World Sensor :=
  λ w, match sensors w !! p with
       | Some h => Some (h, w)
       | None => None
       end.

Definition store_sensor (p : N) (h : Sensor) : StateErr World unit :=
  λ w, match sensors w !! p with
       | Some _ => Some (tt, put_sensor p h w)
       | None => None
       end.

Definition update_sensor (p : N) (f : Sensor → Sensor) : StateErr World unit :=
  h ← load_sensor p; store_sensor p (f h).

(** [handle->ops] followed by a dereference of the table. *)
Definition load_ops (p : N) : StateErr World (SensorOps D) :=
  h ← load_sensor p;
  match sensor_ops h with
  | Some ops => mret ops
  | None => undefined
  end.

(** A call of a backend function on the driver-side memory. *)
Definition call_backend {A} (f : StateErr D A) : StateErr World A :=
  λ w, match f (driver w) with
       | Some (a, d) => Some (a, put_driver d w)
       | None => None
       end.

(** A call through a slot that the code does not test for NULL. *)
Definition call_slot {A} (slot : option (N → StateErr D A)) (d : N)
    : StateErr World A :=
  match slot with
  | Some f => call_backend (f d)
  | None => undefined
  end.

Definition sensor_init (handle : N) (type : SensorType)
    (ops : option (SensorOps D)) (driver_handle : N) : StateErr World unit :=
  if decide (handle = 0%N) then mret tt
  else match ops with
  | None => mret tt
  | Some _ =>
    if decide (driver_handle = 0%N) then mret tt
    else
      store_sensor handle
        {| sensor_type := type; sensor_ops := ops;
           sensor_driver_handle := driver_handle;
           sensor_temperature := f32_zero; sensor_humidity := f32_zero;
           sensor_state := SENSOR_STATE_IDLE; sensor_next := 0%N |};;
      table ← load_ops handle;
      match init table with
      | Some f => call_backend (f driver_handle);; mret tt
      | None => mret tt
      end
  end.

Definition sensor_reset (handle : N) : StateErr World SensorResult :=
  if decide (handle = 0%N) then mret SENSOR_ERR_INVALID_PARAM
  else
    table ← load_ops handle;
    match reset table with
    | None => mret SENSOR_ERR_INVALID_PARAM
    | Some f =>
      h ← load_sensor handle;
      result ← call_backend (f (sensor_driver_handle h));
      (if decide (result = SENSOR_OK) then
         update_sensor handle (with_cached_state SENSOR_STATE_IDLE)
       else mret tt);;
      mret result
    end.

Definition sensor_trigger_measure (handle : N) : StateErr World SensorResult :=
  if decide (handle = 0%N) then mret SENSOR_ERR_INVALID_PARAM
  else
    table ← load_ops handle;
    match trigger table with
    | None => mret SENSOR_ERR_INVALID_PARAM
    | Some f =>
      h ← load_sensor handle;
      result ← call_backend (f (sensor_driver_handle h));
      (if decide (result = SENSOR_OK) then
         update_sensor handle (with_cached_state SENSOR_STATE_MEASURING)
       else mret tt);;
      mret result
    end.

Definition sensor_read_data (handle : N) : StateErr World SensorResult :=
  if decide (handle = 0%N) then mret SENSOR_ERR_INVALID_PARAM
  else
    table ← load_ops handle;
    match read table with
    | None => mret SENSOR_ERR_INVALID_PARAM
    | Some f =>
      h ← load_sensor handle;
      result ← call_backend (f (sensor_driver_handle h));
      (if decide (result = SENSOR_OK) then
         table ← load_ops handle;
         h ← load_sensor handle;
         '(_, t) ← call_slot (get_temp table) (sensor_driver_handle h);
         match t with
         | Some t => update_sensor handle (with_cached_temperature t)
         | None => mret tt
         end;;
         table ← load_ops handle;
         h ← load_sensor handle;
         '(_, hu) ← call_slot (get_humi table) (sensor_driver_handle h);
         match hu with
         | Some hu => update_sensor handle (with_cached_humidity hu)
         | None => mret tt
         end;;
         update_sensor handle (with_cached_state SENSOR_STATE_READY)
       else mret tt);;
      mret result
    end.

(** [temp] tells whether the destination pointer is non-NULL; the float
    stored through it, if any, is returned next to the result. *)
Definition sensor_get_temperature (handle : N) (temp : bool)
    : StateErr World (SensorResult * option f32) :=
  if decide (handle = 0%N) then mret (SENSOR_ERR_INVALID_PARAM, None)
  else if negb temp then mret (SENSOR_ERR_INVALID_PARAM, None)
  else
    h ← load_sensor handle;
    if decide (sensor_state h ≠ SENSOR_STATE_READY)
    then mret (SENSOR_ERR_NOT_READY, None)
    else mret (SENSOR_OK, Some (sensor_temperature h)).

Definition sensor_get_humidity (handle : N) (humi : bool)
    : StateErr World (SensorResult * option f32) :=
  if decide (handle = 0%N) then mret (SENSOR_ERR_INVALID_PARAM, None)
  else if negb humi then mret (SENSOR_ERR_INVALID_PARAM, None)
  else
    h ← load_sensor handle;
    if decide (sensor_state h ≠ SENSOR_STATE_READY)
    then mret (SENSOR_ERR_NOT_READY, None)
    else mret (SENSOR_OK, Some (sensor_humidity h)).

(** [temp] and [humi] tell whether the destination pointers are non-NULL;
    the two floats stored through them, if any, are returned next to the
    result. *)
Definition sensor_get_both (handle : N) (temp humi : bool)
    : StateErr (SensorWorld D) (SensorResult * option (f32 * f32)) :=
  if decide (handle = 0%N) then mret (SENSOR_ERR_INVALID_PARAM, None)
  else if negb temp then mret (SENSOR_ERR_INVALID_PARAM, None)
  else if negb humi then mret (SENSOR_ERR_INVALID_PARAM, None)
  else
    h ← load_sensor handle;
    if decide (sensor_state h ≠ SENSOR_STATE_READY)
    then mret (SENSOR_ERR_NOT_READY, None)
    else mret (SENSOR_OK, Some (sensor_temperature h, sensor_humidity h)).

Definition sensor_get_state (handle : N) : StateErr World SensorState :=
  if decide (handle = 0%N) then mret SENSOR_STATE_ERROR
  else
    table ← load_ops handle;
    match get_state table with
    | None => mret SENSOR_STATE_ERROR
    | Some f =>
      h ← load_sensor handle;
      call_backend (f (sensor_driver_handle h))
    end.

(** The polling loop of [sensor_read_blocking]; [timeout] is the counter
    as the test [timeout--] finds it. *)
Fixpoint sensor_read_blocking_poll (timeout : nat) (handle : N)
    : StateErr (SensorWorld D) unit :=
  match timeout with
  | O => mret tt
  | S timeout' =>
    state ← sensor_get_state handle;
    if decide (state = SENSOR_STATE_READY ∨ state ≠ SENSOR_STATE_MEASURING)
    then mret tt
    else sensor_read_blocking_poll timeout' handle
  end.

Definition sensor_read_blocking (handle : N) (temp humi : bool)
    : StateErr (SensorWorld D) (SensorResult * option (f32 * f32)) :=
  if decide (handle = 0%N) then mret (SENSOR_ERR_INVALID_PARAM, None)
  else if negb temp then mret (SENSOR_ERR_INVALID_PARAM, None)
  else if negb humi then mret (SENSOR_ERR_INVALID_PARAM, None)
  else
    result ← sensor_trigger_measure handle;
    if decide (result ≠ SENSOR_OK) then mret (result, None)
    else
      sensor_read_blocking_poll (Z.to_nat 1000) handle;;
      result ← sensor_read_data handle;
      if decide (result ≠ SENSOR_OK) then mret (result, None)
      else sensor_get_both handle temp humi.

(** The scan of [sensor_start]; [true] when [handle] was met.  The loops
    over the registry take a bound on the number of iterations: running
    out of it gives no result. *)
Fixpoint sensor_start_scan (fuel : nat) (target handle : N)
    : StateErr World bool :=
  match fuel with
  | O => undefined
  | S fuel' =>
    if decide (target = 0%N) then mret false
    else if decide (target = handle) then mret true
    else
      t ← load_sensor target;
      sensor_start_scan fuel' (sensor_next t) handle
  end.

Definition sensor_start (fuel : nat) (handle : N) : StateErr World Z :=
  if decide (handle = 0%N) then mret (-2)
  else
    w ← get_state_of;
    found ← sensor_start_scan fuel (head_sensor w) handle;
    if (found : bool) then mret (-1)
    else
      w ← get_state_of;
      update_sensor handle (with_next (head_sensor w));;
      modify (put_head handle);;
      mret 0.

(** What [curr] of [sensor_stop] points to: the global head or the [next]
    field of an instance. *)
Inductive Link :=
  | LinkHead
  | LinkNext (p : N).

Definition read_link (curr : Link) : StateErr World N :=
  match curr with
  | LinkHead => w ← get_state_of; mret (head_sensor w)
  | LinkNext p => h ← load_sensor p; mret (sensor_next h)
  end.

Definition write_link (curr : Link) (v : N) : StateErr World unit :=
  match curr with
  | LinkHead => modify (put_head v)
  | LinkNext p => update_sensor p (with_next v)
  end.

Fixpoint sensor_stop_loop (fuel : nat) (curr : Link) (handle : N)
    : StateErr World unit :=
  match fuel with
  | O => undefined
  | S fuel' =>
    entry ← read_link curr;
    if decide (entry = 0%N) then mret tt
    else if decide (entry = handle) then
      e ← load_sensor entry;
      write_link curr (sensor_next e);;
      update_sensor entry (with_next 0%N)
    else sensor_stop_loop fuel' (LinkNext entry) handle
  end.

Definition sensor_stop (fuel : nat) (handle : N) : StateErr World unit :=
  if decide (handle = 0%N) then mret tt
  else sensor_stop_loop fuel LinkHead handle.

Definition sensor_handler (handle : N) : StateErr World unit :=
  state ← sensor_get_state handle;
  match state with
  | SENSOR_STATE_IDLE => sensor_trigger_measure handle;; mret tt
  | SENSOR_STATE_MEASURING => sensor_read_data handle;; mret tt
  | SENSOR_STATE_READY => mret tt
  | SENSOR_STATE_ERROR => sensor_reset handle;; mret tt
  end.

Fixpoint sensor_ticks_loop (fuel : nat) (target : N) : StateErr World unit :=
  match fuel with
  | O => undefined
  | S fuel' =>
    if decide (target = 0%N) then mret tt
    else
      sensor_handler target;;
      t ← load_sensor target;
      sensor_ticks_loop fuel' (sensor_next t)
  end.

Definition sensor_ticks (fuel : nat) : StateErr World unit :=
  w ← get_state_of;
  sensor_ticks_loop fuel (head_sensor w).

End Sensor.

(* ===================================================================== *)
(** ** What the bus primitives put on the pins *)
(* ===================================================================== *)

(** The call of [delay_us] made by [iic_delay], if any. *)
Definition half_period (h : IIC_Handle) : list PinEvent :=
  match hal_ops h with
  | Some ops =>
    if delay_us ops then [EvDelayUs (Z.max (500 / speed_khz h) 1)] else []
  | None => []
  end.

(** The table has every hook the primitives call unguarded, and the
    division of [iic_delay] is defined when it is reached. *)
Definition hal_complete (h : IIC_Handle) (ops : IIC_HAL_Ops) : Prop :=
  hal_ops h = Some ops ∧
  set_sda ops = true ∧ set_scl ops = true ∧
  read_sda ops = true ∧ sda_mode ops = true ∧
  (delay_us ops = true → speed_khz h ≠ 0).

Definition with_bus_busy (b : Z) (h : IIC_Handle) : IIC_Handle :=
  {| hal_ops := hal_ops h; speed_khz := speed_khz h;
     timeout_ms := timeout_ms h; bus_busy := b |}.

(** [evs] more platform calls, [k] of them reads of the input line. *)
Definition step (evs : list PinEvent) (k : nat) (m : Mem) : Mem :=
  {| pins := pins m ++ evs; sda_line := sda_line m;
     sda_reads := (k + sda_reads m)%nat;
     iic_handles := iic_handles m; aht21_handles := aht21_handles m |}.

Definition start_pins (d : list PinEvent) : list PinEvent :=
  [EvSdaMode 1; EvSetSda 1; EvSetScl 1] ++ d ++ [EvSetSda 0] ++ d ++
  [EvSetScl 0].

Definition stop_pins (d : list PinEvent) : list PinEvent :=
  [EvSdaMode 1; EvSetScl 0; EvSetSda 0] ++ d ++ [EvSetScl 1] ++ d ++
  [EvSetSda 1] ++ d.

Fixpoint send_bits_pins (n : nat) (d : list PinEvent) (data : Z)
    : list PinEvent :=
  match n with
  | O => []
  | S n' =>
    [EvSetSda (if Z.land data 0x80 =? 0 then 0 else 1)] ++ d ++
    [EvSetScl 1] ++ d ++ [EvSetScl 0] ++
    send_bits_pins n' d (u8 (Z.shiftl data 1))
  end.

Definition write_byte_pins (d : list PinEvent) (data level : Z)
    : list PinEvent :=
  [EvSdaMode 1; EvSetScl 0] ++ send_bits_pins 8 d data ++
  [EvSetSda 1; EvSdaMode 0] ++ d ++ [EvSetScl 1] ++ d ++
  [EvReadSda level; EvSetScl 0].

(** The byte assembled by the receive loop from the levels the input line
    returns from read number [pos] on. *)
Fixpoint recv_bits (n : nat) (line : nat → Z) (pos : nat) (receive : Z) : Z :=
  match n with
  | O => receive
  | S n' =>
    let receive := u8 (Z.shiftl receive 1) in
    recv_bits n' line (S pos)
      (if u8 (line pos) =? 0 then receive else Z.lor receive 0x01)
  end.

Definition bus_byte (line : nat → Z) (pos : nat) : Z := recv_bits 8 line pos 0.

Fixpoint recv_bits_pins (n : nat) (d : list PinEvent) (line : nat → Z)
    (pos : nat) : list PinEvent :=
  match n with
  | O => []
  | S n' =>
    [EvSetScl 0] ++ d ++ [EvSetScl 1; EvReadSda (u8 (line pos))] ++ d ++
    recv_bits_pins n' d line (S pos)
  end.

Definition read_byte_pins (d : list PinEvent) (line : nat → Z) (pos : nat)
    (ack : Z) : list PinEvent :=
  [EvSdaMode 0] ++ recv_bits_pins 8 d line pos ++
  [EvSetScl 0; EvSdaMode 1; EvSetSda (if ack =? 0 then 1 else 0)] ++ d ++
  [EvSetScl 1] ++ d ++ [EvSetScl 0].

(** The acknowledgment level sampled after the [i]-th byte written from
    memory [m] on. *)
Definition ack_level (m : Mem) (i : nat) : Z :=
  u8 (sda_line m (i + sda_reads m)%nat).

(** Calls of [iic_write_byte] in sequence, results dropped. *)
Fixpoint write_bytes (handle : N) (bytes : list Z) : StateErr Mem unit :=
  match bytes with
  | [] => mret tt
  | b :: bs => iic_write_byte handle b;; write_bytes handle bs
  end.

(** The pins driven by [write_bytes]. *)
Fixpoint write_bytes_pins (d : list PinEvent) (line : nat → Z) (pos : nat)
    (bytes : list Z) : list PinEvent :=
  match bytes with
  | [] => []
  | b :: bs =>
    write_byte_pins d b (u8 (line pos)) ++ write_bytes_pins d line (S pos) bs
  end.

(** The bytes [iic_write] puts on the bus when nothing stops it: the
    address with the write-direction bit, then the payload. *)
Definition write_frame (addr : Z) (bytes : list Z) (len : Z) : list Z :=
  u8 (Z.shiftl addr 1) :: take (Z.to_nat len) bytes.

(** How many bytes of [frame] go out before the transfer ends: a byte
    whose acknowledgment level is not 0 is the last one. *)
Fixpoint transmitted (line : nat → Z) (pos : nat) (frame : list Z) : nat :=
  match frame with
  | [] => O
  | _ :: rest =>
    if u8 (line pos) =? 0 then S (transmitted line (S pos) rest) else 1%nat
  end.

(** Whether every byte of [frame] is acknowledged. *)
Fixpoint frame_acked (line : nat → Z) (pos : nat) (frame : list Z) : bool :=
  match frame with
  | [] => true
  | _ :: rest =>
    if u8 (line pos) =? 0 then frame_acked line (S pos) rest else false
  end.

(** The bytes [iic_read] receives: [n] bytes, eight reads each, from read
    number [pos] on. *)
Fixpoint read_bytes (line : nat → Z) (pos : nat) (n : nat) : list Z :=
  match n with
  | O => []
  | S n' => bus_byte line pos :: read_bytes line (8 + pos) n'
  end.

(** The pins driven by the receive loop of [iic_read]. *)
Fixpoint read_bytes_pins (d : list PinEvent) (line : nat → Z) (pos : nat)
    (len i : Z) (n : nat) : list PinEvent :=
  match n with
  | O => []
  | S n' =>
    read_byte_pins d line pos (if i <? len - 1 then 1 else 0) ++
    read_bytes_pins d line (8 + pos) len (i + 1) n'
  end.

(** The memory [iic_write] leaves behind. *)
Definition write_mem (handle : N) (h : IIC_Handle) (addr : Z)
    (bytes : list Z) (len : Z) (m : Mem) : Mem :=
  let d := half_period h in
  let frame := write_frame addr bytes len in
  let k := transmitted (sda_line m) (sda_reads m) frame in
  step (start_pins d ++
        write_bytes_pins d (sda_line m) (sda_reads m) (take k frame) ++
        stop_pins d) k
    (put_iic handle (with_bus_busy 0 h) m).

(** The memory [iic_read] leaves behind. *)
Definition read_mem (handle : N) (h : IIC_Handle) (addr len : Z) (m : Mem)
    : Mem :=
  let d := half_period h in
  let target := u8 (Z.lor (Z.shiftl addr 1) 0x01) in
  let n := Z.to_nat len in
  if sample m =? 0
  then step (start_pins d ++ write_byte_pins d target (sample m) ++
             read_bytes_pins d (sda_line m) (S (sda_reads m)) len 0 n ++
             stop_pins d)
            (S (8 * n)) (put_iic handle (with_bus_busy 0 h) m)
  else step (start_pins d ++ write_byte_pins d target (sample m) ++
             stop_pins d)
            1 (put_iic handle (with_bus_busy 0 h) m).

(** The driver handle and its bus are allocated, and the bus has a working
    platform table. *)
Definition driver_ok (handle : N) (dev : AHT21_Handle) (bus : IIC_Handle)
    (ops : IIC_HAL_Ops) (m : Mem) : Prop :=
  handle ≠ 0%N ∧
  aht21_handles m !! handle = Some dev ∧
  iic dev ≠ 0%N ∧
  iic_handles m !! iic dev = Some bus ∧
  hal_complete bus ops.

(** The optional millisecond wait of the driver. *)
Definition settle (ops : IIC_HAL_Ops) (ms : Z) (m : Mem) : Mem :=
  if delay_ms ops then step [EvDelayMs ms] 0 m else m.

(** The handle after a completed [aht21_read_data] that received [bytes]. *)
Definition decoded (bytes : list Z) (dev : AHT21_Handle) : AHT21_Handle :=
  let raw := bytes ++ drop (length bytes) (raw_data dev) in
  let byte i := nth i raw 0 in
  with_state AHT21_STATE_READY
    (with_readings
       (temperature_of_raw (temperature_raw_of (byte 3%nat) (byte 4%nat) (byte 5%nat)))
       (humidity_of_raw (humidity_raw_of (byte 1%nat) (byte 2%nat) (byte 3%nat)))
       (with_raw_data raw dev)).

(** The state of the driver at [handle], if allocated. *)
Definition state_at (handle : N) (m : Mem) : option AHT21_State :=
  state <$> aht21_handles m !! handle.

(** What a call leaves behind: a result, the memory, the handle and its
    bus, still in working order. *)
Definition lands (handle : N) (ops : IIC_HAL_Ops) {A} (c : StateErr Mem A)
    (m : Mem) (Q : A → AHT21_Handle → Prop) : Prop :=
  ∃ a m' dev' bus',
    c m = Some (a, m') ∧ driver_ok handle dev' bus' ops m' ∧ Q a dev'.

(** The operations that advance the driver after construction. *)
Inductive DriverStep :=
  | StepTrigger
  | StepRead
  | StepReset
  | StepTicks.

Definition run_step (s : DriverStep) (handle : N) : StateErr Mem unit :=
  match s with
  | StepTrigger => aht21_trigger_measure handle;; mret tt
  | StepRead => aht21_read_data handle;; mret tt
  | StepReset => aht21_soft_reset handle;; mret tt
  | StepTicks => aht21_ticks handle
  end.

Fixpoint run_steps (steps : list DriverStep) (handle : N) : StateErr Mem unit :=
  match steps with
  | [] => mret tt
  | s :: rest => run_step s handle;; run_steps rest handle
  end.

(** The state after one tick, by the state before it. *)
Definition tick_outcome (before after : AHT21_State) : Prop :=
  match before with
  | AHT21_STATE_IDLE =>
    after = AHT21_STATE_IDLE ∨ after = AHT21_STATE_WAIT_MEASURE
  | AHT21_STATE_WAIT_MEASURE =>
    after = AHT21_STATE_WAIT_MEASURE ∨ after = AHT21_STATE_READY
  | AHT21_STATE_READY =>
    after = AHT21_STATE_READY ∨ after = AHT21_STATE_IDLE
  | AHT21_STATE_ERROR =>
    after = AHT21_STATE_ERROR ∨ after = AHT21_STATE_IDLE
  | AHT21_STATE_INIT => after = AHT21_STATE_IDLE
  end.

(** What a call returned and the state it left the driver at [handle] in. *)
Definition outcome {A} (handle : N) (r : option (A * Mem))
    : option (A * option AHT21_State) :=
  match r with
  | Some (a, m') => Some (a, state_at handle m')
  | None => None
  end.

(** The result kinds the driver's measurement calls produce on a non-NULL
    handle, and those of its reset and of its getters. *)
Definition measure_kinds : list AHT21_Result :=
  [AHT21_OK; AHT21_ERR_BUSY; AHT21_ERR_IIC].
Definition reset_kinds : list AHT21_Result := [AHT21_OK; AHT21_ERR_IIC].
Definition getter_kinds : list AHT21_Result := [AHT21_OK; AHT21_ERR_NOT_INIT].

(** The states of a constructed driver: INIT is left before [aht21_init]
    returns. *)
Definition operational (s : AHT21_State) : Prop := s ≠ AHT21_STATE_INIT.

(** The instances reached from [p] by following [next] up to NULL. *)
Fixpoint chain {D} (s : gmap N (TempHumiSensor D)) (p : N) (l : list N)
    : Prop :=
  match l with
  | [] => p = 0%N
  | x :: rest =>
    p = x ∧ x ≠ 0%N ∧
    ∃ node, s !! x = Some node ∧ chain s (sensor_next node) rest
  end.

(** The scheduler registry holds the instances [l], in this order. *)
Definition registry {D} (w : SensorWorld D) (l : list N) : Prop :=
  chain (sensors w) (head_sensor w) l.

(** What a [Link] points to holds [p]. *)
Definition link_target {D} (w : SensorWorld D) (curr : Link) : option N :=
  match curr with
  | LinkHead => Some (head_sensor w)
  | LinkNext y => sensor_next <$> sensors w !! y
  end.

(** Calls of [f] on the instances of [l], in order. *)
Fixpoint for_each {S} (l : list N) (f : N → StateErr S unit)
    : StateErr S unit :=
  match l with
  | [] => mret tt
  | x :: rest => f x;; for_each rest f
  end.

(** The computation leaves the registry links alone: the head and every
    [next] field are as before, and so is what is allocated. *)
Definition keeps_links {D A} (c : StateErr (SensorWorld D) A) : Prop :=
  ∀ w a w', c w = Some (a, w') →
    head_sensor w' = head_sensor w ∧
    ∀ q, sensor_next <$> sensors w' !! q = sensor_next <$> sensors w !! q.

(* ===================================================================== *)
(** ** A concrete board: one bus at address 1, one AHT21 at address 2 *)
(* ===================================================================== *)

Definition demo_hal : IIC_HAL_Ops :=
  {| delay_us := true; delay_ms := true; set_sda := true; set_scl := true;
     read_sda := true; sda_mode := true |}.

(** A platform table without the microsecond delay. *)
Definition quiet_hal : IIC_HAL_Ops :=
  {| delay_us := false; delay_ms := true; set_sda := true; set_scl := true;
     read_sda := true; sda_mode := true |}.

Definition board_bus (ops : IIC_HAL_Ops) (speed : Z) : IIC_Handle :=
  {| hal_ops := Some ops; speed_khz := speed; timeout_ms := 1000;
     bus_busy := 0 |}.

Definition demo_device (s : AHT21_State) : AHT21_Handle :=
  {| iic := 1%N; state := s; measure_ticks := 0; raw_data := replicate 7 0;
     temperature := f32_zero; humidity := f32_zero; measure_interval := 100 |}.

Definition board (ops : IIC_HAL_Ops) (speed : Z) (line : nat → Z)
    (s : AHT21_State) : Mem :=
  {| pins := []; sda_line := line; sda_reads := 0;
     iic_handles := {[ 1%N := board_bus ops speed ]};
     aht21_handles := {[ 2%N := demo_device s ]} |}.

Definition demo_bus : IIC_Handle := board_bus demo_hal 100.

Definition demo_mem (line : nat → Z) (s : AHT21_State) : Mem :=
  board demo_hal 100 line s.

(** An input line that returns the given levels, then stays at [rest]. *)
Definition line_of (levels : list Z) (rest : Z) : nat → Z :=
  λ n, nth n levels rest.

(** The levels of a byte on the line, most significant bit first. *)
Definition byte_levels (b : Z) : list Z :=
  map (λ i, if Z.testbit b (7 - Z.of_nat i) then 1 else 0) (seq 0 8).

(** A sensor that acknowledges its address, answers the status poll with
    [status], acknowledges its address again and sends [reply]. *)
Definition reply_line (status : Z) (reply : list Z) : nat → Z :=
  line_of ([0] ++ byte_levels status ++ [0] ++ concat (map byte_levels reply)) 1.

(** Two generic sensors over the AHT21 backend, at addresses 11 and 10, and
    a third, unregistered, at address 12. *)
Definition demo_sensor (driver_handle next : N) : TempHumiSensor Mem :=
  {| sensor_type := SENSOR_TYPE_AHT21; sensor_ops := Some aht21_ops;
     sensor_driver_handle := driver_handle;
     sensor_temperature := f32_zero; sensor_humidity := f32_zero;
     sensor_state := SENSOR_STATE_IDLE; sensor_next := next |}.

Definition demo_world (line : nat → Z) (s : AHT21_State) : SensorWorld Mem :=
  {| driver := demo_mem line s;
     sensors := <[ 10%N := demo_sensor 2%N 0%N ]>
                  (<[ 11%N := demo_sensor 2%N 10%N ]>
                     {[ 12%N := demo_sensor 2%N 0%N ]});
     head_sensor := 11%N |}.

(** After a scheduler call: the state of the driver at [d] and the cached
    state of the instance at [p]. *)
Definition tick_outcome_at (d p : N) (r : option (unit * SensorWorld Mem))
    : option (option AHT21_State * option SensorState) :=
  match r with
  | Some (_, w) =>
    Some (state_at d (driver w), sensor_state <$> sensors w !! p)
  | None => None
  end.

(** A backend whose init slot reports a failure, over a driver side with
    nothing in it, and an uninitialised instance at address 5. *)
Definition failing_init_ops : SensorOps unit :=
  {| init := Some (λ _, mret SENSOR_ERR_INIT);
     reset := None; trigger := None; read := None;
     get_temp := None; get_humi := None; get_state := None |}.

Definition blank_sensor {D} : TempHumiSensor D :=
  {| sensor_type := SENSOR_TYPE_UNKNOWN; sensor_ops := None;
     sensor_driver_handle := 0%N;
     sensor_temperature := f32_zero; sensor_humidity := f32_zero;
     sensor_state := SENSOR_STATE_ERROR; sensor_next := 0%N |}.

Definition blank_world : SensorWorld unit :=
  {| driver := tt; sensors := {[ 5%N := blank_sensor ]}; head_sensor := 0%N |}.

(** The instance as [sensor_init] fills it in. *)
Definition initialised {D} (type : SensorType) (table : SensorOps D)
    (driver_handle : N) : TempHumiSensor D :=
  {| sensor_type := type; sensor_ops := Some table;
     sensor_driver_handle := driver_handle;
     sensor_temperature := f32_zero; sensor_humidity := f32_zero;
     sensor_state := SENSOR_STATE_IDLE; sensor_next := 0%N |}.

(* ===================================================================== *)
(** ** Bus wires, wire frames and the cache of an instance *)
(* ===================================================================== *)

(** The levels the master drives on the data line, in order. *)
Definition sda_levels (evs : list PinEvent) : list Z :=
  omap (λ e, match e with EvSetSda level => Some level | _ => None end) evs.

(** The handle with another timeout and busy flag. *)
Definition with_timeout_busy (t b : Z) (h : IIC_Handle) : IIC_Handle :=
  {| hal_ops := hal_ops h; speed_khz := speed_khz h;
     timeout_ms := t; bus_busy := b |}.

(** The two bus wires as the master drives them. *)
Record Wires := {
  scl_wire : Z;
  sda_wire : Z;
}.

(** Both wires released: the bus at rest. *)
Definition idle_wires : Wires := {| scl_wire := 1; sda_wire := 1 |}.

(** A change of the data line while the clock is high: falling is a start
    condition, rising a stop condition. *)
Inductive BusCondition :=
  | StartCondition
  | StopCondition.

Definition drive (e : PinEvent) (w : Wires) : Wires :=
  match e with
  | EvSetScl level => {| scl_wire := level; sda_wire := sda_wire w |}
  | EvSetSda level => {| scl_wire := scl_wire w; sda_wire := level |}
  | _ => w
  end.

Definition condition_of (e : PinEvent) (w : Wires) : list BusCondition :=
  match e with
  | EvSetSda level =>
    if scl_wire w =? 0 then []
    else if sda_wire w =? 0 then
      if level =? 0 then [] else [StopCondition]
    else
      if level =? 0 then [StartCondition] else []
  | _ => []
  end.

(** The wires after a sequence of platform calls, and the conditions the
    sequence puts on the bus. *)
Fixpoint wires_after (evs : list PinEvent) (w : Wires) : Wires :=
  match evs with
  | [] => w
  | e :: rest => wires_after rest (drive e w)
  end.

Fixpoint bus_conditions (evs : list PinEvent) (w : Wires)
    : list BusCondition :=
  match evs with
  | [] => []
  | e :: rest => condition_of e w ++ bus_conditions rest (drive e w)
  end.

(** What a transfer shows outside the handles: its result, the platform
    calls and the number of reads of the input line. *)
Definition bus_outcome {A} (r : option (A * Mem))
    : option (A * list PinEvent * nat) :=
  match r with
  | Some (a, m') => Some (a, pins m', sda_reads m')
  | None => None
  end.

(** The handle as [aht21_init] fills it in before it talks to the sensor. *)
Definition fresh_device (iic_p : N) : AHT21_Handle :=
  {| iic := iic_p; state := AHT21_STATE_INIT; measure_ticks := 0;
     raw_data := replicate 7 0; temperature := f32_zero;
     humidity := f32_zero; measure_interval := 100 |}.

Definition trigger_frame : list Z := [0x70; AHT21_CMD_TRIGGER; 0x33; 0x00].

(** The platform calls of a read of [n] bytes from the sensor whose address
    byte is acknowledged. *)
Definition read_frame_pins (d : list PinEvent) (line : nat → Z) (pos : nat)
    (n : nat) : list PinEvent :=
  start_pins d ++ write_byte_pins d 0x71 0 ++
  read_bytes_pins d line (S pos) (Z.of_nat n) 0 n ++ stop_pins d.

(** The platform calls of a write whose frame is acknowledged. *)
Definition write_frame_pins (d : list PinEvent) (line : nat → Z) (pos : nat)
    (frame : list Z) : list PinEvent :=
  start_pins d ++ write_bytes_pins d line pos frame ++ stop_pins d.

(** The optional millisecond delay. *)
Definition settle_pins (ops : IIC_HAL_Ops) (ms : Z) : list PinEvent :=
  if delay_ms ops then [EvDelayMs ms] else [].

(** The handle after [n] ticks that only count. *)
Definition counted (n : nat) (dev : AHT21_Handle) : AHT21_Handle :=
  with_measure_ticks (measure_ticks dev + Z.of_nat n) dev.

(** The handle after a trigger that was acknowledged. *)
Definition triggered (dev : AHT21_Handle) : AHT21_Handle :=
  with_measure_ticks 0 (with_state AHT21_STATE_WAIT_MEASURE dev).

(** The instance after a read that returned OK, by what the two getters
    stored. *)
Definition with_cached_readings {D} (t hu : option f32)
    (h : TempHumiSensor D)
    : TempHumiSensor D :=
  let h1 := match t with
            | Some t => with_cached_temperature t h
            | None => h
            end in
  let h2 := match hu with
            | Some hu => with_cached_humidity hu h1
            | None => h1
            end in
  with_cached_state SENSOR_STATE_READY h2.

(** [n] calls of the scheduler in a row. *)
Fixpoint sensor_ticks_times {D} (n fuel : nat) : StateErr (SensorWorld D) unit :=
  match n with
  | O => mret tt
  | S n' => sensor_ticks fuel;; sensor_ticks_times n' fuel
  end.

(** The instance at [handle] uses the AHT21 backend, on a driver handle
    and a bus in working order. *)
Definition sensor_ok (handle : N) (h : TempHumiSensor Mem)
    (dev : AHT21_Handle) (bus : IIC_Handle) (ops : IIC_HAL_Ops)
    (w : SensorWorld Mem) : Prop :=
  handle ≠ 0%N ∧
  sensors w !! handle = Some h ∧
  sensor_ops h = Some aht21_ops ∧
  driver_ok (sensor_driver_handle h) dev bus ops (driver w).

(** The cache of the instance agrees with its driver: the cached state is
    the driver's, as the adapter reports it, and in READY the cached
    readings are the driver's. *)
Definition in_step (h : TempHumiSensor Mem) (dev : AHT21_Handle) : Prop :=
  sensor_state h = adapter_state (state dev) ∧
  (sensor_state h = SENSOR_STATE_READY →
   sensor_temperature h = temperature dev ∧
   sensor_humidity h = humidity dev).

(** The calls of the sensor layer that reach the backend. *)
Inductive SensorCall :=
  | CallTrigger
  | CallRead
  | CallReset
  | CallHandler.

Definition run_call (c : SensorCall) (handle : N)
    : StateErr (SensorWorld Mem) unit :=
  match c with
  | CallTrigger => sensor_trigger_measure handle;; mret tt
  | CallRead => sensor_read_data handle;; mret tt
  | CallReset => sensor_reset handle;; mret tt
  | CallHandler => sensor_handler handle
  end.

(* ===================================================================== *)
(** * Proofs *)
(* ===================================================================== *)

(** ** Running monadic code *)

Lemma bind_run {S A B} (c : StateErr S A) (f : A → StateErr S B) s a s' :
  c s = Some (a, s') → (c ≫= f) s = f a s'.
Proof. intros H. unfold mbind, StateErr_bind. by rewrite H. Qed.

Lemma bind_undefined {S A B} (c : StateErr S A) (f : A → StateErr S B) s :
  c s = None → (c ≫= f) s = None.
Proof. intros H. unfold mbind, StateErr_bind. by rewrite H. Qed.

Lemma bind_unfold {S A B} (c : StateErr S A) (f : A → StateErr S B) s :
  (c ≫= f) s = match c s with Some (a, s') => f a s' | None => None end.
Proof. reflexivity. Qed.

Lemma ret_run {S A} (a : A) (s : S) : (mret a : StateErr S A) s = Some (a, s).
Proof. reflexivity. Qed.

(** ** Memory bookkeeping *)

Lemma step_step e1 k1 e2 k2 m :
  step e2 k2 (step e1 k1 m) = step (e1 ++ e2) (k2 + k1) m.
Proof. unfold step; cbn. f_equal; [by rewrite app_assoc | lia]. Qed.

Lemma emit_step evs m : emit evs m = step evs 0 m.
Proof. reflexivity. Qed.

Lemma consume_step m : consume m = step [EvReadSda (sample m)] 1 m.
Proof. reflexivity. Qed.

Lemma step_nil m : step [] 0 m = m.
Proof. destruct m; unfold step; cbn. by rewrite app_nil_r. Qed.

Lemma sample_step evs k m : sample (step evs k m) = ack_level m k.
Proof. reflexivity. Qed.

Lemma sample_emit evs m : sample (step evs 0 m) = sample m.
Proof. reflexivity. Qed.

Lemma sda_line_step evs k m : sda_line (step evs k m) = sda_line m.
Proof. reflexivity. Qed.

Lemma sda_reads_step evs k m :
  sda_reads (step evs k m) = (k + sda_reads m)%nat.
Proof. reflexivity. Qed.

Lemma step_ext e1 e2 k1 k2 m :
  e1 = e2 → k1 = k2 → step e1 k1 m = step e2 k2 m.
Proof. by intros -> ->. Qed.

Lemma put_iic_step p h evs k m :
  put_iic p h (step evs k m) = step evs k (put_iic p h m).
Proof. reflexivity. Qed.

Lemma put_iic_put_iic p h1 h2 m :
  put_iic p h2 (put_iic p h1 m) = put_iic p h2 m.
Proof. unfold put_iic; cbn. by rewrite insert_insert_eq. Qed.

Lemma sda_line_put_iic p h m : sda_line (put_iic p h m) = sda_line m.
Proof. reflexivity. Qed.

Lemma sda_reads_put_iic p h m : sda_reads (put_iic p h m) = sda_reads m.
Proof. reflexivity. Qed.

Lemma sample_put_iic p h m : sample (put_iic p h m) = sample m.
Proof. reflexivity. Qed.

Lemma lookup_put_iic p h m : iic_handles (put_iic p h m) !! p = Some h.
Proof. apply lookup_insert_eq. Qed.

Lemma half_period_busy b h : half_period (with_bus_busy b h) = half_period h.
Proof. reflexivity. Qed.

Lemma hal_complete_busy b h ops :
  hal_complete h ops → hal_complete (with_bus_busy b h) ops.
Proof. done. Qed.

(** ** The platform hooks *)

Section BusPrimitives.
Context (handle : N) (h : IIC_Handle) (ops : IIC_HAL_Ops).
Hypothesis Hnonnull : handle ≠ 0%N.
Hypothesis Hhal : hal_complete h ops.

Lemma load_hal_run m :
  iic_handles m !! handle = Some h → load_hal handle m = Some (ops, m).
Proof.
  intros Hm. unfold load_hal. erewrite bind_run; last by (unfold load_iic; rewrite Hm).
  destruct Hhal as (-> & _). reflexivity.
Qed.

Lemma hal_set_sda_run level m :
  iic_handles m !! handle = Some h →
  hal_set_sda handle level m = Some (tt, step [EvSetSda level] 0 m).
Proof.
  intros Hm. unfold hal_set_sda. erewrite bind_run; last by apply load_hal_run.
  destruct Hhal as (_ & -> & _). reflexivity.
Qed.

Lemma hal_set_scl_run level m :
  iic_handles m !! handle = Some h →
  hal_set_scl handle level m = Some (tt, step [EvSetScl level] 0 m).
Proof.
  intros Hm. unfold hal_set_scl. erewrite bind_run; last by apply load_hal_run.
  destruct Hhal as (_ & _ & -> & _). reflexivity.
Qed.

Lemma hal_sda_mode_run o m :
  iic_handles m !! handle = Some h →
  hal_sda_mode handle o m = Some (tt, step [EvSdaMode o] 0 m).
Proof.
  intros Hm. unfold hal_sda_mode. erewrite bind_run; last by apply load_hal_run.
  destruct Hhal as (_ & _ & _ & _ & -> & _). reflexivity.
Qed.

Lemma hal_read_sda_run m :
  iic_handles m !! handle = Some h →
  hal_read_sda handle m = Some (sample m, step [EvReadSda (sample m)] 1 m).
Proof.
  intros Hm. unfold hal_read_sda. erewrite bind_run; last by apply load_hal_run.
  destruct Hhal as (_ & _ & _ & -> & _). reflexivity.
Qed.

Lemma iic_delay_run m :
  iic_handles m !! handle = Some h →
  iic_delay handle m = Some (tt, step (half_period h) 0 m).
Proof.
  intros Hm. unfold iic_delay, half_period.
  erewrite bind_run; last by apply load_hal_run.
  destruct Hhal as (-> & _ & _ & _ & _ & Hspd).
  destruct (delay_us ops) eqn:Hd.
  - erewrite bind_run; last by (unfold load_iic; rewrite Hm).
    specialize (Hspd eq_refl). apply Z.eqb_neq in Hspd. rewrite Hspd.
    cbn.
    replace (if 0 <? 500 / speed_khz h then 500 / speed_khz h else 1)
      with (Z.max (500 / speed_khz h) 1); first reflexivity.
    destruct (Z.ltb_spec 0 (500 / speed_khz h)); lia.
  - cbn. by rewrite step_nil.
Qed.

Lemma set_bus_busy_run b m :
  iic_handles m !! handle = Some h →
  set_bus_busy handle b m = Some (tt, put_iic handle (with_bus_busy b h) m).
Proof.
  intros Hm. unfold set_bus_busy.
  erewrite bind_run; last by (unfold load_iic; rewrite Hm).
  unfold store_iic. by rewrite Hm.
Qed.

End BusPrimitives.

(** ** The bus primitives in closed form *)

Ltac bus_lookup :=
  match goal with
  | |- _ !! _ = Some _ =>
    first [ eassumption | rewrite ?put_iic_step; apply lookup_put_iic ]
  end.

Ltac bus_side :=
  match goal with
  | |- _ ≠ _ => done
  | |- hal_complete _ _ =>
    first [ eassumption | apply hal_complete_busy; eassumption ]
  end.

Ltac bus_run lem :=
  erewrite bind_run; last (eapply lem; try bus_lookup; bus_side).

Ltac bus_steps :=
  repeat first
    [ bus_run hal_set_sda_run | bus_run hal_set_scl_run
    | bus_run hal_sda_mode_run | bus_run iic_delay_run
    | bus_run hal_read_sda_run | bus_run set_bus_busy_run ].

Ltac mem_norm :=
  repeat rewrite ?put_iic_step, ?put_iic_put_iic, ?sample_emit, ?step_step,
                 ?sda_line_step, ?sda_reads_step, ?sda_line_put_iic,
                 ?sda_reads_put_iic, ?sample_put_iic, ?half_period_busy;
  cbn [Nat.add with_bus_busy hal_ops speed_khz timeout_ms bus_busy].

Ltac same_mem :=
  mem_norm;
  repeat match goal with
  | |- Some _ = Some _ => f_equal
  | |- (_, _) = (_, _) => f_equal
  | |- step _ _ _ = step _ _ _ => apply step_ext
  | |- put_iic _ _ _ = put_iic _ _ _ => f_equal
  end;
  rewrite <- ?app_assoc; cbn [app]; try reflexivity; try lia.

Section BusEngine.
Context (handle : N) (h : IIC_Handle) (ops : IIC_HAL_Ops).
Hypothesis Hnonnull : handle ≠ 0%N.
Hypothesis Hhal : hal_complete h ops.

Lemma iic_start_run m :
  iic_handles m !! handle = Some h →
  iic_start handle m =
    Some (IIC_OK, put_iic handle (with_bus_busy 1 h)
                    (step (start_pins (half_period h)) 0 m)).
Proof.
  intros Hm. unfold iic_start. rewrite decide_False by done.
  bus_steps. rewrite ret_run. unfold start_pins. same_mem.
Qed.

Lemma iic_stop_run m :
  iic_handles m !! handle = Some h →
  iic_stop handle m =
    Some (IIC_OK, put_iic handle (with_bus_busy 0 h)
                    (step (stop_pins (half_period h)) 0 m)).
Proof.
  intros Hm. unfold iic_stop. rewrite decide_False by done.
  bus_steps. rewrite ret_run. unfold stop_pins. same_mem.
Qed.

Lemma iic_write_byte_bits_run n data m :
  iic_handles m !! handle = Some h →
  iic_write_byte_bits n handle data m =
    Some (tt, step (send_bits_pins n (half_period h) data) 0 m).
Proof.
  revert data m. induction n as [|n IH]; intros data m Hm.
  - cbn. by rewrite step_nil.
  - cbn [iic_write_byte_bits send_bits_pins]. bus_steps.
    rewrite IH by done. same_mem.
Qed.

Lemma iic_write_byte_run data m :
  iic_handles m !! handle = Some h →
  iic_write_byte handle data m =
    Some (if sample m =? 0 then IIC_OK else IIC_ERR_NACK,
          step (write_byte_pins (half_period h) data (sample m)) 1 m).
Proof.
  intros Hm. unfold iic_write_byte. rewrite decide_False by done.
  bus_steps. bus_run iic_write_byte_bits_run. bus_steps.
  rewrite ret_run. unfold write_byte_pins. same_mem.
Qed.

Lemma iic_read_byte_bits_run n receive m :
  iic_handles m !! handle = Some h →
  iic_read_byte_bits n handle receive m =
    Some (recv_bits n (sda_line m) (sda_reads m) receive,
          step (recv_bits_pins n (half_period h) (sda_line m) (sda_reads m))
               n m).
Proof.
  revert receive m. induction n as [|n IH]; intros receive m Hm.
  - cbn. by rewrite step_nil.
  - cbn [iic_read_byte_bits recv_bits recv_bits_pins]. bus_steps.
    rewrite IH by done. same_mem.
Qed.

Lemma iic_read_byte_run ack m :
  iic_handles m !! handle = Some h →
  iic_read_byte handle true ack m =
    Some ((IIC_OK, Some (bus_byte (sda_line m) (sda_reads m))),
          step (read_byte_pins (half_period h) (sda_line m) (sda_reads m) ack)
               8 m).
Proof.
  intros Hm. unfold iic_read_byte. rewrite decide_False by done. cbn [negb].
  bus_steps. bus_run iic_read_byte_bits_run. bus_steps.
  rewrite ret_run. unfold read_byte_pins, bus_byte. same_mem.
Qed.

End BusEngine.

(** ** Multi-byte transfers *)

Section BusTransfers.
Context (handle : N) (ops : IIC_HAL_Ops).
Hypothesis Hnonnull : handle ≠ 0%N.

Lemma write_bytes_run h bytes m :
  hal_complete h ops →
  iic_handles m !! handle = Some h →
  write_bytes handle bytes m =
    Some (tt, step (write_bytes_pins (half_period h) (sda_line m)
                      (sda_reads m) bytes) (length bytes) m).
Proof.
  intros Hhal. revert m. induction bytes as [|b bs IH]; intros m Hm.
  - cbn. by rewrite step_nil.
  - cbn [write_bytes write_bytes_pins length].
    bus_run iic_write_byte_run. rewrite IH by done. same_mem.
Qed.

Lemma take_drop_cons {A} (l : list A) i n b :
  l !! i = Some b → take (S n) (drop i l) = b :: take n (drop (S i) l).
Proof.
  intros Hl. by rewrite (drop_S _ _ _ Hl).
Qed.

Lemma iic_write_loop_run h n data i m :
  hal_complete h ops →
  iic_handles m !! handle = Some h →
  (i + n ≤ length data)%nat →
  let d := half_period h in
  let line := sda_line m in
  let pos := sda_reads m in
  let rest := take n (drop i data) in
  let k := transmitted line pos rest in
  iic_write_loop n handle data i m =
    Some (if frame_acked line pos rest then None else Some IIC_ERR_NACK,
          if frame_acked line pos rest
          then step (write_bytes_pins d line pos (take k rest)) k m
          else put_iic handle (with_bus_busy 0 h)
                 (step (write_bytes_pins d line pos (take k rest) ++
                        stop_pins d) k m)).
Proof.
  intros Hhal. revert i m. induction n as [|n IH]; intros i m Hm Hlen.
  - cbn. by rewrite step_nil.
  - destruct (lookup_lt_is_Some_2 data i) as [b Hb]; first lia.
    cbn zeta. rewrite (take_drop_cons _ _ _ _ Hb).
    cbn [iic_write_loop transmitted frame_acked]. rewrite Hb.
    bus_run iic_write_byte_run. unfold sample.
    destruct (u8 (sda_line m (sda_reads m)) =? 0) eqn:Hack.
    + rewrite decide_False by (intros ?; done).
      rewrite IH; [|done|lia]. cbn zeta. mem_norm.
      destruct (frame_acked _ _ _);
        cbn [take write_bytes_pins]; rewrite ?Hack; same_mem.
    + rewrite decide_True by done.
      bus_run iic_stop_run. rewrite ret_run.
      cbn [take write_bytes_pins]. rewrite take_0. cbn [write_bytes_pins].
      rewrite app_nil_r. same_mem.
Qed.

Lemma iic_write_run h addr bytes len m :
  hal_complete h ops →
  iic_handles m !! handle = Some h →
  0 < len → (Z.to_nat len ≤ length bytes)%nat →
  let d := half_period h in
  let line := sda_line m in
  let pos := sda_reads m in
  let frame := write_frame addr bytes len in
  let k := transmitted line pos frame in
  iic_write handle addr (Some bytes) len m =
    Some (if frame_acked line pos frame then IIC_OK else IIC_ERR_NACK,
          step (start_pins d ++ write_bytes_pins d line pos (take k frame) ++
                stop_pins d) k
            (put_iic handle (with_bus_busy 0 h) m)).
Proof.
  intros Hhal Hm Hlen Hbytes. cbn zeta.
  unfold iic_write, write_frame. rewrite decide_False by done.
  destruct (Z.eqb_spec len 0) as [|_]; first lia.
  bus_run iic_start_run. rewrite decide_False by (intros ?; done).
  bus_run iic_write_byte_run.
  cbn [transmitted frame_acked]. mem_norm.
  destruct (u8 (sda_line m (sda_reads m)) =? 0) eqn:Hack;
    unfold sample; rewrite Hack.
  - rewrite decide_False by (intros ?; done).
    erewrite bind_run; last first.
    { eapply (iic_write_loop_run (with_bus_busy 1 h));
        [done | rewrite ?put_iic_step; apply lookup_put_iic | by rewrite Nat.add_0_l]. }
    cbn zeta. rewrite drop_0. mem_norm.
    destruct (frame_acked _ _ _).
    + bus_run iic_stop_run.
      rewrite ret_run. cbn [take write_bytes_pins]. rewrite ?Hack; same_mem.
    + rewrite ret_run. cbn [take write_bytes_pins]. rewrite ?Hack; same_mem.
  - rewrite decide_True by done.
    bus_run iic_stop_run.
    rewrite ret_run. cbn [take write_bytes_pins]. rewrite take_0.
    cbn [write_bytes_pins]. rewrite app_nil_r, ?Hack. same_mem.
Qed.

Lemma iic_read_loop_run h n len i acc m :
  hal_complete h ops →
  iic_handles m !! handle = Some h →
  let d := half_period h in
  let line := sda_line m in
  let pos := sda_reads m in
  iic_read_loop n handle len i acc m =
    Some ((None, acc ++ read_bytes line pos n),
          step (read_bytes_pins d line pos len i n) (8 * n) m).
Proof.
  intros Hhal. revert i acc m. induction n as [|n IH]; intros i acc m Hm.
  - cbn. by rewrite step_nil, app_nil_r.
  - cbn zeta. cbn [iic_read_loop read_bytes read_bytes_pins].
    bus_run iic_read_byte_run. cbn beta iota.
    rewrite decide_False by (intros ?; done).
    rewrite IH by done. cbn zeta. cbn [option_list]. same_mem.
Qed.

Lemma iic_read_run h addr len m :
  hal_complete h ops →
  iic_handles m !! handle = Some h →
  0 < len →
  let d := half_period h in
  let line := sda_line m in
  let pos := sda_reads m in
  let target := u8 (Z.lor (Z.shiftl addr 1) 0x01) in
  let n := Z.to_nat len in
  iic_read handle addr true len m =
    Some (if sample m =? 0
          then (IIC_OK, read_bytes line (S pos) n)
          else (IIC_ERR_NACK, []),
          if sample m =? 0
          then step (start_pins d ++ write_byte_pins d target (sample m) ++
                     read_bytes_pins d line (S pos) len 0 n ++ stop_pins d)
                    (S (8 * n)) (put_iic handle (with_bus_busy 0 h) m)
          else step (start_pins d ++ write_byte_pins d target (sample m) ++
                     stop_pins d)
                    1 (put_iic handle (with_bus_busy 0 h) m)).
Proof.
  intros Hhal Hm Hlen. cbn zeta.
  unfold iic_read. rewrite decide_False by done. cbn [negb].
  destruct (Z.eqb_spec len 0) as [|_]; first lia.
  bus_run iic_start_run. rewrite decide_False by (intros ?; done).
  bus_run iic_write_byte_run. mem_norm.
  destruct (sample m =? 0) eqn:Hack.
  - rewrite decide_False by (intros ?; done).
    erewrite bind_run; last first.
    { eapply (iic_read_loop_run (with_bus_busy 1 h));
        [done | rewrite ?put_iic_step; apply lookup_put_iic]. }
    cbn beta iota zeta. bus_run iic_stop_run. rewrite ret_run. same_mem.
  - rewrite decide_True by done.
    bus_run iic_stop_run. rewrite ret_run. same_mem.
Qed.

End BusTransfers.

(** ** Aborted and completed writes *)

Lemma transmitted_le line pos frame :
  (transmitted line pos frame ≤ length frame)%nat.
Proof.
  revert pos. induction frame as [|b rest IH]; intros pos; cbn; first lia.
  destruct (_ =? 0); [specialize (IH (S pos))|]; lia.
Qed.

Lemma transmitted_nack line pos frame j :
  (j < length frame)%nat →
  (∀ i, (i < j)%nat → u8 (line (i + pos)%nat) = 0) →
  u8 (line (j + pos)%nat) ≠ 0 →
  transmitted line pos frame = S j ∧ frame_acked line pos frame = false.
Proof.
  revert pos j. induction frame as [|b rest IH]; intros pos j Hj Hack Hnack.
  - cbn in Hj. lia.
  - cbn [transmitted frame_acked]. destruct j as [|j].
    + cbn in Hnack. apply Z.eqb_neq in Hnack. by rewrite Hnack.
    + pose proof (Hack O ltac:(lia)) as H0. cbn in H0. rewrite H0. cbn [Z.eqb].
      assert (Hrest : transmitted line (S pos) rest = S j ∧
                      frame_acked line (S pos) rest = false).
      { apply IH.
        - cbn in Hj. lia.
        - intros i Hi. replace (i + S pos)%nat with (S i + pos)%nat by lia.
          apply Hack. lia.
        - by replace (j + S pos)%nat with (S j + pos)%nat by lia. }
      by destruct Hrest as [-> ->].
Qed.

Lemma transmitted_acked line pos frame :
  frame_acked line pos frame = true → transmitted line pos frame = length frame.
Proof.
  revert pos. induction frame as [|b rest IH]; intros pos; cbn; first done.
  destruct (_ =? 0); last done. intros H. by rewrite IH.
Qed.

(** The bus activity of [iic_write] as calls of the primitives: one start,
    the bytes that go out, one stop. *)
Lemma iic_write_calls handle h ops addr bytes len m :
  handle ≠ 0%N →
  hal_complete h ops →
  iic_handles m !! handle = Some h →
  0 < len → (Z.to_nat len ≤ length bytes)%nat →
  let frame := write_frame addr bytes len in
  let k := transmitted (sda_line m) (sda_reads m) frame in
  let result :=
    if frame_acked (sda_line m) (sda_reads m) frame
    then IIC_OK else IIC_ERR_NACK in
  iic_write handle addr (Some bytes) len m =
    (iic_start handle;;
     write_bytes handle (take k frame);;
     iic_stop handle;;
     mret result) m.
Proof.
  intros Hnonnull Hhal Hm Hlen Hbytes. cbn zeta.
  rewrite (iic_write_run handle ops Hnonnull h) by done. cbn zeta.
  bus_run iic_start_run.
  erewrite bind_run; last first.
  { eapply (write_bytes_run handle ops Hnonnull (with_bus_busy 1 h));
      [done | rewrite ?put_iic_step; apply lookup_put_iic]. }
  bus_run iic_stop_run. rewrite ret_run.
  rewrite length_take, Nat.min_l by apply transmitted_le. same_mem.
Qed.

(** C4: a valid write whose [j]-th byte (the address byte is number 0)
    is not acknowledged returns the NACK error after exactly one start, the
    first [j + 1] bytes of the frame and one stop, which comes last; a NACK
    on the address byte leaves the payload untransmitted.  On every path
    past the parameter checks the bus activity is one start, a prefix of the
    frame and one stop. *)
Theorem iic_write_nack_stops handle h ops addr bytes len m :
  handle ≠ 0%N →
  hal_complete h ops →
  iic_handles m !! handle = Some h →
  0 < len → (Z.to_nat len ≤ length bytes)%nat →
  let d := half_period h in
  let line := sda_line m in
  let pos := sda_reads m in
  let frame := write_frame addr bytes len in
  (∃ k result m',
     (k ≤ length frame)%nat ∧
     iic_write handle addr (Some bytes) len m = Some (result, m') ∧
     (iic_start handle;; write_bytes handle (take k frame);;
      iic_stop handle;; mret result) m = Some (result, m')) ∧
  (∀ j, (j < length frame)%nat →
     (∀ i, (i < j)%nat → ack_level m i = 0) → ack_level m j ≠ 0 →
     ∃ m',
       iic_write handle addr (Some bytes) len m = Some (IIC_ERR_NACK, m') ∧
       (iic_start handle;; write_bytes handle (take (S j) frame);;
        iic_stop handle;; mret IIC_ERR_NACK) m = Some (IIC_ERR_NACK, m') ∧
       pins m' = pins m ++ start_pins d ++
                 write_bytes_pins d line pos (take (S j) frame) ++
                 stop_pins d ∧
       sda_reads m' = (S j + pos)%nat ∧
       iic_handles m' !! handle = Some (with_bus_busy 0 h)) ∧
  (ack_level m 0 ≠ 0 →
     ∃ m',
       iic_write handle addr (Some bytes) len m = Some (IIC_ERR_NACK, m') ∧
       pins m' = pins m ++ start_pins d ++
                 write_byte_pins d (u8 (Z.shiftl addr 1)) (ack_level m 0) ++
                 stop_pins d).
Proof.
  intros Hnonnull Hhal Hm Hlen Hbytes. cbn zeta.
  pose proof (iic_write_calls handle h ops addr bytes len m
                Hnonnull Hhal Hm Hlen Hbytes) as Hcalls.
  pose proof (iic_write_run handle ops Hnonnull h addr bytes len m
                Hhal Hm Hlen Hbytes) as Hrun.
  cbn zeta in Hcalls, Hrun.
  assert (Hnack : ∀ j, (j < length (write_frame addr bytes len))%nat →
     (∀ i, (i < j)%nat → ack_level m i = 0) → ack_level m j ≠ 0 →
     ∃ m',
       iic_write handle addr (Some bytes) len m = Some (IIC_ERR_NACK, m') ∧
       (iic_start handle;;
        write_bytes handle (take (S j) (write_frame addr bytes len));;
        iic_stop handle;; mret IIC_ERR_NACK) m = Some (IIC_ERR_NACK, m') ∧
       pins m' = pins m ++ start_pins (half_period h) ++
                 write_bytes_pins (half_period h) (sda_line m) (sda_reads m)
                   (take (S j) (write_frame addr bytes len)) ++
                 stop_pins (half_period h) ∧
       sda_reads m' = (S j + sda_reads m)%nat ∧
       iic_handles m' !! handle = Some (with_bus_busy 0 h)).
  { intros j Hj Hack Hn.
    destruct (transmitted_nack (sda_line m) (sda_reads m) _ j Hj Hack Hn)
      as [Hk Hacked].
    rewrite Hk, Hacked in Hcalls, Hrun.
    eexists. split; first exact Hrun.
    split; first by rewrite <- Hcalls.
    repeat split; cbn; by rewrite ?lookup_insert_eq. }
  split; last split.
  - do 3 eexists. split; last (split; first exact Hrun).
    + apply transmitted_le.
    + by rewrite <- Hcalls.
  - exact Hnack.
  - intros Hn. destruct (Hnack O) as (m' & Hw & _ & Hp & _).
    + unfold write_frame. cbn [length]. lia.
    + intros i Hi. lia.
    + done.
    + exists m'. split; first done. rewrite Hp. cbn [take write_frame write_bytes_pins].
      rewrite take_0. cbn [write_bytes_pins]. by rewrite app_nil_r.
Qed.

Lemma iic_write_nack_stops_witness :
  ∃ m',
    iic_write 1%N AHT21_ADDR (Some [AHT21_CMD_TRIGGER; 0x33; 0x00]) 3
      (demo_mem (line_of [0; 1] 1) AHT21_STATE_IDLE)
    = Some (IIC_ERR_NACK, m') ∧
    sda_reads m' = 2%nat ∧
    iic_handles m' !! 1%N = Some (with_bus_busy 0 demo_bus).
Proof.
  destruct (iic_write_nack_stops 1%N demo_bus demo_hal AHT21_ADDR
              [AHT21_CMD_TRIGGER; 0x33; 0x00] 3
              (demo_mem (line_of [0; 1] 1) AHT21_STATE_IDLE))
    as (_ & Hnack & _).
  - done.
  - repeat split; done.
  - reflexivity.
  - lia.
  - cbn. lia.
  - destruct (Hnack 1%nat) as (m' & Hw & _ & _ & Hr & Hb).
    + vm_compute. lia.
    + intros i Hi. assert (i = O) as -> by lia. reflexivity.
    + vm_compute. discriminate.
    + exists m'. repeat split; done.
Defined.

(** ** The half-period delay and the speed setting *)

Section HooksAnyTable.
Context (handle : N) (h : IIC_Handle) (ops : IIC_HAL_Ops).
Hypothesis Hops : hal_ops h = Some ops.

Lemma load_hal_any m :
  iic_handles m !! handle = Some h → load_hal handle m = Some (ops, m).
Proof.
  intros Hm. unfold load_hal.
  erewrite bind_run; last by (unfold load_iic; rewrite Hm).
  by rewrite Hops.
Qed.

Lemma hal_set_sda_any level m :
  iic_handles m !! handle = Some h →
  hal_set_sda handle level m =
    if set_sda ops then Some (tt, step [EvSetSda level] 0 m) else None.
Proof.
  intros Hm. unfold hal_set_sda. erewrite bind_run; last by apply load_hal_any.
  by destruct (set_sda ops).
Qed.

Lemma hal_set_scl_any level m :
  iic_handles m !! handle = Some h →
  hal_set_scl handle level m =
    if set_scl ops then Some (tt, step [EvSetScl level] 0 m) else None.
Proof.
  intros Hm. unfold hal_set_scl. erewrite bind_run; last by apply load_hal_any.
  by destruct (set_scl ops).
Qed.

Lemma hal_sda_mode_any o m :
  iic_handles m !! handle = Some h →
  hal_sda_mode handle o m =
    if sda_mode ops then Some (tt, step [EvSdaMode o] 0 m) else None.
Proof.
  intros Hm. unfold hal_sda_mode. erewrite bind_run; last by apply load_hal_any.
  by destruct (sda_mode ops).
Qed.

Lemma iic_delay_any m :
  iic_handles m !! handle = Some h →
  iic_delay handle m =
    if delay_us ops then
      if speed_khz h =? 0 then None
      else Some (tt, step [EvDelayUs (Z.max (500 / speed_khz h) 1)] 0 m)
    else Some (tt, m).
Proof.
  intros Hm. unfold iic_delay. erewrite bind_run; last by apply load_hal_any.
  destruct (delay_us ops) eqn:Hd; last done.
  erewrite bind_run; last by (unfold load_iic; rewrite Hm).
  destruct (speed_khz h =? 0); first done.
  cbn.
  replace (if 0 <? 500 / speed_khz h then 500 / speed_khz h else 1)
    with (Z.max (500 / speed_khz h) 1); first reflexivity.
  destruct (Z.ltb_spec 0 (500 / speed_khz h)); lia.
Qed.

End HooksAnyTable.

Ltac hook_step :=
  rewrite bind_unfold;
  first
    [ erewrite hal_set_sda_any by (try eassumption; done)
    | erewrite hal_set_scl_any by (try eassumption; done)
    | erewrite hal_sda_mode_any by (try eassumption; done)
    | erewrite iic_delay_any by (try eassumption; done) ];
  match goal with
  | |- context [if ?b then _ else _] => destruct b eqn:?; try done
  end.

Section ZeroSpeed.
Context (handle : N) (h : IIC_Handle) (ops : IIC_HAL_Ops).
Hypothesis Hnonnull : handle ≠ 0%N.
Hypothesis Hops : hal_ops h = Some ops.
Hypothesis Hdelay : delay_us ops = true.
Hypothesis Hzero : speed_khz h = 0.

Lemma iic_delay_zero_speed m :
  iic_handles m !! handle = Some h → iic_delay handle m = None.
Proof.
  intros Hm. erewrite iic_delay_any by done. by rewrite Hdelay, Hzero.
Qed.

Lemma iic_start_zero_speed m :
  iic_handles m !! handle = Some h → iic_start handle m = None.
Proof.
  intros Hm. unfold iic_start. rewrite decide_False by done.
  do 3 hook_step. rewrite bind_unfold, iic_delay_zero_speed; done.
Qed.

Lemma iic_stop_zero_speed m :
  iic_handles m !! handle = Some h → iic_stop handle m = None.
Proof.
  intros Hm. unfold iic_stop. rewrite decide_False by done.
  do 3 hook_step. rewrite bind_unfold, iic_delay_zero_speed; done.
Qed.

Lemma iic_write_byte_zero_speed data m :
  iic_handles m !! handle = Some h → iic_write_byte handle data m = None.
Proof.
  intros Hm. unfold iic_write_byte. rewrite decide_False by done.
  do 2 hook_step. rewrite bind_unfold. cbn [iic_write_byte_bits].
  hook_step. rewrite bind_unfold, iic_delay_zero_speed; done.
Qed.

Lemma iic_read_byte_zero_speed ack m :
  iic_handles m !! handle = Some h → iic_read_byte handle true ack m = None.
Proof.
  intros Hm. unfold iic_read_byte. rewrite decide_False by done. cbn [negb].
  hook_step. rewrite bind_unfold. cbn [iic_read_byte_bits].
  hook_step. rewrite bind_unfold, iic_delay_zero_speed; done.
Qed.

End ZeroSpeed.

Lemma iic_set_speed_run handle h speed m :
  handle ≠ 0%N →
  iic_handles m !! handle = Some h →
  iic_set_speed handle speed m =
    Some (tt, put_iic handle
                {| hal_ops := hal_ops h; speed_khz := u32 speed;
                   timeout_ms := timeout_ms h; bus_busy := bus_busy h |} m).
Proof.
  intros Hnonnull Hm. unfold iic_set_speed. rewrite decide_False by done.
  erewrite bind_run; last by (unfold load_iic; rewrite Hm).
  unfold store_iic. by rewrite Hm.
Qed.

Lemma iic_init_speed handle h ops m :
  handle ≠ 0%N →
  iic_handles m !! handle = Some h →
  set_sda ops = true → set_scl ops = true →
  ∃ m', iic_init handle (Some ops) m = Some (tt, m') ∧
        iic_handles m' !! handle =
          Some {| hal_ops := Some ops; speed_khz := 100;
                  timeout_ms := 1000; bus_busy := 0 |}.
Proof.
  intros Hnonnull Hm Hsda Hscl. unfold iic_init.
  rewrite decide_False by done.
  set (h' := {| hal_ops := Some ops; speed_khz := 100;
                timeout_ms := 1000; bus_busy := 0 |}).
  erewrite bind_run; last by (unfold store_iic; rewrite Hm).
  assert (Hm' : iic_handles (put_iic handle h' m) !! handle = Some h')
    by apply lookup_put_iic.
  erewrite bind_run; last by (eapply (load_hal_any handle h' ops)).
  destruct (sda_mode ops) eqn:Hmode.
  - erewrite bind_run; last first.
    { erewrite (hal_sda_mode_any handle h' ops) by done. by rewrite Hmode. }
    erewrite bind_run; last first.
    { erewrite (hal_set_sda_any handle h' ops) by done. by rewrite Hsda. }
    erewrite (hal_set_scl_any handle h' ops) by done. rewrite Hscl.
    eexists. split; first done. done.
  - rewrite bind_unfold, ret_run.
    erewrite bind_run; last first.
    { erewrite (hal_set_sda_any handle h' ops) by done. by rewrite Hsda. }
    erewrite (hal_set_scl_any handle h' ops) by done. rewrite Hscl.
    eexists. split; first done. done.
Qed.

(** C9 (amended): a bus primitive computes its half-period delay only when
    the platform table has a [delay_us] hook.  With the hook, the delay is
    max(500 / speed_khz, 1) microseconds and the division is defined only
    for a non-zero speed: [iic_set_speed] stores any value, zero included,
    and with speed 0 every start, stop and byte transfer is undefined;
    [iic_init] sets 100.  Without the hook no division is made, whatever
    the speed. *)
Theorem iic_half_period_delay handle h ops m :
  handle ≠ 0%N →
  iic_handles m !! handle = Some h →
  hal_ops h = Some ops →
  iic_delay handle m =
    (if delay_us ops then
       if speed_khz h =? 0 then None
       else Some (tt, step [EvDelayUs (Z.max (500 / speed_khz h) 1)] 0 m)
     else Some (tt, m)) ∧
  (delay_us ops = true → speed_khz h = 0 →
     iic_start handle m = None ∧ iic_stop handle m = None ∧
     (∀ data, iic_write_byte handle data m = None) ∧
     (∀ ack, iic_read_byte handle true ack m = None)) ∧
  (hal_complete h ops →
     let d := if delay_us ops
              then [EvDelayUs (Z.max (500 / speed_khz h) 1)] else [] in
     (∃ m', iic_start handle m = Some (IIC_OK, m') ∧
            pins m' = pins m ++ start_pins d) ∧
     (∃ m', iic_stop handle m = Some (IIC_OK, m') ∧
            pins m' = pins m ++ stop_pins d) ∧
     (∀ data, ∃ result m',
        iic_write_byte handle data m = Some (result, m') ∧
        pins m' = pins m ++ write_byte_pins d data (sample m)) ∧
     (∀ ack, ∃ byte m',
        iic_read_byte handle true ack m = Some ((IIC_OK, Some byte), m') ∧
        pins m' = pins m ++
                  read_byte_pins d (sda_line m) (sda_reads m) ack)) ∧
  (∀ speed, ∃ m',
     iic_set_speed handle speed m = Some (tt, m') ∧
     speed_khz <$> iic_handles m' !! handle = Some (u32 speed)) ∧
  (set_sda ops = true → set_scl ops = true →
   ∃ m', iic_init handle (Some ops) m = Some (tt, m') ∧
         speed_khz <$> iic_handles m' !! handle = Some 100).
Proof.
  intros Hnonnull Hm Hops. repeat split.
  - by apply iic_delay_any.
  - by eapply iic_start_zero_speed.
  - by eapply iic_stop_zero_speed.
  - intros data. by eapply iic_write_byte_zero_speed.
  - intros ack. by eapply iic_read_byte_zero_speed.
  - eexists. split; first by eapply iic_start_run.
    unfold half_period. by rewrite Hops.
  - eexists. split; first by eapply iic_stop_run.
    unfold half_period. by rewrite Hops.
  - intros data. do 2 eexists. split; first by eapply iic_write_byte_run.
    unfold half_period. by rewrite Hops.
  - intros ack. do 2 eexists. split; first by eapply iic_read_byte_run.
    unfold half_period. by rewrite Hops.
  - intros speed. eexists. split; first by apply iic_set_speed_run.
    cbn. by rewrite lookup_insert_eq.
  - intros Hsda Hscl.
    destruct (iic_init_speed handle h ops m) as (m' & Hi & Hl); try done.
    exists m'. split; first done. by rewrite Hl.
Qed.

Lemma iic_half_period_delay_witness :
  iic_start 1%N (board demo_hal 0 (line_of [] 1) AHT21_STATE_IDLE) = None ∧
  iic_delay 1%N (demo_mem (line_of [] 1) AHT21_STATE_IDLE) =
    Some (tt, step [EvDelayUs 5] 0 (demo_mem (line_of [] 1) AHT21_STATE_IDLE)).
Proof.
  split.
  - destruct (iic_half_period_delay 1%N (board_bus demo_hal 0) demo_hal
                (board demo_hal 0 (line_of [] 1) AHT21_STATE_IDLE))
      as (_ & Hzero & _); [done | reflexivity | reflexivity |].
    destruct Hzero as (Hstart & _); [reflexivity | reflexivity |].
    exact Hstart.
  - destruct (iic_half_period_delay 1%N demo_bus demo_hal
                (demo_mem (line_of [] 1) AHT21_STATE_IDLE))
      as (Hdelay & _); [done | reflexivity | reflexivity |].
    exact Hdelay.
Defined.

(** C9 as stated fails on a table without [delay_us]: with speed 0 the
    primitives make no division and return normally. *)
Lemma iic_zero_speed_without_delay_hook :
  speed_khz <$>
    iic_handles (board quiet_hal 0 (line_of [] 0) AHT21_STATE_IDLE) !! 1%N
    = Some 0 ∧
  fst <$> iic_delay 1%N (board quiet_hal 0 (line_of [] 0) AHT21_STATE_IDLE)
    = Some tt ∧
  fst <$> iic_start 1%N (board quiet_hal 0 (line_of [] 0) AHT21_STATE_IDLE)
    = Some IIC_OK ∧
  fst <$> iic_stop 1%N (board quiet_hal 0 (line_of [] 0) AHT21_STATE_IDLE)
    = Some IIC_OK ∧
  fst <$> iic_write_byte 1%N 0x70
            (board quiet_hal 0 (line_of [] 0) AHT21_STATE_IDLE)
    = Some IIC_OK ∧
  fst <$> iic_read_byte 1%N true 1
            (board quiet_hal 0 (line_of [] 0) AHT21_STATE_IDLE)
    = Some (IIC_OK, Some 0).
Proof. vm_compute. repeat split. Qed.

(** ** Bus transfers as seen by the driver *)

Lemma iic_write_mem handle h ops addr bytes len m :
  handle ≠ 0%N →
  hal_complete h ops →
  iic_handles m !! handle = Some h →
  0 < len → (Z.to_nat len ≤ length bytes)%nat →
  iic_write handle addr (Some bytes) len m =
    Some (if frame_acked (sda_line m) (sda_reads m)
               (write_frame addr bytes len)
          then IIC_OK else IIC_ERR_NACK,
          write_mem handle h addr bytes len m).
Proof. intros. by erewrite iic_write_run. Qed.

Lemma iic_read_mem handle h ops addr len m :
  handle ≠ 0%N →
  hal_complete h ops →
  iic_handles m !! handle = Some h →
  0 < len →
  iic_read handle addr true len m =
    Some (if sample m =? 0
          then (IIC_OK, read_bytes (sda_line m) (S (sda_reads m)) (Z.to_nat len))
          else (IIC_ERR_NACK, []),
          read_mem handle h addr len m).
Proof. intros. by erewrite iic_read_run. Qed.

Lemma aht21_handles_write_mem handle h addr bytes len m :
  aht21_handles (write_mem handle h addr bytes len m) = aht21_handles m.
Proof. reflexivity. Qed.

Lemma aht21_handles_read_mem handle h addr len m :
  aht21_handles (read_mem handle h addr len m) = aht21_handles m.
Proof. unfold read_mem. by destruct (sample m =? 0). Qed.

Lemma iic_handles_write_mem handle h addr bytes len m :
  iic_handles (write_mem handle h addr bytes len m) =
    <[handle := with_bus_busy 0 h]> (iic_handles m).
Proof. reflexivity. Qed.

Lemma iic_handles_read_mem handle h addr len m :
  iic_handles (read_mem handle h addr len m) =
    <[handle := with_bus_busy 0 h]> (iic_handles m).
Proof. unfold read_mem. by destruct (sample m =? 0). Qed.

Lemma sda_line_read_mem handle h addr len m :
  sda_line (read_mem handle h addr len m) = sda_line m.
Proof. unfold read_mem. by destruct (sample m =? 0). Qed.

Lemma sda_reads_read_mem handle h addr len m :
  sample m = 0 →
  sda_reads (read_mem handle h addr len m) =
    (S (8 * Z.to_nat len) + sda_reads m)%nat.
Proof. intros Hack. unfold read_mem. by rewrite Hack. Qed.

Lemma driver_ok_write_mem handle dev bus ops addr bytes len m :
  driver_ok handle dev bus ops m →
  driver_ok handle dev (with_bus_busy 0 bus) ops
    (write_mem (iic dev) bus addr bytes len m).
Proof.
  intros (? & ? & ? & ? & ?). unfold driver_ok. split_and!; try done.
  rewrite iic_handles_write_mem. apply lookup_insert_eq.
Qed.

Lemma driver_ok_read_mem handle dev bus ops addr len m :
  driver_ok handle dev bus ops m →
  driver_ok handle dev (with_bus_busy 0 bus) ops
    (read_mem (iic dev) bus addr len m).
Proof.
  intros (? & ? & ? & ? & ?). unfold driver_ok. split_and!; try done.
  - by rewrite aht21_handles_read_mem.
  - rewrite iic_handles_read_mem. apply lookup_insert_eq.
Qed.

Lemma driver_ok_put_aht21 handle dev dev' bus ops m :
  driver_ok handle dev bus ops m →
  iic dev' = iic dev →
  driver_ok handle dev' bus ops (put_aht21 handle dev' m).
Proof.
  intros (? & ? & ? & ? & ?) Hiic. unfold driver_ok. rewrite Hiic.
  split_and!; try done. apply lookup_insert_eq.
Qed.

Lemma driver_ok_step handle dev bus ops evs k m :
  driver_ok handle dev bus ops m → driver_ok handle dev bus ops (step evs k m).
Proof. done. Qed.

(** ** The driver's memory accesses *)

Lemma load_aht21_run handle dev m :
  aht21_handles m !! handle = Some dev →
  load_aht21 handle m = Some (dev, m).
Proof. intros Hm. unfold load_aht21. by rewrite Hm. Qed.

Lemma update_aht21_run handle dev f m :
  aht21_handles m !! handle = Some dev →
  update_aht21 handle f m = Some (tt, put_aht21 handle (f dev) m).
Proof.
  intros Hm. unfold update_aht21.
  erewrite bind_run; last by apply load_aht21_run.
  unfold store_aht21. by rewrite Hm.
Qed.

Lemma lookup_put_aht21 handle dev m :
  aht21_handles (put_aht21 handle dev m) !! handle = Some dev.
Proof. apply lookup_insert_eq. Qed.

Lemma put_aht21_put_aht21 handle d1 d2 m :
  put_aht21 handle d2 (put_aht21 handle d1 m) = put_aht21 handle d2 m.
Proof. unfold put_aht21; cbn. by rewrite insert_insert_eq. Qed.

Lemma put_aht21_same handle dev m :
  aht21_handles m !! handle = Some dev → put_aht21 handle dev m = m.
Proof.
  intros Hm. destruct m. unfold put_aht21; cbn in *. by rewrite insert_id.
Qed.

Lemma hal_delay_ms_run handle h ops ms m :
  hal_complete h ops →
  iic_handles m !! handle = Some h →
  delay_ms ops = true →
  hal_delay_ms handle ms m = Some (tt, step [EvDelayMs ms] 0 m).
Proof.
  intros Hhal Hm Hd. unfold hal_delay_ms.
  erewrite bind_run; last by eapply load_hal_run.
  by rewrite Hd.
Qed.

Lemma settle_run handle h ops ms m :
  hal_complete h ops →
  iic_handles m !! handle = Some h →
  (if delay_ms ops then hal_delay_ms handle ms else mret tt) m =
    Some (tt, settle ops ms m).
Proof.
  intros Hhal Hm. unfold settle. destruct (delay_ms ops) eqn:Hd; last done.
  by eapply hal_delay_ms_run.
Qed.

Lemma driver_ok_settle handle dev bus ops ms m :
  driver_ok handle dev bus ops m → driver_ok handle dev bus ops (settle ops ms m).
Proof. unfold settle. by destruct (delay_ms ops). Qed.

(** ** The driver operations in closed form *)

Section Driver.
Context (handle : N) (dev : AHT21_Handle) (bus : IIC_Handle)
        (ops : IIC_HAL_Ops).

Lemma aht21_check_status_run m :
  driver_ok handle dev bus ops m →
  aht21_check_status handle m =
    Some (if sample m =? 0
          then (AHT21_OK, Some (bus_byte (sda_line m) (S (sda_reads m))))
          else (AHT21_ERR_IIC, None),
          read_mem (iic dev) bus AHT21_ADDR 1 m).
Proof.
  intros (Hnonnull & Hdev & Hiic & Hbus & Hhal). unfold aht21_check_status.
  erewrite bind_run; last by apply load_aht21_run.
  erewrite bind_run; last by (eapply iic_read_mem; try done).
  by destruct (sample m =? 0).
Qed.

Lemma aht21_soft_reset_run m :
  driver_ok handle dev bus ops m →
  let acked := frame_acked (sda_line m) (sda_reads m)
                 (write_frame AHT21_ADDR [AHT21_CMD_SOFT_RESET] 1) in
  let m1 := write_mem (iic dev) bus AHT21_ADDR [AHT21_CMD_SOFT_RESET] 1 m in
  aht21_soft_reset handle m =
    Some (if acked then AHT21_OK else AHT21_ERR_IIC,
          if acked
          then put_aht21 handle (with_state AHT21_STATE_IDLE dev)
                 (settle ops 20 m1)
          else m1).
Proof.
  intros Hok. pose proof Hok as (Hnonnull & Hdev & Hiic & Hbus & Hhal).
  cbn zeta. unfold aht21_soft_reset. rewrite decide_False by done.
  erewrite bind_run; last by apply load_aht21_run.
  erewrite bind_run; last by (eapply iic_write_mem; try done; cbn; lia).
  destruct (frame_acked _ _ _).
  - rewrite decide_False by (intros ?; done).
    pose proof (driver_ok_write_mem _ _ _ _ AHT21_ADDR [AHT21_CMD_SOFT_RESET] 1 _ Hok)
      as (_ & Hdev1 & _ & Hbus1 & Hhal1).
    erewrite bind_run; last by eapply load_hal_run.
    erewrite bind_run; last by eapply settle_run.
    erewrite bind_run; last first.
    { apply update_aht21_run. unfold settle. by destruct (delay_ms ops). }
    done.
  - by rewrite decide_True by done.
Qed.

Lemma aht21_trigger_measure_busy m :
  handle ≠ 0%N →
  aht21_handles m !! handle = Some dev →
  state dev = AHT21_STATE_WAIT_MEASURE →
  aht21_trigger_measure handle m = Some (AHT21_ERR_BUSY, m).
Proof.
  intros Hnonnull Hdev Hstate. unfold aht21_trigger_measure.
  rewrite decide_False by done.
  erewrite bind_run; last by apply load_aht21_run.
  by rewrite decide_True by done.
Qed.

Lemma aht21_trigger_measure_run m :
  driver_ok handle dev bus ops m →
  state dev ≠ AHT21_STATE_WAIT_MEASURE →
  let command := [AHT21_CMD_TRIGGER; 0x33; 0x00] in
  let acked := frame_acked (sda_line m) (sda_reads m)
                 (write_frame AHT21_ADDR command 3) in
  let m1 := write_mem (iic dev) bus AHT21_ADDR command 3 m in
  aht21_trigger_measure handle m =
    Some (if acked then AHT21_OK else AHT21_ERR_IIC,
          if acked
          then put_aht21 handle
                 (with_measure_ticks 0
                    (with_state AHT21_STATE_WAIT_MEASURE dev)) m1
          else m1).
Proof.
  intros Hok Hstate. pose proof Hok as (Hnonnull & Hdev & Hiic & Hbus & Hhal).
  cbn zeta. unfold aht21_trigger_measure. rewrite decide_False by done.
  erewrite bind_run; last by apply load_aht21_run.
  rewrite decide_False by done.
  erewrite bind_run; last by (eapply iic_write_mem; try done; cbn; lia).
  destruct (frame_acked _ _ _).
  - rewrite decide_False by (intros ?; done).
    erewrite bind_run; last by (apply update_aht21_run; exact Hdev).
    erewrite bind_run; last by (apply update_aht21_run; apply lookup_put_aht21).
    by rewrite ret_run, put_aht21_put_aht21.
  - by rewrite decide_True by done.
Qed.

End Driver.

(** ** Reading a measurement *)

Lemma with_raw_data_same dev : with_raw_data (raw_data dev) dev = dev.
Proof. by destruct dev. Qed.

Lemma read_bytes_length line pos n : length (read_bytes line pos n) = n.
Proof. revert pos. induction n as [|n IH]; intros pos; cbn; by rewrite ?IH. Qed.

Lemma sample_read_mem handle h addr len m :
  sample m = 0 →
  sample (read_mem handle h addr len m) =
    ack_level m (S (8 * Z.to_nat len)).
Proof.
  intros Hack. unfold sample, ack_level.
  by rewrite sda_line_read_mem, sda_reads_read_mem.
Qed.

Lemma raw_byte_run h i m :
  (i < length (raw_data h))%nat →
  raw_byte h i m = Some (nth i (raw_data h) 0, m).
Proof.
  intros Hi. unfold raw_byte.
  destruct (lookup_lt_is_Some_2 (raw_data h) i Hi) as [b Hb].
  by rewrite Hb, (nth_lookup_Some _ _ 0 _ Hb).
Qed.

Lemma aht21_parse_data_run handle dev m :
  aht21_handles m !! handle = Some dev →
  (7 ≤ length (raw_data dev))%nat →
  let byte i := nth i (raw_data dev) 0 in
  aht21_parse_data handle m =
    Some (tt, put_aht21 handle
                (with_readings
                   (temperature_of_raw
                      (temperature_raw_of (byte 3%nat) (byte 4%nat) (byte 5%nat)))
                   (humidity_of_raw
                      (humidity_raw_of (byte 1%nat) (byte 2%nat) (byte 3%nat)))
                   dev) m).
Proof.
  intros Hdev Hlen. cbn zeta. unfold aht21_parse_data.
  erewrite bind_run; last by apply load_aht21_run.
  do 5 (erewrite bind_run; last by (apply raw_byte_run; lia)).
  unfold store_aht21. by rewrite Hdev.
Qed.

Section ReadData.
Context (handle : N) (dev : AHT21_Handle) (bus : IIC_Handle)
        (ops : IIC_HAL_Ops) (m : Mem).
Hypothesis Hok : driver_ok handle dev bus ops m.

Let m1 := read_mem (iic dev) bus AHT21_ADDR 1 m.
Let m2 := read_mem (iic dev) (with_bus_busy 0 bus) AHT21_ADDR 7 m1.
Let status := bus_byte (sda_line m) (S (sda_reads m)).

Lemma aht21_read_data_nack :
  sample m ≠ 0 →
  aht21_read_data handle m = Some (AHT21_ERR_IIC, m1).
Proof.
  intros Hnack. pose proof Hok as (Hnonnull & _).
  unfold aht21_read_data. rewrite decide_False by done.
  erewrite bind_run; last by eapply aht21_check_status_run.
  apply Z.eqb_neq in Hnack. rewrite Hnack. by rewrite decide_True by done.
Qed.

Lemma aht21_read_data_busy :
  sample m = 0 →
  Z.land status AHT21_STATUS_BUSY ≠ 0 →
  aht21_read_data handle m = Some (AHT21_ERR_BUSY, m1).
Proof.
  intros Hack Hbusy. pose proof Hok as (Hnonnull & _).
  unfold aht21_read_data. rewrite decide_False by done.
  erewrite bind_run; last by eapply aht21_check_status_run.
  rewrite Hack. cbn [Z.eqb]. rewrite decide_False by (intros ?; done).
  apply Z.eqb_neq in Hbusy. fold status. by rewrite Hbusy.
Qed.

Lemma aht21_read_data_nack2 :
  sample m = 0 →
  Z.land status AHT21_STATUS_BUSY = 0 →
  ack_level m 9 ≠ 0 →
  aht21_read_data handle m = Some (AHT21_ERR_IIC, m2).
Proof.
  intros Hack Hfree Hnack. pose proof Hok as (Hnonnull & Hdev & _).
  pose proof (driver_ok_read_mem _ _ _ _ AHT21_ADDR 1 _ Hok)
    as (_ & Hdev1 & Hiic1 & Hbus1 & Hhal1). fold m1 in Hdev1, Hbus1.
  unfold aht21_read_data. rewrite decide_False by done.
  erewrite bind_run; last by eapply aht21_check_status_run.
  rewrite Hack. cbn [Z.eqb]. rewrite decide_False by (intros ?; done).
  fold status m1. rewrite Hfree. cbn [Z.eqb].
  erewrite bind_run; last by apply load_aht21_run.
  erewrite bind_run; last by (eapply iic_read_mem; try done).
  fold m2.
  assert (Hs : sample m1 = ack_level m 9)
    by (unfold m1; by rewrite sample_read_mem).
  rewrite Hs. apply Z.eqb_neq in Hnack. rewrite Hnack.
  erewrite bind_run; last first.
  { apply update_aht21_run. unfold m2.
    rewrite aht21_handles_read_mem. exact Hdev1. }
  cbn [app length drop]. rewrite drop_0, with_raw_data_same.
  rewrite decide_True by done. rewrite ret_run.
  rewrite put_aht21_same; first done.
  unfold m2. rewrite aht21_handles_read_mem. exact Hdev1.
Qed.

Lemma aht21_read_data_ok :
  sample m = 0 →
  Z.land status AHT21_STATUS_BUSY = 0 →
  ack_level m 9 = 0 →
  aht21_read_data handle m =
    Some (AHT21_OK,
          put_aht21 handle
            (decoded (read_bytes (sda_line m) (10 + sda_reads m) 7) dev) m2).
Proof.
  intros Hack Hfree Hack2. pose proof Hok as (Hnonnull & Hdev & _).
  pose proof (driver_ok_read_mem _ _ _ _ AHT21_ADDR 1 _ Hok)
    as (_ & Hdev1 & Hiic1 & Hbus1 & Hhal1). fold m1 in Hdev1, Hbus1.
  unfold aht21_read_data. rewrite decide_False by done.
  erewrite bind_run; last by eapply aht21_check_status_run.
  rewrite Hack. cbn [Z.eqb]. rewrite decide_False by (intros ?; done).
  fold status m1. rewrite Hfree. cbn [Z.eqb].
  erewrite bind_run; last by apply load_aht21_run.
  erewrite bind_run; last by (eapply iic_read_mem; try done).
  fold m2.
  assert (Hs : sample m1 = ack_level m 9)
    by (unfold m1; by rewrite sample_read_mem).
  rewrite Hs, Hack2. cbn [Z.eqb].
  assert (Hdev2 : aht21_handles m2 !! handle = Some dev).
  { unfold m2. rewrite aht21_handles_read_mem. exact Hdev1. }
  erewrite bind_run; last by (apply update_aht21_run; exact Hdev2).
  rewrite decide_False by (intros ?; done).
  assert (Hbytes : read_bytes (sda_line m1) (S (sda_reads m1)) (Z.to_nat 7)
                   = read_bytes (sda_line m) (10 + sda_reads m) 7).
  { unfold m1. rewrite sda_line_read_mem, sda_reads_read_mem by done.
    reflexivity. }
  rewrite Hbytes.
  set (bytes := read_bytes (sda_line m) (10 + sda_reads m) 7).
  erewrite bind_run; last first.
  { apply aht21_parse_data_run; first apply lookup_put_aht21.
    cbn [raw_data with_raw_data]. rewrite length_app.
    unfold bytes. rewrite read_bytes_length. lia. }
  erewrite bind_run; last by (apply update_aht21_run; apply lookup_put_aht21).
  by rewrite ret_run, !put_aht21_put_aht21.
Qed.
End ReadData.

(** ** Bit fields *)

Lemma lor_mul_pow2_add hi lo n :
  0 ≤ n → 0 ≤ lo < 2 ^ n → Z.lor (hi * 2 ^ n) lo = hi * 2 ^ n + lo.
Proof.
  intros Hn Hlo.
  assert (Hdisj : Z.land (hi * 2 ^ n) lo = 0).
  { apply Z.bits_inj'. intros k Hk. rewrite Z.land_spec, Z.bits_0.
    destruct (Z.lt_ge_cases k n) as [Hlt|Hge].
    - by rewrite Z.mul_pow2_bits_low.
    - rewrite <- (Z.mod_small lo (2 ^ n)) by lia.
      rewrite Z.mod_pow2_bits_high by lia. apply andb_false_r. }
  by rewrite <- Z.lxor_lor, <- Z.add_nocarry_lxor.
Qed.

Lemma u8_mod z : u8 z = z mod 256.
Proof. unfold u8. change 255 with (Z.ones 8). by rewrite Z.land_ones. Qed.

Lemma u8_range z : 0 ≤ u8 z < 256.
Proof. rewrite u8_mod. apply Z.mod_pos_bound. lia. Qed.

Lemma land_bit a n :
  0 ≤ n → Z.land a (2 ^ n) = if Z.testbit a n then 2 ^ n else 0.
Proof.
  intros Hn. apply Z.bits_inj'. intros k Hk. rewrite Z.land_spec.
  rewrite Z.pow2_bits_eqb by done.
  destruct (Z.eqb_spec n k) as [->|Hne].
  - rewrite andb_true_r. destruct (Z.testbit a k) eqn:E.
    + by rewrite Z.pow2_bits_true.
    + by rewrite Z.bits_0.
  - rewrite andb_false_r. destruct (Z.testbit a n).
    + by rewrite Z.pow2_bits_false.
    + by rewrite Z.bits_0.
Qed.

Lemma busy_bit status :
  Z.land status AHT21_STATUS_BUSY ≠ 0 ↔ Z.testbit status 7 = true.
Proof.
  change AHT21_STATUS_BUSY with (2 ^ 7). rewrite land_bit by lia.
  change (2 ^ 7) with 128.
  destruct (Z.testbit status 7); split; intros; try done; exfalso; lia.
Qed.

Lemma recv_bits_range n line pos receive :
  0 ≤ receive < 256 → 0 ≤ recv_bits n line pos receive < 256.
Proof.
  revert pos receive. induction n as [|n IH]; intros pos receive Hr; first done.
  cbn [recv_bits]. apply IH.
  destruct (u8 (line pos) =? 0); first apply u8_range.
  rewrite u8_mod, Z.shiftl_mul_pow2 by lia.
  assert (E : (receive * 2 ^ 1) mod 256 = (receive mod 128) * 2 ^ 1).
  { change (2 ^ 1) with 2. change 256 with (128 * 2).
    by rewrite Z.mul_mod_distr_r by lia. }
  rewrite E, lor_mul_pow2_add by (change (2 ^ 1) with 2; lia).
  change (2 ^ 1) with 2. pose proof (Z.mod_pos_bound receive 128). lia.
Qed.

Lemma bus_byte_range line pos : 0 ≤ bus_byte line pos < 256.
Proof. apply recv_bits_range. lia. Qed.

Lemma read_bytes_range line pos n :
  Forall (λ b, 0 ≤ b < 256) (read_bytes line pos n).
Proof.
  revert pos. induction n as [|n IH]; intros pos; cbn [read_bytes].
  - constructor.
  - constructor; [apply bus_byte_range | apply IH].
Qed.

Ltac pow_consts :=
  repeat match goal with
  | |- context [2 ^ ?n] =>
    let v := eval compute in (2 ^ n) in change (2 ^ n) with v
  | H : context [2 ^ ?n] |- _ =>
    let v := eval compute in (2 ^ n) in change (2 ^ n) with v in H
  end.

Lemma lor_disjoint hi lo n :
  0 ≤ n → 0 ≤ lo < 2 ^ n → Z.lor (hi * 2 ^ n) lo = hi * 2 ^ n + lo.
Proof. apply lor_mul_pow2_add. Qed.

Lemma humidity_raw_of_bytes r1 r2 r3 :
  0 ≤ r1 < 256 → 0 ≤ r2 < 256 → 0 ≤ r3 < 256 →
  humidity_raw_of r1 r2 r3 = r1 * 4096 + r2 * 16 + r3 / 16.
Proof.
  intros H1 H2 H3. unfold humidity_raw_of, u32.
  rewrite !Z.shiftl_mul_pow2, Z.shiftr_div_pow2 by lia.
  assert (0 ≤ r3 / 2 ^ 4 < 2 ^ 4).
  { pow_consts. split; first (apply Z.div_pos; lia).
    apply Z.div_lt_upper_bound; lia. }
  rewrite !Z.mod_small by (pow_consts; lia).
  rewrite (lor_disjoint r1 _ 12) by (pow_consts; lia).
  replace (r1 * 2 ^ 12 + r2 * 2 ^ 4) with ((r1 * 2 ^ 8 + r2) * 2 ^ 4)
    by (pow_consts; lia).
  rewrite lor_disjoint by (pow_consts; lia). pow_consts. lia.
Qed.

Lemma temperature_raw_of_bytes r3 r4 r5 :
  0 ≤ r3 < 256 → 0 ≤ r4 < 256 → 0 ≤ r5 < 256 →
  temperature_raw_of r3 r4 r5 = (r3 mod 16) * 65536 + r4 * 256 + r5.
Proof.
  intros H3 H4 H5. unfold temperature_raw_of, u32.
  change 0x0F with (Z.ones 4). rewrite Z.land_ones by lia.
  assert (Hlow : 0 ≤ r3 mod 2 ^ 4 < 2 ^ 4) by (apply Z.mod_pos_bound; lia).
  rewrite !Z.shiftl_mul_pow2 by lia.
  rewrite !Z.mod_small by (pow_consts; lia).
  rewrite (Z.mod_small (r4 * 2 ^ 8)) by (pow_consts; lia).
  rewrite (lor_disjoint _ _ 16) by (pow_consts; lia).
  replace (r3 mod 2 ^ 4 * 2 ^ 16 + r4 * 2 ^ 8)
    with ((r3 mod 2 ^ 4 * 2 ^ 8 + r4) * 2 ^ 8) by (pow_consts; lia).
  rewrite lor_disjoint by (pow_consts; lia). pow_consts. lia.
Qed.

(** C1: on a non-busy status and a successful read of the 7-byte reply
    [r0..r6], [aht21_read_data] returns OK, keeps the reply in [raw_data],
    takes humidity_raw from the top 20 bits and temperature_raw from the
    bottom 20 bits of the 40-bit word [r1..r5], stores
    humidity = humidity_raw * 100 / 2^20 and
    temperature = temperature_raw * 200 / 2^20 - 50 computed in binary32,
    and sets the state to READY. *)
Theorem aht21_read_data_decodes handle dev bus ops m r0 r1 r2 r3 r4 r5 r6 :
  driver_ok handle dev bus ops m →
  length (raw_data dev) = 7%nat →
  ack_level m 0 = 0 →
  Z.land (bus_byte (sda_line m) (1 + sda_reads m)) AHT21_STATUS_BUSY = 0 →
  ack_level m 9 = 0 →
  read_bytes (sda_line m) (10 + sda_reads m) 7 = [r0; r1; r2; r3; r4; r5; r6] →
  let humidity_raw := r1 * 4096 + r2 * 16 + r3 / 16 in
  let temperature_raw := (r3 mod 16) * 65536 + r4 * 256 + r5 in
  ∃ m' dev',
    aht21_read_data handle m = Some (AHT21_OK, m') ∧
    aht21_handles m' !! handle = Some dev' ∧
    raw_data dev' = [r0; r1; r2; r3; r4; r5; r6] ∧
    humidity_raw =
      Z.lor (Z.lor (u32 (Z.shiftl r1 12)) (u32 (Z.shiftl r2 4)))
            (Z.shiftr r3 4) ∧
    temperature_raw =
      Z.lor (Z.lor (u32 (Z.shiftl (Z.land r3 0x0F) 16)) (u32 (Z.shiftl r4 8)))
            r5 ∧
    0 ≤ humidity_raw < 2 ^ 20 ∧ 0 ≤ temperature_raw < 2 ^ 20 ∧
    r1 * 2 ^ 32 + r2 * 2 ^ 24 + r3 * 2 ^ 16 + r4 * 2 ^ 8 + r5
      = humidity_raw * 2 ^ 20 + temperature_raw ∧
    humidity dev' =
      f32_div (f32_mul (f32_of_Z humidity_raw) (f32_of_Z 100))
              (f32_of_Z (2 ^ 20)) ∧
    temperature dev' =
      f32_sub (f32_div (f32_mul (f32_of_Z temperature_raw) (f32_of_Z 200))
                       (f32_of_Z (2 ^ 20)))
              (f32_of_Z 50) ∧
    state dev' = AHT21_STATE_READY ∧
    iic dev' = iic dev ∧ measure_ticks dev' = measure_ticks dev ∧
    measure_interval dev' = measure_interval dev.
Proof.
  intros Hok Hlen Hack Hfree Hack2 Hreply. cbn zeta.
  pose proof (read_bytes_range (sda_line m) (10 + sda_reads m) 7) as Hrange.
  rewrite Hreply in Hrange.
  repeat match goal with
  | H : Forall _ (_ :: _) |- _ => apply Forall_cons in H; destruct H
  end.
  pose proof (humidity_raw_of_bytes r1 r2 r3) as Hh.
  pose proof (temperature_raw_of_bytes r3 r4 r5) as Ht.
  unfold humidity_raw_of in Hh. unfold temperature_raw_of in Ht.
  rewrite <- Hh, <- Ht by done.
  fold (humidity_raw_of r1 r2 r3). fold (temperature_raw_of r3 r4 r5).
  do 2 eexists. split.
  { rewrite (aht21_read_data_ok handle dev bus ops m Hok) by done.
    rewrite Hreply. reflexivity. }
  split; first apply lookup_put_aht21.
  unfold decoded. cbn [raw_data with_state with_readings with_raw_data
    humidity temperature state iic measure_ticks measure_interval length].
  rewrite (drop_ge (raw_data dev) 7) by lia. cbn [app nth].
  split_and!; try done.
  - rewrite humidity_raw_of_bytes by done.
    pose proof (Z.div_pos r3 16). pose proof (Z.div_lt_upper_bound r3 16 16).
    lia.
  - rewrite humidity_raw_of_bytes by done.
    pose proof (Z.div_pos r3 16). pose proof (Z.div_lt_upper_bound r3 16 16).
    pow_consts. lia.
  - rewrite temperature_raw_of_bytes by done.
    pose proof (Z.mod_pos_bound r3 16). lia.
  - rewrite temperature_raw_of_bytes by done.
    pose proof (Z.mod_pos_bound r3 16). pow_consts. lia.
  - rewrite humidity_raw_of_bytes, temperature_raw_of_bytes by done.
    pose proof (Z.div_mod r3 16). pow_consts. lia.
Qed.

Lemma aht21_read_data_decodes_witness :
  ∃ m' dev',
    aht21_read_data 2%N
      (demo_mem (reply_line 0x1C [0x1C; 0x80; 0x00; 0x06; 0x00; 0x00; 0x00])
                AHT21_STATE_WAIT_MEASURE)
    = Some (AHT21_OK, m') ∧
    aht21_handles m' !! 2%N = Some dev' ∧
    raw_data dev' = [0x1C; 0x80; 0x00; 0x06; 0x00; 0x00; 0x00] ∧
    humidity dev' = f32_of_Z 50 ∧
    temperature dev' = f32_of_Z 25 ∧
    state dev' = AHT21_STATE_READY.
Proof.
  destruct (aht21_read_data_decodes 2%N
              (demo_device AHT21_STATE_WAIT_MEASURE) demo_bus demo_hal
              (demo_mem
                 (reply_line 0x1C [0x1C; 0x80; 0x00; 0x06; 0x00; 0x00; 0x00])
                 AHT21_STATE_WAIT_MEASURE)
              0x1C 0x80 0x00 0x06 0x00 0x00 0x00)
    as (m' & dev' & Hrun & Hdev & Hraw & _ & _ & _ & _ & _ & Hh & Ht & Hs & _).
  - unfold driver_ok, hal_complete. split_and!; done.
  - reflexivity.
  - reflexivity.
  - vm_compute. reflexivity.
  - reflexivity.
  - vm_compute. reflexivity.
  - exists m', dev'. split_and!; done.
Defined.

(** C5: a poll that finds the busy bit (bit 7 of the status byte) set
    returns BUSY and changes no driver handle: the cached temperature and
    humidity, the raw reply buffer and the state are as before, so the poll
    can be repeated. *)
Theorem aht21_read_data_busy_poll handle dev bus ops m :
  driver_ok handle dev bus ops m →
  ack_level m 0 = 0 →
  Z.testbit (bus_byte (sda_line m) (1 + sda_reads m)) 7 = true →
  ∃ m',
    aht21_read_data handle m = Some (AHT21_ERR_BUSY, m') ∧
    aht21_handles m' = aht21_handles m ∧
    aht21_handles m' !! handle = Some dev ∧
    driver_ok handle dev (with_bus_busy 0 bus) ops m'.
Proof.
  intros Hok Hack Hbusy. apply busy_bit in Hbusy.
  eexists. split; first by apply (aht21_read_data_busy handle dev bus ops m).
  pose proof Hok as (_ & Hdev & _).
  rewrite aht21_handles_read_mem. split_and!; try done.
  by apply driver_ok_read_mem.
Qed.

Lemma aht21_read_data_busy_poll_witness :
  ∃ m',
    aht21_read_data 2%N
      (demo_mem (reply_line 0x98 []) AHT21_STATE_WAIT_MEASURE)
    = Some (AHT21_ERR_BUSY, m') ∧
    aht21_handles m' !! 2%N = Some (demo_device AHT21_STATE_WAIT_MEASURE).
Proof.
  destruct (aht21_read_data_busy_poll 2%N
              (demo_device AHT21_STATE_WAIT_MEASURE) demo_bus demo_hal
              (demo_mem (reply_line 0x98 []) AHT21_STATE_WAIT_MEASURE))
    as (m' & Hrun & _ & Hdev & _).
  - unfold driver_ok, hal_complete. split_and!; done.
  - reflexivity.
  - vm_compute. reflexivity.
  - by exists m'.
Defined.

(** ** One step of the driver *)

Section DriverSteps.
Context (handle : N) (ops : IIC_HAL_Ops).

Lemma lands_bind {A B} (c : StateErr Mem A) (f : A → StateErr Mem B) m
    (Q : A → AHT21_Handle → Prop) (R : B → AHT21_Handle → Prop) :
  lands handle ops c m Q →
  (∀ a m' dev' bus',
     driver_ok handle dev' bus' ops m' → Q a dev' → lands handle ops (f a) m' R) →
  lands handle ops (c ≫= f) m R.
Proof.
  intros (a & m' & dev' & bus' & Hc & Hok & HQ) Hf.
  destruct (Hf a m' dev' bus' Hok HQ) as (b & m'' & dev'' & bus'' & Hfa & ? & ?).
  exists b, m'', dev'', bus''. by rewrite (bind_run _ _ _ _ _ Hc).
Qed.

Lemma lands_ret {A} (a : A) m dev bus (Q : A → AHT21_Handle → Prop) :
  driver_ok handle dev bus ops m → Q a dev → lands handle ops (mret a) m Q.
Proof. intros. by exists a, m, dev, bus. Qed.

Lemma lands_mono {A} (c : StateErr Mem A) m (Q R : A → AHT21_Handle → Prop) :
  lands handle ops c m Q → (∀ a dev, Q a dev → R a dev) → lands handle ops c m R.
Proof.
  intros (a & m' & dev' & bus' & ? & ? & ?) HQR.
  exists a, m', dev', bus'. auto.
Qed.

Lemma lands_update dev bus f m :
  driver_ok handle dev bus ops m →
  iic (f dev) = iic dev →
  lands handle ops (update_aht21 handle f) m (λ _ dev', dev' = f dev).
Proof.
  intros Hok Hiic. pose proof Hok as (_ & Hdev & _).
  exists tt, (put_aht21 handle (f dev) m), (f dev), bus.
  split_and!; [by apply update_aht21_run | by apply (driver_ok_put_aht21 handle dev) | done].
Qed.

Lemma lands_load dev bus m :
  driver_ok handle dev bus ops m →
  lands handle ops (load_aht21 handle) m (λ h dev', h = dev ∧ dev' = dev).
Proof.
  intros Hok. pose proof Hok as (_ & Hdev & _).
  exists dev, m, dev, bus. split_and!; try done. by apply load_aht21_run.
Qed.

Lemma lands_trigger dev bus m :
  driver_ok handle dev bus ops m →
  lands handle ops (aht21_trigger_measure handle) m
    (λ r dev',
       (r = AHT21_OK ∧ state dev ≠ AHT21_STATE_WAIT_MEASURE ∧
        dev' = with_measure_ticks 0 (with_state AHT21_STATE_WAIT_MEASURE dev)) ∨
       (r = AHT21_ERR_BUSY ∧ state dev = AHT21_STATE_WAIT_MEASURE ∧ dev' = dev) ∨
       (r = AHT21_ERR_IIC ∧ state dev ≠ AHT21_STATE_WAIT_MEASURE ∧ dev' = dev)).
Proof.
  intros Hok. pose proof Hok as (Hnonnull & Hdev & _).
  destruct (decide (state dev = AHT21_STATE_WAIT_MEASURE)) as [Hw|Hw].
  - exists AHT21_ERR_BUSY, m, dev, bus.
    split_and!; [by eapply aht21_trigger_measure_busy | done | by right; left].
  - unfold lands; rewrite (aht21_trigger_measure_run handle dev bus ops m Hok Hw).
    cbn zeta. set (m1 := write_mem _ _ _ _ _ _).
    assert (Hok1 : driver_ok handle dev (with_bus_busy 0 bus) ops m1)
      by by apply driver_ok_write_mem.
    destruct (frame_acked _ _ _).
    + do 4 eexists. split_and!; first done.
      * by apply (driver_ok_put_aht21 handle dev).
      * by left.
    + do 4 eexists. split_and!; [done | exact Hok1 | by right; right].
Qed.

Lemma lands_soft_reset dev bus m :
  driver_ok handle dev bus ops m →
  lands handle ops (aht21_soft_reset handle) m
    (λ r dev',
       (r = AHT21_OK ∧ dev' = with_state AHT21_STATE_IDLE dev) ∨
       (r = AHT21_ERR_IIC ∧ dev' = dev)).
Proof.
  intros Hok.
  unfold lands; rewrite (aht21_soft_reset_run handle dev bus ops m Hok).
  cbn zeta. set (m1 := write_mem _ _ _ _ _ _).
  assert (Hok1 : driver_ok handle dev (with_bus_busy 0 bus) ops m1)
    by by apply driver_ok_write_mem.
  destruct (frame_acked _ _ _).
  - do 4 eexists. split_and!; first done.
    + apply (driver_ok_put_aht21 handle dev); [by apply driver_ok_settle | done].
    + by left.
  - do 4 eexists. split_and!; [done | exact Hok1 | by right].
Qed.

Lemma lands_read_data dev bus m :
  driver_ok handle dev bus ops m →
  lands handle ops (aht21_read_data handle) m
    (λ r dev',
       (r = AHT21_OK ∧ ∃ bytes, dev' = decoded bytes dev) ∨
       (r = AHT21_ERR_BUSY ∧ dev' = dev) ∨
       (r = AHT21_ERR_IIC ∧ dev' = dev)).
Proof.
  intros Hok.
  pose proof (driver_ok_read_mem _ _ _ _ AHT21_ADDR 1 _ Hok) as Hok1.
  pose proof (driver_ok_read_mem _ _ _ _ AHT21_ADDR 7 _ Hok1) as Hok2.
  destruct (decide (sample m = 0)) as [Hack|Hnack]; last first.
  { do 4 eexists. split_and!;
      [by eapply aht21_read_data_nack | exact Hok1 | by right; right]. }
  destruct (decide (Z.land (bus_byte (sda_line m) (S (sda_reads m)))
                      AHT21_STATUS_BUSY = 0)) as [Hfree|Hbusy]; last first.
  { do 4 eexists. split_and!;
      [by eapply aht21_read_data_busy | exact Hok1 | by right; left]. }
  destruct (decide (ack_level m 9 = 0)) as [Hack2|Hnack2]; last first.
  { do 4 eexists. split_and!;
      [by eapply aht21_read_data_nack2 | exact Hok2 | by right; right]. }
  do 4 eexists. split_and!; first by eapply aht21_read_data_ok.
  - by apply (driver_ok_put_aht21 handle dev).
  - left. eauto.
Qed.

Lemma lands_ticks dev bus m :
  driver_ok handle dev bus ops m →
  lands handle ops (aht21_ticks handle) m
    (λ _ dev', tick_outcome (state dev) (state dev')).
Proof.
  intros Hok. pose proof Hok as (Hnonnull & Hdev & _).
  unfold aht21_ticks. rewrite decide_False by done.
  eapply lands_bind; first (eapply lands_load; eassumption).
  cbn beta. intros h m0 dev0 bus0 Hok0 [-> ->].
  unfold tick_outcome. destruct (state dev) eqn:Hstate.
  - eapply lands_bind; first (eapply lands_trigger; eassumption).
    cbn beta. intros r m1 dev1 bus1 Hok1 Hr.
    eapply lands_ret; first exact Hok1.
    destruct Hr as [(_ & _ & ->)|[(_ & _ & ->)|(_ & _ & ->)]]; cbn; auto.
  - eapply lands_mono.
    { eapply lands_update; [eassumption | done]. }
    cbn beta. by intros _ dev1 ->.
  - eapply lands_bind.
    { eapply lands_update; [eassumption | done]. }
    cbn beta. intros [] m1 dev1 bus1 Hok1 ->.
    eapply lands_bind; first (eapply lands_load; eassumption).
    cbn beta. intros h m2 dev2 bus2 Hok2 [-> ->].
    destruct (_ <=? _).
    + eapply lands_bind; first (eapply lands_read_data; eassumption).
      cbn beta. intros r m3 dev3 bus3 Hok3 Hr.
      destruct Hr as [(-> & bytes & ->)|[(-> & ->)|(-> & ->)]].
      * rewrite decide_True by done.
        eapply lands_mono.
        { eapply lands_update; [eassumption | done]. }
        cbn beta. intros _ dev4 ->. by right.
      * rewrite decide_False by done. eapply lands_ret; first exact Hok3.
        cbn. by left.
      * rewrite decide_False by done. eapply lands_ret; first exact Hok3.
        cbn. by left.
    + eapply lands_ret; first exact Hok2. cbn. by left.
  - eapply lands_bind.
    { eapply lands_update; [eassumption | done]. }
    cbn beta. intros [] m1 dev1 bus1 Hok1 ->.
    eapply lands_bind; first (eapply lands_load; eassumption).
    cbn beta. intros h m2 dev2 bus2 Hok2 [-> ->].
    destruct (_ <=? _).
    + eapply lands_bind.
      { eapply lands_update; [eassumption | done]. }
      cbn beta. intros [] m3 dev3 bus3 Hok3 ->.
      eapply lands_mono.
      { eapply lands_update; [eassumption | done]. }
      cbn beta. intros _ dev4 ->. by right.
    + eapply lands_ret; first exact Hok2. cbn. by left.
  - eapply lands_bind; first (eapply lands_soft_reset; eassumption).
    cbn beta. intros r m1 dev1 bus1 Hok1 Hr.
    eapply lands_ret; first exact Hok1.
    destruct Hr as [(_ & ->)|(_ & ->)]; cbn; auto.
Qed.

End DriverSteps.

Lemma lands_after handle ops {A B} (c : StateErr Mem A)
    (f : A → StateErr Mem B) m a m1 (Q : B → AHT21_Handle → Prop) :
  c m = Some (a, m1) →
  lands handle ops (f a) m1 Q →
  lands handle ops (c ≫= f) m Q.
Proof. intros Hc. unfold lands. by rewrite (bind_run _ _ _ _ _ Hc). Qed.

Lemma lands_init handle iic_p dev0 bus ops m :
  handle ≠ 0%N → iic_p ≠ 0%N →
  aht21_handles m !! handle = Some dev0 →
  iic_handles m !! iic_p = Some bus →
  hal_complete bus ops →
  lands handle ops (aht21_init handle iic_p) m
    (λ r dev',
       (r = AHT21_OK ∧ state dev' = AHT21_STATE_IDLE) ∨
       (r = AHT21_ERR_IIC ∧ state dev' = AHT21_STATE_ERROR) ∨
       (r = AHT21_ERR_NOT_INIT ∧ state dev' = AHT21_STATE_ERROR)).
Proof.
  intros Hnonnull Hiic Hdev0 Hbus Hhal. unfold aht21_init.
  rewrite !decide_False by done.
  set (fresh := {| iic := iic_p; state := AHT21_STATE_INIT; measure_ticks := 0;
                   raw_data := replicate 7 0; temperature := f32_zero;
                   humidity := f32_zero; measure_interval := 100 |}).
  eapply lands_after; first by (unfold store_aht21; rewrite Hdev0).
  assert (Hok0 : driver_ok handle fresh bus ops (put_aht21 handle fresh m)).
  { unfold driver_ok. split_and!; try done. apply lookup_put_aht21. }
  eapply lands_after; first by eapply load_hal_run.
  eapply lands_after; first by eapply settle_run.
  assert (Hok1 : driver_ok handle fresh bus ops
                   (settle ops 40 (put_aht21 handle fresh m)))
    by by apply driver_ok_settle.
  eapply lands_after.
  { eapply (iic_write_mem iic_p bus ops); try done.
    by destruct Hok1 as (_ & _ & _ & ? & _). }
  pose proof (driver_ok_write_mem _ _ _ _ AHT21_ADDR
                [AHT21_CMD_INIT; 0x08; 0x00] 3 _ Hok1) as Hok2.
  cbn [iic fresh] in Hok2.
  destruct (frame_acked _ _ _); last first.
  { rewrite decide_True by done.
    eapply lands_bind.
    { eapply lands_update; [exact Hok2 | done]. }
    cbn beta. intros [] m3 dev3 bus3 Hok3 ->.
    eapply lands_ret; first exact Hok3. right; left. done. }
  rewrite decide_False by (intros ?; done).
  pose proof Hok2 as (_ & _ & _ & Hbus2 & Hhal2).
  eapply lands_after; first by eapply load_hal_run.
  eapply lands_after; first by eapply settle_run.
  pose proof (driver_ok_settle _ _ _ _ 10 _ Hok2) as Hok3.
  eapply lands_after; first by eapply aht21_check_status_run.
  pose proof (driver_ok_read_mem _ _ _ _ AHT21_ADDR 1 _ Hok3) as Hok4.
  destruct (sample _ =? 0).
  - rewrite decide_False by (intros ?; done).
    destruct (Z.land _ _ =? 0).
    + eapply lands_bind.
      { eapply lands_update; [exact Hok4 | done]. }
      cbn beta. intros [] m5 dev5 bus5 Hok5 ->.
      eapply lands_ret; first exact Hok5. right; right. done.
    + eapply lands_bind.
      { eapply lands_update; [exact Hok4 | done]. }
      cbn beta. intros [] m5 dev5 bus5 Hok5 ->.
      eapply lands_ret; first exact Hok5. left. done.
  - rewrite decide_True by done.
    eapply lands_bind.
    { eapply lands_update; [exact Hok4 | done]. }
    cbn beta. intros [] m5 dev5 bus5 Hok5 ->.
    eapply lands_ret; first exact Hok5. right; left. done.
Qed.

(** ** The ERROR state *)










(** ** Overlapping triggers *)

Lemma aht21_trigger_measure_ok_inv handle m m1 :
  aht21_trigger_measure handle m = Some (AHT21_OK, m1) →
  handle ≠ 0%N ∧
  ∃ dev1, aht21_handles m1 !! handle = Some dev1 ∧
          state dev1 = AHT21_STATE_WAIT_MEASURE.
Proof.
  unfold aht21_trigger_measure. intros Hrun.
  destruct (decide (handle = 0%N)) as [|Hnonnull]; first done.
  split; first done.
  rewrite bind_unfold in Hrun. unfold load_aht21 at 1 in Hrun.
  destruct (aht21_handles m !! handle) as [dev|] eqn:Hdev; last done.
  destruct (decide (state dev = AHT21_STATE_WAIT_MEASURE)); first done.
  rewrite bind_unfold in Hrun.
  destruct (iic_write _ _ _ _ m) as [[result m']|] eqn:Hwrite; last done.
  destruct (decide (result ≠ IIC_OK)); first done.
  rewrite bind_unfold in Hrun. unfold update_aht21 at 1 in Hrun.
  rewrite bind_unfold in Hrun. unfold load_aht21 at 1 in Hrun.
  destruct (aht21_handles m' !! handle) as [dev'|] eqn:Hdev'; last done.
  unfold store_aht21 at 1 in Hrun. rewrite Hdev' in Hrun.
  erewrite bind_run in Hrun;
    last by (apply update_aht21_run; apply lookup_put_aht21).
  rewrite ret_run in Hrun. injection Hrun as <-.
  eexists. split; first apply lookup_put_aht21. done.
Qed.

(** C6: in WAIT_MEASURE, [aht21_trigger_measure] returns BUSY and leaves
    the whole memory as it was: no platform call is made (so no bus write)
    and the state stays WAIT_MEASURE.  Hence a trigger that follows a
    successful trigger, with nothing or only failed reads in between,
    returns BUSY. *)
Theorem aht21_trigger_measure_overlap :
  (∀ handle dev m,
     handle ≠ 0%N →
     aht21_handles m !! handle = Some dev →
     state dev = AHT21_STATE_WAIT_MEASURE →
     aht21_trigger_measure handle m = Some (AHT21_ERR_BUSY, m)) ∧
  (∀ handle m m1,
     aht21_trigger_measure handle m = Some (AHT21_OK, m1) →
     state_at handle m1 = Some AHT21_STATE_WAIT_MEASURE ∧
     aht21_trigger_measure handle m1 = Some (AHT21_ERR_BUSY, m1)) ∧
  (∀ handle dev bus ops m m1,
     driver_ok handle dev bus ops m →
     aht21_trigger_measure handle m = Some (AHT21_OK, m1) →
     ∃ result m2,
       aht21_read_data handle m1 = Some (result, m2) ∧
       (result ≠ AHT21_OK →
        state_at handle m2 = Some AHT21_STATE_WAIT_MEASURE ∧
        aht21_trigger_measure handle m2 = Some (AHT21_ERR_BUSY, m2))).
Proof.
  split_and!.
  - intros handle dev m. apply aht21_trigger_measure_busy.
  - intros handle m m1 Hrun.
    destruct (aht21_trigger_measure_ok_inv handle m m1 Hrun)
      as (Hnonnull & dev1 & Hdev1 & Hstate).
    split; first by (unfold state_at; rewrite Hdev1; cbn; rewrite Hstate).
    by eapply aht21_trigger_measure_busy.
  - intros handle dev bus ops m m1 Hok Hrun.
    destruct (lands_trigger handle ops dev bus m Hok)
      as (r & m1' & dev1 & bus1 & Hrun' & Hok1 & Hr).
    rewrite Hrun in Hrun'. injection Hrun' as <- <-.
    destruct Hr as [(_ & _ & ->)|[(? & _)|(? & _)]]; try done.
    destruct (lands_read_data handle ops _ bus1 m1 Hok1)
      as (result & m2 & dev2 & bus2 & Hread & Hok2 & Hres).
    exists result, m2. split; first done. intros Hfail.
    destruct Hres as [(-> & _)|[(_ & ->)|(_ & ->)]]; first done.
    all: destruct Hok2 as (Hnonnull & Hdev2 & _).
    all: split; first by (unfold state_at; rewrite Hdev2).
    all: by eapply aht21_trigger_measure_busy.
Qed.

Lemma aht21_trigger_measure_overlap_witness :
  ∃ m1,
    aht21_trigger_measure 2%N (demo_mem (line_of [] 0) AHT21_STATE_IDLE)
      = Some (AHT21_OK, m1) ∧
    aht21_trigger_measure 2%N m1 = Some (AHT21_ERR_BUSY, m1) ∧
    aht21_trigger_measure 2%N
      (demo_mem (line_of [] 0) AHT21_STATE_WAIT_MEASURE)
      = Some (AHT21_ERR_BUSY,
              demo_mem (line_of [] 0) AHT21_STATE_WAIT_MEASURE).
Proof.
  destruct aht21_trigger_measure_overlap as (Hbusy & Htwice & _).
  eexists. split; first (vm_compute; reflexivity).
  split.
  - apply (Htwice 2%N (demo_mem (line_of [] 0) AHT21_STATE_IDLE)).
    vm_compute. reflexivity.
  - by apply (Hbusy 2%N (demo_device AHT21_STATE_WAIT_MEASURE)).
Defined.

(** ** The adapter's vocabulary *)

Ltac inv_run H :=
  repeat first
    [ discriminate H
    | rewrite bind_unfold in H
    | rewrite ret_run in H
    | match type of H with
      | context [let '(_, _) := ?p in _] => destruct p
      | context [decide ?P] => destruct (decide P)
      | context [match ?c ?m with _ => _ end] =>
        match type of (c m) with
        | option (_ * _) => destruct (c m) as [[? ?]|] eqn:?
        end
      | context [if ?b then _ else _] => destruct b eqn:?
      | context [match ?o with Some _ => _ | None => _ end] =>
        destruct o eqn:?
      end ].

Lemma aht21_check_status_kinds handle m r status m' :
  aht21_check_status handle m = Some ((r, status), m') →
  r = AHT21_OK ∨ r = AHT21_ERR_IIC.
Proof.
  unfold aht21_check_status. intros H. inv_run H.
  all: injection H as <- <- <-; auto.
Qed.

Lemma aht21_trigger_measure_kinds handle m r m' :
  handle ≠ 0%N →
  aht21_trigger_measure handle m = Some (r, m') → r ∈ measure_kinds.
Proof.
  unfold aht21_trigger_measure, measure_kinds. intros Hnonnull H.
  rewrite decide_False in H by done. inv_run H.
  all: injection H as <- <-; set_solver.
Qed.

Lemma aht21_read_data_kinds handle m r m' :
  handle ≠ 0%N →
  aht21_read_data handle m = Some (r, m') → r ∈ measure_kinds.
Proof.
  unfold aht21_read_data, measure_kinds. intros Hnonnull H.
  rewrite decide_False in H by done. inv_run H.
  all: injection H as <- <-; set_solver.
Qed.

Lemma aht21_soft_reset_kinds handle m r m' :
  handle ≠ 0%N →
  aht21_soft_reset handle m = Some (r, m') → r ∈ reset_kinds.
Proof.
  unfold aht21_soft_reset, reset_kinds. intros Hnonnull H.
  rewrite decide_False in H by done. inv_run H.
  all: injection H as <- <-; set_solver.
Qed.

Lemma aht21_get_temperature_kinds handle m r v m' :
  handle ≠ 0%N →
  aht21_get_temperature handle true m = Some ((r, v), m') → r ∈ getter_kinds.
Proof.
  unfold aht21_get_temperature, getter_kinds. intros Hnonnull H.
  rewrite decide_False in H by done. cbn [negb] in H. inv_run H.
  all: injection H as <- <- <-; set_solver.
Qed.

Lemma aht21_get_humidity_kinds handle m r v m' :
  handle ≠ 0%N →
  aht21_get_humidity handle true m = Some ((r, v), m') → r ∈ getter_kinds.
Proof.
  unfold aht21_get_humidity, getter_kinds. intros Hnonnull H.
  rewrite decide_False in H by done. cbn [negb] in H. inv_run H.
  all: injection H as <- <- <-; set_solver.
Qed.

Lemma lands_run_step_operational handle ops dev bus m s :
  driver_ok handle dev bus ops m →
  lands handle ops (run_step s handle) m
    (λ _ dev', operational (state dev) → operational (state dev')).
Proof.
  intros Hok. unfold operational. destruct s; cbn [run_step].
  - eapply lands_bind; first by eapply lands_trigger.
    cbn beta. intros r m1 dev1 bus1 Hok1 Hr.
    eapply lands_ret; first exact Hok1.
    destruct Hr as [(_ & _ & ->)|[(_ & _ & ->)|(_ & _ & ->)]]; cbn; auto.
  - eapply lands_bind; first by eapply lands_read_data.
    cbn beta. intros r m1 dev1 bus1 Hok1 Hr.
    eapply lands_ret; first exact Hok1.
    destruct Hr as [(_ & bytes & ->)|[(_ & ->)|(_ & ->)]]; cbn; auto.
  - eapply lands_bind; first by eapply lands_soft_reset.
    cbn beta. intros r m1 dev1 bus1 Hok1 Hr.
    eapply lands_ret; first exact Hok1.
    destruct Hr as [(_ & ->)|(_ & ->)]; cbn; auto.
  - eapply lands_mono; first by eapply lands_ticks.
    cbn beta. intros _ dev1 Ht _. unfold tick_outcome in Ht.
    destruct (state dev); destruct Ht as [->| ->] || rewrite Ht; done.
Qed.

(** C2: every adapter operation returns the translation of whatever the
    driver operation returned, and the translations are defined on every
    driver result and state.  The translations are one-to-one on the kinds
    the adapter tells apart, which are all the kinds the driver produces on
    a non-NULL handle: OK, BUSY and the bus failure for trigger and read,
    OK and the bus failure for reset, OK and not-ready for the getters, and
    the four states of a constructed driver. *)
Theorem aht21_adapter_translation :
  (∀ r, adapter_measure_result r =
          match r with
          | AHT21_OK => SENSOR_OK
          | AHT21_ERR_BUSY => SENSOR_ERR_BUSY
          | _ => SENSOR_ERR_COMM
          end) ∧
  (∀ r, adapter_reset_result r =
          match r with AHT21_OK => SENSOR_OK | _ => SENSOR_ERR_COMM end) ∧
  (∀ r, adapter_getter_result r =
          match r with AHT21_OK => SENSOR_OK | _ => SENSOR_ERR_NOT_READY end) ∧
  (∀ handle m r m',
     aht21_trigger_measure handle m = Some (r, m') →
     aht21_adapter_trigger handle m = Some (adapter_measure_result r, m')) ∧
  (∀ handle m r m',
     aht21_read_data handle m = Some (r, m') →
     aht21_adapter_read handle m = Some (adapter_measure_result r, m')) ∧
  (∀ handle m r m',
     aht21_soft_reset handle m = Some (r, m') →
     aht21_adapter_reset handle m = Some (adapter_reset_result r, m')) ∧
  (∀ handle temp m r v m',
     aht21_get_temperature handle temp m = Some ((r, v), m') →
     aht21_adapter_get_temp handle temp m
       = Some ((adapter_getter_result r, v), m')) ∧
  (∀ handle humi m r v m',
     aht21_get_humidity handle humi m = Some ((r, v), m') →
     aht21_adapter_get_humi handle humi m
       = Some ((adapter_getter_result r, v), m')) ∧
  (∀ handle m dev,
     aht21_handles m !! handle = Some dev →
     aht21_adapter_get_state handle m = Some (adapter_state (state dev), m)) ∧
  (∀ r1 r2, r1 ∈ measure_kinds → r2 ∈ measure_kinds →
     adapter_measure_result r1 = adapter_measure_result r2 → r1 = r2) ∧
  (∀ r1 r2, r1 ∈ reset_kinds → r2 ∈ reset_kinds →
     adapter_reset_result r1 = adapter_reset_result r2 → r1 = r2) ∧
  (∀ r1 r2, r1 ∈ getter_kinds → r2 ∈ getter_kinds →
     adapter_getter_result r1 = adapter_getter_result r2 → r1 = r2) ∧
  (∀ s1 s2, operational s1 → operational s2 →
     adapter_state s1 = adapter_state s2 → s1 = s2) ∧
  (∀ handle m r m', handle ≠ 0%N →
     (aht21_trigger_measure handle m = Some (r, m') → r ∈ measure_kinds) ∧
     (aht21_read_data handle m = Some (r, m') → r ∈ measure_kinds) ∧
     (aht21_soft_reset handle m = Some (r, m') → r ∈ reset_kinds) ∧
     (∀ v, aht21_get_temperature handle true m = Some ((r, v), m') →
           r ∈ getter_kinds) ∧
     (∀ v, aht21_get_humidity handle true m = Some ((r, v), m') →
           r ∈ getter_kinds)).
Proof.
  split_and!.
  - by intros [].
  - by intros [].
  - by intros [].
  - intros handle m r m' H. unfold aht21_adapter_trigger.
    by rewrite (bind_run _ _ _ _ _ H).
  - intros handle m r m' H. unfold aht21_adapter_read.
    by rewrite (bind_run _ _ _ _ _ H).
  - intros handle m r m' H. unfold aht21_adapter_reset.
    by rewrite (bind_run _ _ _ _ _ H).
  - intros handle temp m r v m' H. unfold aht21_adapter_get_temp.
    by rewrite (bind_run _ _ _ _ _ H).
  - intros handle humi m r v m' H. unfold aht21_adapter_get_humi.
    by rewrite (bind_run _ _ _ _ _ H).
  - intros handle m dev H. unfold aht21_adapter_get_state.
    by rewrite (bind_run _ _ _ _ _ (load_aht21_run _ _ _ H)).
  - unfold measure_kinds. intros r1 r2 H1 H2.
    repeat (apply elem_of_cons in H1 as [->|H1]);
      repeat (apply elem_of_cons in H2 as [->|H2]); try done;
      by apply elem_of_nil in H1 || by apply elem_of_nil in H2.
  - unfold reset_kinds. intros r1 r2 H1 H2.
    repeat (apply elem_of_cons in H1 as [->|H1]);
      repeat (apply elem_of_cons in H2 as [->|H2]); try done;
      by apply elem_of_nil in H1 || by apply elem_of_nil in H2.
  - unfold getter_kinds. intros r1 r2 H1 H2.
    repeat (apply elem_of_cons in H1 as [->|H1]);
      repeat (apply elem_of_cons in H2 as [->|H2]); try done;
      by apply elem_of_nil in H1 || by apply elem_of_nil in H2.
  - unfold operational. by intros [] [].
  - intros handle m r m' Hnonnull. split_and!.
    + by apply aht21_trigger_measure_kinds.
    + by apply aht21_read_data_kinds.
    + by apply aht21_soft_reset_kinds.
    + intros v. by apply aht21_get_temperature_kinds.
    + intros v. by apply aht21_get_humidity_kinds.
Qed.

(** The states the adapter tells apart are those of a constructed driver:
    [aht21_init] ends in IDLE or ERROR, and no step leads back to INIT. *)
Lemma aht21_states_operational handle dev bus ops m :
  driver_ok handle dev bus ops m →
  (∃ r m' dev' bus',
     aht21_init handle (iic dev) m = Some (r, m') ∧
     driver_ok handle dev' bus' ops m' ∧ operational (state dev')) ∧
  (operational (state dev) →
   ∀ s, ∃ m' dev' bus',
     run_step s handle m = Some (tt, m') ∧
     driver_ok handle dev' bus' ops m' ∧ operational (state dev')).
Proof.
  intros Hok. pose proof Hok as (Hnonnull & Hdev & Hiic & Hbus & Hhal).
  split.
  - destruct (lands_init handle (iic dev) dev bus ops m)
      as (r & m' & dev' & bus' & Hrun & Hok' & Hr); try done.
    exists r, m', dev', bus'. split_and!; try done. unfold operational.
    destruct Hr as [(_ & ->)|[(_ & ->)|(_ & ->)]]; done.
  - intros Hop s.
    destruct (lands_run_step_operational handle ops dev bus m s Hok)
      as ([] & m' & dev' & bus' & Hrun & Hok' & Hkeep).
    exists m', dev', bus'. auto.
Qed.

(** Outside those kinds the translation merges: a timeout reads as a bus
    failure, and INIT reads as IDLE. *)
Lemma adapter_merges_other_kinds :
  adapter_measure_result AHT21_ERR_TIMEOUT
    = adapter_measure_result AHT21_ERR_IIC ∧
  adapter_measure_result AHT21_ERR_INVALID_PARAM
    = adapter_measure_result AHT21_ERR_IIC ∧
  adapter_state AHT21_STATE_INIT = adapter_state AHT21_STATE_IDLE.
Proof. done. Qed.

(** ** The registry as a linked list *)

Lemma filter_keeps_all {A} (P : A → Prop) `{∀ x, Decision (P x)} (l : list A) :
  Forall P l → filter P l = l.
Proof.
  induction 1 as [|x l Hx Hl IH]; first done.
  by rewrite filter_cons_True, IH.
Qed.

Section Registry.
Context {D : Type}.
Implicit Types (s : gmap N (TempHumiSensor D)) (w : SensorWorld D).

Lemma chain_det s p l1 l2 : chain s p l1 → chain s p l2 → l1 = l2.
Proof.
  revert p l2. induction l1 as [|x l1 IH]; intros p [|y l2]; cbn.
  - done.
  - intros -> (<- & Hy & _). done.
  - intros (-> & Hx & _) ->. done.
  - intros (-> & _ & n1 & Hn1 & H1) (<- & _ & n2 & Hn2 & H2).
    rewrite Hn1 in Hn2. injection Hn2 as <-. f_equal. by eapply IH.
Qed.

Lemma chain_nonnull s p l : chain s p l → 0%N ∉ l.
Proof.
  revert p. induction l as [|x l IH]; intros p; cbn.
  - intros _. apply not_elem_of_nil.
  - intros (-> & Hx & n & _ & Hrest). apply not_elem_of_cons.
    split; first done. by eapply IH.
Qed.

Lemma chain_suffix s p l x :
  chain s p l → x ∈ l → ∃ l1 l2, l = l1 ++ x :: l2 ∧ chain s x (x :: l2).
Proof.
  revert p. induction l as [|y l IH]; intros p Hc Hx.
  - by apply elem_of_nil in Hx.
  - cbn in Hc. destruct Hc as (-> & Hy & n & Hn & Hrest).
    destruct (decide (x = y)) as [->|Hne].
    + exists [], l. split; first done. cbn. eauto.
    + apply elem_of_cons in Hx as [|Hx]; first done.
      destruct (IH _ Hrest Hx) as (l1 & l2 & -> & Hc).
      by exists (y :: l1), l2.
Qed.

Lemma chain_nodup s p l : chain s p l → NoDup l.
Proof.
  revert p. induction l as [|x l IH]; intros p Hc; first constructor.
  pose proof Hc as (-> & Hx & n & Hn & Hrest). constructor; last by eapply IH.
  intros Hin.
  destruct (chain_suffix _ _ _ _ Hrest Hin) as (l1 & l2 & -> & Hc2).
  pose proof (chain_det _ _ _ _ Hc Hc2) as Heq.
  apply (f_equal length) in Heq. rewrite !length_cons, length_app in Heq.
  cbn in Heq. lia.
Qed.

(** The chain reads the [next] fields only. *)
Lemma chain_ext s s' p l :
  (∀ q, q ∈ l → sensor_next <$> s' !! q = sensor_next <$> s !! q) →
  chain s p l → chain s' p l.
Proof.
  revert p. induction l as [|x l IH]; intros p Hsame; cbn; first done.
  intros (-> & Hx & n & Hn & Hrest).
  split; first done. split; first done.
  pose proof (Hsame x ltac:(left)) as Hq. rewrite Hn in Hq. cbn in Hq.
  destruct (s' !! x) as [n'|] eqn:Hn'; last done.
  injection Hq as Hq. exists n'. split; first done. rewrite Hq.
  apply IH; last done. intros q Hin. apply Hsame. by right.
Qed.

Lemma chain_insert_other s p l x node :
  x ∉ l → chain s p l → chain (<[x := node]> s) p l.
Proof.
  intros Hx. apply chain_ext. intros q Hq.
  rewrite lookup_insert_ne; first done. intros ->. done.
Qed.

Lemma load_sensor_run w p node :
  sensors w !! p = Some node → load_sensor p w = Some (node, w).
Proof. intros H. unfold load_sensor. by rewrite H. Qed.

Lemma update_sensor_run w p node f :
  sensors w !! p = Some node →
  update_sensor p f w = Some (tt, put_sensor p (f node) w).
Proof.
  intros H. unfold update_sensor.
  erewrite bind_run; last by apply load_sensor_run.
  unfold store_sensor. by rewrite H.
Qed.

Lemma sensor_start_scan_run w fuel p l handle :
  chain (sensors w) p l →
  (length l < fuel)%nat →
  sensor_start_scan fuel p handle w = Some (bool_decide (handle ∈ l), w).
Proof.
  revert p fuel. induction l as [|x l IH]; intros p fuel Hc Hfuel.
  - cbn in Hc. subst p. destruct fuel as [|fuel]; first (cbn in Hfuel; lia).
    cbn. rewrite decide_True by done.
    by rewrite bool_decide_eq_false_2 by apply not_elem_of_nil.
  - destruct Hc as (-> & Hx & node & Hnode & Hrest).
    destruct fuel as [|fuel]; first (cbn in Hfuel; lia).
    cbn [sensor_start_scan]. rewrite decide_False by done.
    destruct (decide (x = handle)) as [->|Hne].
    + by rewrite bool_decide_eq_true_2 by left.
    + erewrite bind_run; last by apply load_sensor_run.
      rewrite (IH _ fuel Hrest) by (cbn in Hfuel; lia).
      do 2 f_equal. apply bool_decide_ext. rewrite elem_of_cons.
      split; [by right | by intros [->|?]].
Qed.

Lemma sensor_start_duplicate w fuel l handle :
  registry w l → (length l < fuel)%nat → handle ∈ l →
  sensor_start fuel handle w = Some (-1, w).
Proof.
  intros Hreg Hfuel Hin. unfold sensor_start.
  assert (handle ≠ 0%N) by (intros ->; by eapply chain_nonnull).
  rewrite decide_False by done.
  rewrite bind_unfold. cbn [get_state_of].
  erewrite bind_run; last by eapply sensor_start_scan_run.
  by rewrite bool_decide_eq_true_2.
Qed.

Lemma sensor_start_fresh w fuel l handle node :
  registry w l → (length l < fuel)%nat →
  handle ≠ 0%N → handle ∉ l →
  sensors w !! handle = Some node →
  sensor_start fuel handle w =
    Some (0, put_head handle
               (put_sensor handle (with_next (head_sensor w) node) w)) ∧
  registry (put_head handle
              (put_sensor handle (with_next (head_sensor w) node) w))
           (handle :: l).
Proof.
  intros Hreg Hfuel Hnonnull Hnotin Hnode. split.
  - unfold sensor_start. rewrite decide_False by done.
    rewrite bind_unfold. cbn [get_state_of].
    erewrite bind_run; last by eapply sensor_start_scan_run.
    rewrite bool_decide_eq_false_2 by done.
    rewrite bind_unfold. cbn [get_state_of].
    erewrite bind_run; last by eapply update_sensor_run.
    done.
  - unfold registry. cbn. split; first done. split; first done.
    eexists. split; first apply lookup_insert_eq.
    cbn. by apply chain_insert_other.
Qed.

Lemma read_link_run w curr p :
  link_target w curr = Some p → read_link curr w = Some (p, w).
Proof.
  destruct curr as [|y]; cbn.
  - by intros [= <-].
  - destruct (sensors w !! y) as [node|] eqn:Hy; last done.
    intros [= <-]. by erewrite bind_run by by apply load_sensor_run.
Qed.

(** The loop of [sensor_stop] from a link that leads into the chain [l]:
    the link then leads into [l] without [handle], the instances outside
    [l] other than the one that holds the link are untouched, and nothing
    at all changes when [handle] is not in [l]. *)
Lemma sensor_stop_loop_run l : ∀ w fuel curr p handle,
  link_target w curr = Some p →
  chain (sensors w) p l →
  (∀ y, curr = LinkNext y → y ∉ l) →
  (length l < fuel)%nat →
  ∃ w',
    sensor_stop_loop fuel curr handle w = Some (tt, w') ∧
    (∃ p', link_target w' curr = Some p' ∧
           chain (sensors w') p' (filter (λ x, x ≠ handle) l)) ∧
    driver w' = driver w ∧
    (curr ≠ LinkHead → head_sensor w' = head_sensor w) ∧
    (∀ q, q ∉ l → curr ≠ LinkNext q → sensors w' !! q = sensors w !! q) ∧
    (handle ∉ l → w' = w).
Proof.
  induction l as [|x l IH]; intros w fuel curr p handle Hlink Hc Hcurr Hfuel.
  - cbn in Hc. subst p. destruct fuel as [|fuel]; first (cbn in Hfuel; lia).
    exists w. cbn [sensor_stop_loop].
    erewrite bind_run; last by apply read_link_run.
    rewrite decide_True by done. split_and!; try done.
    exists 0%N. by split.
  - pose proof (chain_nodup _ _ _ Hc) as Hnodup.
    apply NoDup_cons in Hnodup as [Hxl Hnodup].
    destruct Hc as (-> & Hx & node & Hnode & Hrest).
    destruct fuel as [|fuel]; first (cbn in Hfuel; lia).
    cbn [sensor_stop_loop].
    erewrite bind_run; last by apply read_link_run.
    rewrite decide_False by done.
    destruct (decide (x = handle)) as [->|Hne].
    + (* unlink *)
      erewrite bind_run; last by apply load_sensor_run.
      rewrite filter_cons_False by (intros ?; done).
      rewrite (filter_keeps_all _ l); last first.
      { apply Forall_forall. intros y Hy ->. done. }
      destruct curr as [|y].
      * cbn [write_link]. rewrite bind_unfold. cbn [modify].
        erewrite update_sensor_run by exact Hnode.
        eexists. split; first done. cbn. split_and!; try done.
        -- eexists. split; first done. by apply chain_insert_other.
        -- intros q Hq _. rewrite lookup_insert_ne; first done.
           intros ->. apply Hq. by left.
        -- intros Hnot. exfalso. apply Hnot. by left.
      * assert (Hy : y ≠ handle).
        { intros ->. apply (Hcurr handle); first done. by left. }
        assert (Hyl : y ∉ l).
        { intros Hin. apply (Hcurr y); first done. by right. }
        cbn in Hlink.
        destruct (sensors w !! y) as [ynode|] eqn:Hynode; last done.
        cbn [write_link].
        erewrite bind_run; last by apply update_sensor_run.
        erewrite update_sensor_run; last first.
        { cbn. rewrite lookup_insert_ne by done. exact Hnode. }
        eexists. split; first done. cbn. split_and!; try done.
        -- eexists. split.
           ++ rewrite lookup_insert_ne by done. rewrite lookup_insert_eq.
              reflexivity.
           ++ cbn. apply chain_insert_other; first done.
              by apply chain_insert_other.
        -- intros q Hq Hqy.
           rewrite !lookup_insert_ne; first done.
           ++ intros ->. by apply Hqy.
           ++ intros ->. apply Hq. by left.
        -- intros Hnot. exfalso. apply Hnot. by left.
    + (* step to the next link *)
      rewrite filter_cons_True by done.
      destruct (IH w fuel (LinkNext x) (sensor_next node) handle)
        as (w' & Hrun & (p' & Hp' & Hc') & Hdrv & Hhead & Hframe & Hsame).
      * cbn. by rewrite Hnode.
      * done.
      * by intros y [= <-].
      * cbn in Hfuel. lia.
      * exists w'. split; first done.
        assert (Hcurr' : link_target w' curr = Some x).
        { destruct curr as [|y]; cbn in Hlink |- *.
          - rewrite Hhead; done.
          - rewrite Hframe; first done.
            + intros Hin. apply (Hcurr y); first done. by right.
            + intros [= Heq]. subst. apply (Hcurr _ eq_refl). by left. }
        split_and!; try done.
        -- exists x. split; first done. cbn. split; first done.
           split; first done. cbn in Hp'.
           destruct (sensors w' !! x) as [node'|]; last done.
           injection Hp' as <-. eauto.
        -- intros Hcurrne. by apply Hhead.
        -- intros q Hq Hqcurr. apply Hframe.
           ++ intros Hin. apply Hq. by right.
           ++ intros [= Heq]. subst. apply Hq. by left.
        -- intros Hnot. apply Hsame. intros Hin. apply Hnot. by right.
Qed.

End Registry.

(** ** The registry operations *)

Section RegistryOps.
Context {D : Type}.
Implicit Types (w : SensorWorld D).

(** C7: a registry is a NULL-terminated chain of instances and so holds no
    instance twice.  [sensor_start] rejects NULL with -2, returns -1 on a
    registered instance and leaves everything unchanged, and puts a fresh
    instance at the front and returns 0; [sensor_stop] on NULL or on an
    unregistered instance changes nothing, and on a registered instance
    takes it out.  What each operation leaves is again a registry. *)
Theorem sensor_registry_no_duplicates w l fuel :
  registry w l → (length l < fuel)%nat →
  NoDup l ∧
  sensor_start fuel 0%N w = Some (-2, w) ∧
  (∀ handle, handle ∈ l → sensor_start fuel handle w = Some (-1, w)) ∧
  (∀ handle node,
     handle ≠ 0%N → handle ∉ l → sensors w !! handle = Some node →
     ∃ w', sensor_start fuel handle w = Some (0, w') ∧
           registry w' (handle :: l) ∧ NoDup (handle :: l) ∧
           driver w' = driver w) ∧
  sensor_stop fuel 0%N w = Some (tt, w) ∧
  (∀ handle, handle ∉ l → sensor_stop fuel handle w = Some (tt, w)) ∧
  (∀ handle, handle ∈ l →
     ∃ w', sensor_stop fuel handle w = Some (tt, w') ∧
           registry w' (filter (λ x, x ≠ handle) l) ∧
           NoDup (filter (λ x, x ≠ handle) l) ∧
           (handle ∉ filter (λ x, x ≠ handle) l) ∧
           driver w' = driver w).
Proof.
  intros Hreg Hfuel. split_and!.
  - by eapply chain_nodup.
  - done.
  - intros handle Hin. by eapply sensor_start_duplicate.
  - intros handle node Hnonnull Hnotin Hnode.
    destruct (sensor_start_fresh w fuel l handle node) as [Hrun Hreg'];
      try done.
    eexists. split; first exact Hrun. split; first done.
    split; first by eapply chain_nodup. done.
  - done.
  - intros handle Hnotin. unfold sensor_stop.
    destruct (decide (handle = 0%N)); first done.
    destruct (sensor_stop_loop_run l w fuel LinkHead (head_sensor w) handle)
      as (w' & Hrun & _ & _ & _ & _ & Hsame); try done.
    rewrite Hrun. by rewrite Hsame.
  - intros handle Hin. unfold sensor_stop.
    assert (handle ≠ 0%N) by (intros ->; by eapply chain_nonnull).
    rewrite decide_False by done.
    destruct (sensor_stop_loop_run l w fuel LinkHead (head_sensor w) handle)
      as (w' & Hrun & (p' & Hp' & Hc') & Hdrv & _); try done.
    exists w'. cbn in Hp'. injection Hp' as <-.
    split_and!; try done.
    + by eapply chain_nodup.
    + rewrite list_elem_of_filter. by intros [? _].
Qed.

End RegistryOps.

Lemma sensor_registry_no_duplicates_witness :
  sensor_start 3 11%N (demo_world (line_of [] 0) AHT21_STATE_IDLE)
    = Some (-1, demo_world (line_of [] 0) AHT21_STATE_IDLE) ∧
  sensor_stop 3 12%N (demo_world (line_of [] 0) AHT21_STATE_IDLE)
    = Some (tt, demo_world (line_of [] 0) AHT21_STATE_IDLE) ∧
  ∃ w', sensor_start 3 12%N (demo_world (line_of [] 0) AHT21_STATE_IDLE)
          = Some (0, w') ∧
        registry w' [12%N; 11%N; 10%N].
Proof.
  destruct (sensor_registry_no_duplicates
              (demo_world (line_of [] 0) AHT21_STATE_IDLE) [11%N; 10%N] 3)
    as (_ & _ & Hdup & Hfresh & _ & Hstop & _).
  - unfold registry. cbn. split_and!; try done.
    eexists. split; first reflexivity. cbn. split_and!; try done.
    eexists. split; first reflexivity. done.
  - cbn. lia.
  - split_and!.
    + apply Hdup. compute_done.
    + apply Hstop. compute_done.
    + destruct (Hfresh 12%N (demo_sensor 2%N 0%N)) as (w' & Hrun & Hreg & _).
      * done.
      * compute_done.
      * reflexivity.
      * by exists w'.
Defined.

(** ** One tick of the scheduler *)

Section Ticks.
Context {D : Type}.
Implicit Types (w : SensorWorld D).

Lemma keeps_links_ret {A} (a : A) :
  keeps_links (mret a : StateErr (SensorWorld D) A).
Proof. intros w a' w' [= <- <-]. done. Qed.

Lemma keeps_links_undefined {A} :
  keeps_links (undefined : StateErr (SensorWorld D) A).
Proof. intros w a w' [=]. Qed.

Lemma keeps_links_bind {A B} (c : StateErr (SensorWorld D) A)
    (f : A → StateErr (SensorWorld D) B) :
  keeps_links c → (∀ a, keeps_links (f a)) → keeps_links (c ≫= f).
Proof.
  intros Hc Hf w b w' Hrun. rewrite bind_unfold in Hrun.
  destruct (c w) as [[a w1]|] eqn:Hcw; last done.
  destruct (Hc _ _ _ Hcw) as [Hh1 Hn1].
  destruct (Hf a _ _ _ Hrun) as [Hh2 Hn2].
  split; first congruence. intros q. by rewrite Hn2.
Qed.

Lemma keeps_links_load_sensor p :
  keeps_links (load_sensor p : StateErr (SensorWorld D) _).
Proof.
  intros w a w'. unfold load_sensor.
  destruct (sensors w !! p); last done. by intros [= <- <-].
Qed.

Lemma keeps_links_load_ops p :
  keeps_links (load_ops p : StateErr (SensorWorld D) _).
Proof.
  unfold load_ops. apply keeps_links_bind; first apply keeps_links_load_sensor.
  intros h. destruct (sensor_ops h);
    [apply keeps_links_ret | apply keeps_links_undefined].
Qed.

Lemma keeps_links_call_backend {A} (f : StateErr D A) :
  keeps_links (call_backend f).
Proof.
  intros w a w'. unfold call_backend.
  destruct (f (driver w)) as [[a' d]|]; last done. by intros [= <- <-].
Qed.

Lemma keeps_links_call_slot {A} (slot : option (N → StateErr D A)) d :
  keeps_links (call_slot slot d).
Proof.
  destruct slot; [apply keeps_links_call_backend | apply keeps_links_undefined].
Qed.

Lemma keeps_links_update_sensor p (f : TempHumiSensor D → TempHumiSensor D) :
  (∀ h, sensor_next (f h) = sensor_next h) →
  keeps_links (update_sensor p f).
Proof.
  intros Hf w a w'. unfold update_sensor, load_sensor, store_sensor.
  rewrite bind_unfold.
  destruct (sensors w !! p) as [h|] eqn:Hp; last done.
  rewrite Hp. intros [= <- <-]. split; first done. intros q. cbn.
  destruct (decide (p = q)) as [->|Hne].
  - rewrite lookup_insert_eq, Hp. cbn. by rewrite Hf.
  - by rewrite lookup_insert_ne.
Qed.

Ltac keeps_links :=
  repeat first
    [ apply keeps_links_ret
    | apply keeps_links_undefined
    | apply keeps_links_load_sensor
    | apply keeps_links_load_ops
    | apply keeps_links_call_backend
    | apply keeps_links_call_slot
    | apply keeps_links_update_sensor; done
    | apply keeps_links_bind; [|intros ?]
    | match goal with
      | |- keeps_links (if decide ?P then _ else _) => destruct (decide P)
      | |- keeps_links (match ?o with Some _ => _ | None => _ end) =>
        destruct o
      | |- keeps_links (let '(_, _) := ?p in _) => destruct p
      end ].

Lemma keeps_links_get_state handle :
  keeps_links (sensor_get_state handle : StateErr (SensorWorld D) _).
Proof. unfold sensor_get_state. keeps_links. Qed.

Lemma keeps_links_trigger handle :
  keeps_links (sensor_trigger_measure handle : StateErr (SensorWorld D) _).
Proof. unfold sensor_trigger_measure. keeps_links. Qed.

Lemma keeps_links_reset handle :
  keeps_links (sensor_reset handle : StateErr (SensorWorld D) _).
Proof. unfold sensor_reset. keeps_links. Qed.

Lemma keeps_links_read_data handle :
  keeps_links (sensor_read_data handle : StateErr (SensorWorld D) _).
Proof. unfold sensor_read_data. keeps_links. Qed.

Lemma keeps_links_handler handle :
  keeps_links (sensor_handler handle : StateErr (SensorWorld D) _).
Proof.
  unfold sensor_handler.
  apply keeps_links_bind; first apply keeps_links_get_state.
  intros [].
  - apply keeps_links_bind; first apply keeps_links_trigger.
    intros ?. apply keeps_links_ret.
  - apply keeps_links_bind; first apply keeps_links_read_data.
    intros ?. apply keeps_links_ret.
  - apply keeps_links_ret.
  - apply keeps_links_bind; first apply keeps_links_reset.
    intros ?. apply keeps_links_ret.
Qed.

Lemma keeps_links_for_each l (f : N → StateErr (SensorWorld D) unit) :
  (∀ x, keeps_links (f x)) → keeps_links (for_each l f).
Proof.
  intros Hf. induction l as [|x l IH]; cbn [for_each].
  - apply keeps_links_ret.
  - apply keeps_links_bind; first apply Hf. by intros _.
Qed.

Lemma sensor_ticks_loop_run l : ∀ w fuel p,
  chain (sensors w) p l →
  (length l < fuel)%nat →
  sensor_ticks_loop fuel p w = for_each l sensor_handler w.
Proof.
  induction l as [|x l IH]; intros w fuel p Hc Hfuel.
  - cbn in Hc. subst p. destruct fuel as [|fuel]; first (cbn in Hfuel; lia).
    cbn. by rewrite decide_True.
  - destruct Hc as (-> & Hx & node & Hnode & Hrest).
    destruct fuel as [|fuel]; first (cbn in Hfuel; lia).
    cbn [sensor_ticks_loop for_each]. rewrite decide_False by done.
    rewrite !bind_unfold.
    destruct (sensor_handler x w) as [[[] w1]|] eqn:Hrun; last done.
    destruct (keeps_links_handler x _ _ _ Hrun) as [_ Hnext].
    pose proof (Hnext x) as Hnx. rewrite Hnode in Hnx. cbn in Hnx.
    destruct (sensors w1 !! x) as [node1|] eqn:Hnode1; last done.
    injection Hnx as Hnx.
    rewrite bind_unfold. erewrite load_sensor_run by done.
    apply IH; last (cbn in Hfuel; lia).
    rewrite Hnx. eapply chain_ext; last exact Hrest. intros q _. apply Hnext.
Qed.

(** Registering the instances of [hs] one after the other. *)
Lemma sensor_start_order hs : ∀ w l fuel,
  registry w l →
  (length l + length hs < fuel)%nat →
  NoDup (hs ++ l) → 0%N ∉ hs →
  (∀ h, h ∈ hs → is_Some (sensors w !! h)) →
  ∃ w', for_each hs (λ h, sensor_start fuel h;; mret tt) w = Some (tt, w') ∧
        registry w' (rev hs ++ l) ∧ driver w' = driver w.
Proof.
  induction hs as [|h hs IH]; intros w l fuel Hreg Hfuel Hnodup Hnull Halloc.
  - exists w. by split_and!.
  - cbn [for_each rev]. cbn in Hfuel.
    apply NoDup_cons in Hnodup as [Hh Hnodup].
    apply not_elem_of_cons in Hnull as [Hh0 Hnull].
    destruct (Halloc h ltac:(left)) as [node Hnode].
    destruct (sensor_start_fresh w fuel l h node) as [Hrun Hreg'];
      try done; try lia.
    { intros Hin. apply Hh. apply elem_of_app. by right. }
    rewrite !bind_unfold, Hrun, ret_run.
    edestruct (IH _ (h :: l) fuel Hreg') as (w' & Hrun' & Hreg'' & Hdrv).
    + cbn. lia.
    + apply NoDup_app. apply NoDup_app in Hnodup as (Hn1 & Hn2 & Hn3).
      split_and!; first done.
      * intros y Hy. apply not_elem_of_cons. split; last by apply Hn2.
        intros ->. apply Hh. apply elem_of_app. by left.
      * apply NoDup_cons. split; last done.
        intros Hin. apply Hh. apply elem_of_app. by right.
    + done.
    + intros y Hy. cbn. destruct (decide (h = y)) as [->|Hne].
      * rewrite lookup_insert_eq. eauto.
      * rewrite lookup_insert_ne by done. apply Halloc. by right.
    + exists w'. split_and!; try done. by rewrite <- app_assoc.
Qed.

End Ticks.

Section TickTheorems.
Context {D : Type}.
Implicit Types (w : SensorWorld D).

(** C8: one call of [sensor_ticks] is one call of the state handler on
    each registered instance, in registry order, which is most recently
    registered first; the handler reads the backend's state and runs one
    action by it: trigger when IDLE, read when MEASURING, nothing when
    READY, reset when ERROR; and it leaves the registry as it is. *)
Theorem sensor_ticks_one_pass w l fuel :
  registry w l → (length l < fuel)%nat →
  sensor_ticks fuel w = for_each l sensor_handler w ∧
  (∀ hs w0,
     registry w0 [] → (length hs < fuel)%nat →
     NoDup hs → 0%N ∉ hs →
     (∀ h, h ∈ hs → is_Some (sensors w0 !! h)) →
     ∃ w1, for_each hs (λ h, sensor_start fuel h;; mret tt) w0
             = Some (tt, w1) ∧
           registry w1 (rev hs) ∧
           sensor_ticks fuel w1 = for_each (rev hs) sensor_handler w1) ∧
  (∀ handle w0 state w1,
     sensor_get_state handle w0 = Some (state, w1) →
     sensor_handler handle w0 =
       match state with
       | SENSOR_STATE_IDLE => (sensor_trigger_measure handle;; mret tt) w1
       | SENSOR_STATE_MEASURING => (sensor_read_data handle;; mret tt) w1
       | SENSOR_STATE_READY => Some (tt, w1)
       | SENSOR_STATE_ERROR => (sensor_reset handle;; mret tt) w1
       end) ∧
  (∀ handle w1,
     sensor_handler handle w = Some (tt, w1) → registry w1 l) ∧
  (∀ w1, sensor_ticks fuel w = Some (tt, w1) → registry w1 l).
Proof.
  intros Hreg Hfuel.
  assert (Hticks : ∀ w' l', registry w' l' → (length l' < fuel)%nat →
            sensor_ticks fuel w' = for_each l' sensor_handler w').
  { intros w' l' Hreg' Hfuel'. unfold sensor_ticks.
    rewrite bind_unfold. cbn [get_state_of].
    by apply sensor_ticks_loop_run. }
  assert (Hkeep : ∀ (c : StateErr (SensorWorld D) unit) w0 w1 l',
            keeps_links c → c w0 = Some (tt, w1) →
            registry w0 l' → registry w1 l').
  { intros c w0 w1 l' Hc Hrun Hreg'. destruct (Hc _ _ _ Hrun) as [Hhead Hnext].
    unfold registry. rewrite Hhead.
    eapply chain_ext; last exact Hreg'. intros q _. apply Hnext. }
  split_and!.
  - by apply Hticks.
  - intros hs w0 Hreg0 Hlen Hnodup Hnull Halloc.
    destruct (sensor_start_order hs w0 [] fuel) as (w1 & Hrun & Hreg1 & _);
      try done.
    { by rewrite app_nil_r. }
    rewrite app_nil_r in Hreg1. exists w1. split_and!; try done.
    apply Hticks; first done. by rewrite length_rev.
  - intros handle w0 state w1 Hstate. unfold sensor_handler.
    rewrite (bind_run _ _ _ _ _ Hstate). by destruct state.
  - intros handle w1 Hrun.
    by apply (Hkeep (sensor_handler handle) w w1 l (keeps_links_handler handle)).
  - intros w1 Hrun. rewrite (Hticks w l Hreg Hfuel) in Hrun.
    eapply Hkeep; [|exact Hrun|exact Hreg].
    apply keeps_links_for_each. apply keeps_links_handler.
Qed.


(** C10: for a non-NULL handle, table and driver handle, [sensor_init]
    overwrites the instance with zeroes and the three arguments, state
    IDLE, and calls the init slot if the table has one; the slot's result
    is dropped: whatever it reports, the instance is the same and
    [sensor_init] returns nothing. *)
Theorem sensor_init_drops_backend_result handle type table driver_handle w old :
  handle ≠ 0%N → driver_handle ≠ 0%N →
  sensors w !! handle = Some old →
  (init table = None →
   sensor_init handle type (Some table) driver_handle w
     = Some (tt, put_sensor handle
                   (initialised type table driver_handle) w)) ∧
  (∀ f result d,
     init table = Some f →
     f driver_handle (driver w) = Some (result, d) →
     sensor_init handle type (Some table) driver_handle w
       = Some (tt, put_driver d
                     (put_sensor handle
                        (initialised type table driver_handle) w))) ∧
  (∀ w',
     sensor_init handle type (Some table) driver_handle w = Some (tt, w') →
     sensors w' !! handle = Some (initialised type table driver_handle) ∧
     sensor_state <$> sensors w' !! handle = Some SENSOR_STATE_IDLE ∧
     head_sensor w' = head_sensor w).
Proof.
  intros Hnonnull Hdriver Hold.
  assert (Hrun : sensor_init handle type (Some table) driver_handle w =
            match init table with
            | Some f =>
              (call_backend (f driver_handle);; mret tt)
                (put_sensor handle (initialised type table driver_handle) w)
            | None =>
              Some (tt, put_sensor handle
                          (initialised type table driver_handle) w)
            end).
  { unfold sensor_init. rewrite !decide_False by done.
    erewrite bind_run; last by (unfold store_sensor; rewrite Hold).
    erewrite bind_run; last first.
    { unfold load_ops. erewrite bind_run; last first.
      { apply load_sensor_run. cbn. apply lookup_insert_eq. }
      reflexivity. }
    by destruct (init table). }
  split_and!.
  - intros Hnone. by rewrite Hrun, Hnone.
  - intros f result d Hf Hfd. rewrite Hrun, Hf.
    rewrite bind_unfold. unfold call_backend. cbn [driver put_sensor].
    by rewrite Hfd.
  - intros w'. rewrite Hrun. destruct (init table) as [f|].
    + rewrite bind_unfold. unfold call_backend. cbn [driver put_sensor].
      destruct (f driver_handle (driver w)) as [[result d]|]; last done.
      intros [= <-]. cbn. by rewrite lookup_insert_eq.
    + intros [= <-]. cbn. by rewrite lookup_insert_eq.
Qed.

End TickTheorems.

Lemma sensor_ticks_one_pass_witness :
  sensor_ticks 3 (demo_world (line_of [] 0) AHT21_STATE_IDLE)
    = for_each [11%N; 10%N] sensor_handler
        (demo_world (line_of [] 0) AHT21_STATE_IDLE) ∧
  tick_outcome_at 2%N 11%N
    (sensor_ticks 3 (demo_world (line_of [] 0) AHT21_STATE_IDLE))
    = Some (Some AHT21_STATE_READY, Some SENSOR_STATE_MEASURING).
Proof.
  destruct (sensor_ticks_one_pass
              (demo_world (line_of [] 0) AHT21_STATE_IDLE) [11%N; 10%N] 3)
    as (Hticks & _).
  - unfold registry. cbn. split_and!; try done.
    eexists. split; first reflexivity. cbn. split_and!; try done.
    eexists. split; first reflexivity. done.
  - cbn. lia.
  - split; first exact Hticks. vm_compute. reflexivity.
Defined.

Lemma sensor_init_drops_backend_result_witness :
  sensor_init 5%N SENSOR_TYPE_DHT11 (Some failing_init_ops) 7%N blank_world
    = Some (tt, put_driver tt
                  (put_sensor 5%N
                     (initialised SENSOR_TYPE_DHT11 failing_init_ops 7%N)
                     blank_world)).
Proof.
  destruct (sensor_init_drops_backend_result 5%N SENSOR_TYPE_DHT11
              failing_init_ops 7%N blank_world blank_sensor)
    as (_ & Hcall & _); [done | done | reflexivity |].
  apply (Hcall (λ _, mret SENSOR_ERR_INIT) SENSOR_ERR_INIT tt); reflexivity.
Defined.

(** ** Parameter checks of the bus engine *)

(** X1: every transfer function of the bus engine rejects a NULL handle, a
    NULL buffer and a zero length with the invalid-parameter result before
    it touches anything: the memory is as before and no platform hook is
    called. *)
Theorem iic_rejects_invalid_arguments m :
  iic_start 0%N m = Some (IIC_ERR_INVALID_PARAM, m) ∧
  iic_stop 0%N m = Some (IIC_ERR_INVALID_PARAM, m) ∧
  (∀ data, iic_write_byte 0%N data m = Some (IIC_ERR_INVALID_PARAM, m)) ∧
  (∀ handle data ack,
     handle = 0%N ∨ data = false →
     iic_read_byte handle data ack m = Some ((IIC_ERR_INVALID_PARAM, None), m)) ∧
  (∀ handle addr data len,
     handle = 0%N ∨ data = None ∨ len = 0 →
     iic_write handle addr data len m = Some (IIC_ERR_INVALID_PARAM, m)) ∧
  (∀ handle addr data len,
     handle = 0%N ∨ data = false ∨ len = 0 →
     iic_read handle addr data len m = Some ((IIC_ERR_INVALID_PARAM, []), m)).
Proof.
  split_and!; try done.
  - intros handle data ack [->| ->]; first done.
    unfold iic_read_byte. by destruct (decide _).
  - intros handle addr data len [->|[->| ->]]; first done.
    + unfold iic_write. by destruct (decide _).
    + unfold iic_write. destruct (decide _); first done. by destruct data.
  - intros handle addr data len [->|[->| ->]]; first done.
    + unfold iic_read. by destruct (decide _).
    + unfold iic_read. destruct (decide _); first done. by destruct data.
Qed.

(** ** Complete transfers *)

Lemma frame_acked_spec line pos frame :
  frame_acked line pos frame = true ↔
  ∀ i, (i < length frame)%nat → u8 (line (i + pos)%nat) = 0.
Proof.
  revert pos. induction frame as [|b rest IH]; intros pos; cbn [frame_acked length].
  - split; first (intros _ i Hi; lia). done.
  - destruct (Z.eqb_spec (u8 (line pos)) 0) as [Hz|Hnz].
    + rewrite IH. split.
      * intros H [|i] Hi; first done.
        replace (S i + pos)%nat with (i + S pos)%nat by lia. apply H. lia.
      * intros H i Hi. replace (i + S pos)%nat with (S i + pos)%nat by lia.
        apply H. lia.
    + split; first done. intros H. exfalso. apply Hnz. apply (H O). lia.
Qed.

Lemma write_frame_length addr bytes len :
  (Z.to_nat len ≤ length bytes)%nat →
  length (write_frame addr bytes len) = S (Z.to_nat len).
Proof. intros H. unfold write_frame. cbn. rewrite length_take. lia. Qed.

Lemma shiftl_address addr : u8 (Z.shiftl addr 1) = (2 * addr) mod 256.
Proof. rewrite u8_mod, Z.shiftl_mul_pow2 by lia. f_equal. lia. Qed.

Lemma shiftl_address_read addr :
  u8 (Z.lor (Z.shiftl addr 1) 0x01) = (2 * addr + 1) mod 256.
Proof.
  rewrite u8_mod, Z.shiftl_mul_pow2 by lia.
  rewrite lor_mul_pow2_add by lia. f_equal. lia.
Qed.

(** X2: a valid write on a working bus returns OK exactly when every byte
    of the frame is acknowledged, and NACK otherwise.  The frame is the
    address byte 2 * addr (mod 256) followed by the first [len] payload
    bytes; an acknowledged frame goes out whole between one start and one
    stop, one acknowledgment read per byte.  Either way the handle keeps
    its configuration with the busy flag cleared, and no driver handle is
    touched. *)
Theorem iic_write_acknowledged handle h ops addr bytes len m :
  handle ≠ 0%N →
  hal_complete h ops →
  iic_handles m !! handle = Some h →
  0 < len → (Z.to_nat len ≤ length bytes)%nat →
  let d := half_period h in
  let frame := (2 * addr) mod 256 :: take (Z.to_nat len) bytes in
  ∃ result m',
    iic_write handle addr (Some bytes) len m = Some (result, m') ∧
    (result = IIC_OK ∨ result = IIC_ERR_NACK) ∧
    (result = IIC_OK ↔
     ∀ i, (i ≤ Z.to_nat len)%nat → ack_level m i = 0) ∧
    (result = IIC_OK →
     pins m' = pins m ++ start_pins d ++
               write_bytes_pins d (sda_line m) (sda_reads m) frame ++
               stop_pins d ∧
     sda_reads m' = (S (Z.to_nat len) + sda_reads m)%nat) ∧
    iic_handles m' = <[handle := with_bus_busy 0 h]> (iic_handles m) ∧
    aht21_handles m' = aht21_handles m ∧
    sda_line m' = sda_line m.
Proof.
  intros Hnonnull Hhal Hm Hlen Hbytes. cbn zeta.
  rewrite (iic_write_run handle ops Hnonnull h addr bytes len m) by done.
  cbn zeta.
  pose proof (frame_acked_spec (sda_line m) (sda_reads m)
                (write_frame addr bytes len)) as Hspec.
  rewrite write_frame_length in Hspec by done.
  pose proof (transmitted_acked (sda_line m) (sda_reads m)
                (write_frame addr bytes len)) as Hall.
  rewrite write_frame_length in Hall by done.
  assert (Hframe : write_frame addr bytes len =
                   (2 * addr) mod 256 :: take (Z.to_nat len) bytes).
  { unfold write_frame. by rewrite shiftl_address. }
  destruct (frame_acked _ _ _) eqn:Hacked.
  - do 2 eexists. split; first done. split_and!; try done.
    + by left.
    + split; last done. intros _ i Hi. apply Hspec; [done | lia].
    + intros _. rewrite Hall by done. cbn [pins step sda_reads put_iic].
      rewrite <- Hframe. rewrite firstn_all2; first done.
      rewrite write_frame_length by done. lia.
  - do 2 eexists. split; first done. split_and!; try done.
    + by right.
    + split; first done. intros Hack. exfalso.
      assert (false = true); last done.
      apply Hspec. intros i Hi. apply Hack. lia.
Qed.

Lemma iic_write_acknowledged_witness :
  ∃ m',
    iic_write 1%N AHT21_ADDR (Some [AHT21_CMD_SOFT_RESET]) 1
      (demo_mem (line_of [] 0) AHT21_STATE_IDLE) = Some (IIC_OK, m') ∧
    sda_reads m' = 2%nat.
Proof.
  destruct (iic_write_acknowledged 1%N demo_bus demo_hal AHT21_ADDR
              [AHT21_CMD_SOFT_RESET] 1
              (demo_mem (line_of [] 0) AHT21_STATE_IDLE))
    as (result & m' & Hrun & _ & Hiff & Hok & _).
  - done.
  - repeat split; done.
  - reflexivity.
  - lia.
  - cbn. lia.
  - assert (result = IIC_OK) as ->.
    { apply Hiff. intros i Hi. unfold ack_level, demo_mem, board, line_of.
      cbn. by destruct (i + 0)%nat. }
    exists m'. split; first done. by destruct Hok as [_ ->].
Defined.

(** ** What the master drives on the data line *)

Lemma sda_levels_app a b : sda_levels (a ++ b) = sda_levels a ++ sda_levels b.
Proof. apply omap_app. Qed.

Lemma sda_levels_half_period h : sda_levels (half_period h) = [].
Proof.
  unfold half_period. destruct (hal_ops h) as [ops|]; last done.
  by destruct (delay_us ops).
Qed.

Lemma sda_levels_send_bits n d data :
  sda_levels d = [] → (n ≤ 8)%nat →
  sda_levels (send_bits_pins n d data) =
    map (λ i, if Z.testbit data (7 - Z.of_nat i) then 1 else 0) (seq 0 n).
Proof.
  intros Hd. revert data. induction n as [|n IH]; intros data Hn; first done.
  cbn [send_bits_pins]. rewrite !sda_levels_app, Hd, IH by lia.
  assert (Hsda : ∀ v, sda_levels [EvSetSda v] = [v]) by done.
  assert (Hscl : ∀ v, sda_levels [EvSetScl v] = []) by done.
  rewrite Hsda, !Hscl. cbn [app seq map]. f_equal.
  - change 0x80 with (2 ^ 7). rewrite land_bit by lia.
    change (7 - Z.of_nat 0) with 7. by destruct (Z.testbit data 7).
  - rewrite <- seq_shift, map_map. apply map_ext_in. intros i Hi.
    apply in_seq in Hi. unfold u8. rewrite Z.land_spec, Z.shiftl_spec by lia.
    change 255 with (Z.ones 8). rewrite Z.ones_spec_low by lia.
    rewrite andb_true_r.
    by replace (7 - Z.of_nat i - 1) with (7 - Z.of_nat (S i)) by lia.
Qed.

Lemma sda_levels_write_byte h data level :
  sda_levels (write_byte_pins (half_period h) data level) =
    byte_levels data ++ [1].
Proof.
  unfold write_byte_pins.
  rewrite !sda_levels_app, sda_levels_send_bits, !sda_levels_half_period;
    [done | apply sda_levels_half_period | lia].
Qed.

Lemma sda_levels_recv_bits n h line pos :
  sda_levels (recv_bits_pins n (half_period h) line pos) = [].
Proof.
  revert pos. induction n as [|n IH]; intros pos; first done.
  cbn [recv_bits_pins]. by rewrite !sda_levels_app, !sda_levels_half_period, IH.
Qed.

Lemma sda_levels_read_byte h line pos ack :
  sda_levels (read_byte_pins (half_period h) line pos ack) =
    [if ack =? 0 then 1 else 0].
Proof.
  unfold read_byte_pins.
  by rewrite !sda_levels_app, sda_levels_recv_bits, !sda_levels_half_period.
Qed.

Lemma sda_levels_read_bytes h line pos len i n :
  i + Z.of_nat n = len →
  0 ≤ i →
  sda_levels (read_bytes_pins (half_period h) line pos len i n) =
    match n with
    | O => []
    | S n' => replicate n' 0 ++ [1]
    end.
Proof.
  revert pos i. induction n as [|n IH]; intros pos i Hlen Hi; first done.
  cbn [read_bytes_pins]. rewrite sda_levels_app, sda_levels_read_byte.
  rewrite IH by lia. destruct n as [|n].
  - rewrite (proj2 (Z.ltb_ge i (len - 1))) by lia. done.
  - rewrite (proj2 (Z.ltb_lt i (len - 1))) by lia. done.
Qed.

(** ** Bytes on the line *)

Lemma recv_bits_value b n : ∀ line pos acc,
  (n ≤ 8)%nat →
  acc = (b mod 256) / 2 ^ Z.of_nat n →
  (∀ i, (i < n)%nat →
     (u8 (line (i + pos)%nat) =? 0) =
       negb (Z.testbit b (Z.of_nat n - 1 - Z.of_nat i))) →
  recv_bits n line pos acc = b mod 256.
Proof.
  induction n as [|n IH]; intros line pos acc Hn Hacc Hline.
  - cbn. rewrite Hacc. cbn. by rewrite Z.div_1_r.
  - cbn [recv_bits].
    pose proof (Z.mod_pos_bound b 256 ltac:(lia)) as Hb.
    assert (Hacc_range : 0 ≤ acc < 128).
    { rewrite Hacc. split; first (apply Z.div_pos; lia).
      apply Z.div_lt_upper_bound; first lia.
      assert (2 ^ 1 ≤ 2 ^ Z.of_nat (S n)) by (apply Z.pow_le_mono_r; lia).
      lia. }
    assert (Hshift : u8 (Z.shiftl acc 1) = acc * 2 ^ 1).
    { rewrite u8_mod, Z.shiftl_mul_pow2 by lia. apply Z.mod_small. lia. }
    assert (Hbit : (b mod 256) / 2 ^ Z.of_nat n =
                   acc * 2 ^ 1 + Z.b2z (Z.testbit b (Z.of_nat n))).
    { rewrite <- (Z.mod_pow2_bits_low b 8 (Z.of_nat n)) by lia.
      change (2 ^ 8) with 256. rewrite Z.testbit_spec' by lia.
      rewrite Hacc. rewrite Nat2Z.inj_succ, Z.pow_succ_r by lia.
      rewrite (Z.mul_comm 2), <- Z.div_div by lia.
      pose proof (Z.div_mod (b mod 256 / 2 ^ Z.of_nat n) 2 ltac:(lia)).
      change (2 ^ 1) with 2. lia. }
    apply IH; first lia.
    + rewrite Hbit. pose proof (Hline O ltac:(lia)) as H0. cbn [Nat.add] in H0.
      rewrite H0. replace (Z.of_nat (S n) - 1 - Z.of_nat 0) with (Z.of_nat n) by lia.
      rewrite Hshift. destruct (Z.testbit b (Z.of_nat n)); cbn [negb Z.b2z].
      * by rewrite lor_mul_pow2_add by lia.
      * lia.
    + intros i Hi. replace (i + S pos)%nat with (S i + pos)%nat by lia.
      rewrite Hline by lia. do 2 f_equal. lia.
Qed.

Lemma nth_byte_levels b i :
  (i < 8)%nat →
  nth i (byte_levels b) 0 = if Z.testbit b (7 - Z.of_nat i) then 1 else 0.
Proof.
  intros Hi. unfold byte_levels.
  do 8 (destruct i as [|i]; first done). lia.
Qed.

Lemma bus_byte_levels b line pos :
  (∀ i, (i < 8)%nat → line (i + pos)%nat = nth i (byte_levels b) 0) →
  bus_byte line pos = b mod 256.
Proof.
  intros Hline. unfold bus_byte. apply recv_bits_value; [lia | |].
  - change (2 ^ Z.of_nat 8) with 256. symmetry. apply Z.div_small.
    apply Z.mod_pos_bound. lia.
  - intros i Hi. rewrite Hline, nth_byte_levels by done.
    replace (Z.of_nat 8 - 1 - Z.of_nat i) with (7 - Z.of_nat i) by lia.
    by destruct (Z.testbit b _).
Qed.

(** X3: a byte goes over the line most significant bit first in both
    directions.  [iic_write_byte] drives the eight bits of [data] from bit 7
    down to bit 0 and then releases the line for the acknowledgment;
    [iic_read_byte] on a line that carries those eight levels delivers
    [data] (mod 256) and returns OK.  So a byte written and looped back is
    read unchanged. *)
Theorem iic_byte_loopback handle h ops data :
  handle ≠ 0%N →
  hal_complete h ops →
  (∀ m, iic_handles m !! handle = Some h →
     ∃ result m' evs,
       iic_write_byte handle data m = Some (result, m') ∧
       pins m' = pins m ++ evs ∧
       sda_levels evs = byte_levels data ++ [1]) ∧
  (∀ m ack, iic_handles m !! handle = Some h →
     (∀ i, (i < 8)%nat →
        sda_line m (i + sda_reads m)%nat = nth i (byte_levels data) 0) →
     ∃ m',
       iic_read_byte handle true ack m =
         Some ((IIC_OK, Some (data mod 256)), m') ∧
       sda_reads m' = (8 + sda_reads m)%nat).
Proof.
  intros Hnonnull Hhal. split.
  - intros m Hm. do 3 eexists.
    split; first by eapply iic_write_byte_run.
    split; first done. apply sda_levels_write_byte.
  - intros m ack Hm Hline. eexists.
    rewrite (iic_read_byte_run handle h ops Hnonnull Hhal) by done.
    by rewrite (bus_byte_levels data).
Qed.

Lemma iic_byte_loopback_witness :
  ∃ m',
    iic_read_byte 1%N true 0
      (demo_mem (line_of (byte_levels 0xAC) 1) AHT21_STATE_IDLE) =
      Some ((IIC_OK, Some 0xAC), m') ∧
    sda_reads m' = 8%nat.
Proof.
  destruct (iic_byte_loopback 1%N demo_bus demo_hal 0xAC) as (_ & Hread).
  - done.
  - repeat split; done.
  - apply (Hread (demo_mem (line_of (byte_levels 0xAC) 1) AHT21_STATE_IDLE) 0).
    + reflexivity.
    + intros i Hi. cbn [sda_line sda_reads demo_mem board].
      rewrite Nat.add_0_r. unfold line_of. apply nth_indep. cbn. lia.
Defined.

(** X4: a valid read on a working bus sends the address byte
    2 * addr + 1 (mod 256).  When it is acknowledged the read returns OK
    with exactly [len] bytes, each below 256, after 1 + 8 * len reads of
    the line, and the master acknowledges every byte but the last; when it
    is not, the read returns NACK with no byte stored after one read of the
    line.  Either way the transfer ends with a stop, the handle keeps its
    configuration with the busy flag cleared, and no driver handle is
    touched. *)
Theorem iic_read_delivers handle h ops addr len m :
  handle ≠ 0%N →
  hal_complete h ops →
  iic_handles m !! handle = Some h →
  0 < len →
  let d := half_period h in
  let target := (2 * addr + 1) mod 256 in
  ∃ result bytes m' body,
    iic_read handle addr true len m = Some ((result, bytes), m') ∧
    pins m' = pins m ++ start_pins d ++
              write_byte_pins d target (ack_level m 0) ++ body ++ stop_pins d ∧
    (ack_level m 0 = 0 →
     result = IIC_OK ∧
     length bytes = Z.to_nat len ∧
     Forall (λ b, 0 ≤ b < 256) bytes ∧
     (∀ i, (i < Z.to_nat len)%nat →
        bytes !! i = Some (bus_byte (sda_line m) (1 + 8 * i + sda_reads m))) ∧
     sda_reads m' = (1 + 8 * Z.to_nat len + sda_reads m)%nat ∧
     sda_levels body = replicate (Z.to_nat len - 1) 0 ++ [1]) ∧
    (ack_level m 0 ≠ 0 →
     result = IIC_ERR_NACK ∧ bytes = [] ∧ body = [] ∧
     sda_reads m' = S (sda_reads m)) ∧
    iic_handles m' = <[handle := with_bus_busy 0 h]> (iic_handles m) ∧
    aht21_handles m' = aht21_handles m ∧
    sda_line m' = sda_line m.
Proof.
  intros Hnonnull Hhal Hm Hlen. cbn zeta.
  rewrite (iic_read_run handle ops Hnonnull h addr len m) by done.
  cbn zeta. rewrite shiftl_address_read.
  change (ack_level m 0) with (sample m).
  destruct (Z.eqb_spec (sample m) 0) as [Hack|Hnack].
  - do 3 eexists.
    exists (read_bytes_pins (half_period h) (sda_line m) (S (sda_reads m))
              len 0 (Z.to_nat len)).
    split; first done. split; first done.
    split_and!; try done.
    intros _. split_and!; try done.
    + apply read_bytes_length.
    + apply read_bytes_range.
    + intros i Hi. clear -Hi. revert i Hi.
      generalize (Z.to_nat len). generalize (sda_reads m). intros pos n.
      revert pos. induction n as [|n IH]; intros pos i Hi; first lia.
      cbn [read_bytes]. destruct i as [|i].
      * cbn. do 2 f_equal.
      * cbn [lookup list_lookup]. 
        change (read_bytes (sda_line m) (8 + S pos) n !! i) with
          (read_bytes (sda_line m) (S (8 + pos)) n !! i).
        rewrite IH by lia. do 2 f_equal. lia.
    + rewrite sda_levels_read_bytes by lia.
      destruct (Z.to_nat len) as [|n] eqn:E; first lia.
      by rewrite Nat.sub_succ, Nat.sub_0_r.
  - do 3 eexists. exists []. split; first done. split; first done.
    split_and!; try done.
Qed.

Lemma iic_read_delivers_witness :
  ∃ m',
    iic_read 1%N AHT21_ADDR true 1
      (demo_mem (reply_line 0x1C []) AHT21_STATE_IDLE) =
      Some ((IIC_OK, [0x1C]), m') ∧
    sda_reads m' = 9%nat.
Proof.
  destruct (iic_read_delivers 1%N demo_bus demo_hal AHT21_ADDR 1
              (demo_mem (reply_line 0x1C []) AHT21_STATE_IDLE))
    as (result & bytes & m' & body & Hrun & _ & Hok & _).
  - done.
  - repeat split; done.
  - reflexivity.
  - lia.
  - destruct Hok as (-> & Hlen & _ & Hbytes & Hreads & _); first reflexivity.
    exists m'. split; last done. rewrite Hrun. do 3 f_equal.
    destruct bytes as [|b [|? ?]]; try done.
    pose proof (Hbytes O ltac:(cbn; lia)) as Hb. cbn in Hb.
    injection Hb as ->. vm_compute. reflexivity.
Defined.

(** ** Setting up a bus handle *)

Lemma iic_init_run handle h ops m :
  handle ≠ 0%N →
  iic_handles m !! handle = Some h →
  set_sda ops = true → set_scl ops = true →
  iic_init handle (Some ops) m =
    Some (tt, step ((if sda_mode ops then [EvSdaMode 1] else []) ++
                    [EvSetSda 1; EvSetScl 1]) 0
                (put_iic handle (board_bus ops 100) m)).
Proof.
  intros Hnonnull Hm Hsda Hscl. unfold iic_init.
  rewrite decide_False by done.
  erewrite bind_run; last by (unfold store_iic; rewrite Hm).
  fold (board_bus ops 100).
  assert (Hm' : iic_handles (put_iic handle (board_bus ops 100) m) !! handle
                = Some (board_bus ops 100)) by apply lookup_put_iic.
  erewrite bind_run; last by (eapply (load_hal_any handle (board_bus ops 100) ops)).
  destruct (sda_mode ops) eqn:Hmode.
  - erewrite bind_run; last first.
    { erewrite (hal_sda_mode_any handle (board_bus ops 100) ops) by done.
      by rewrite Hmode. }
    erewrite bind_run; last first.
    { erewrite (hal_set_sda_any handle (board_bus ops 100) ops) by done.
      by rewrite Hsda. }
    erewrite (hal_set_scl_any handle (board_bus ops 100) ops) by done.
    rewrite Hscl, !step_step. done.
  - rewrite bind_unfold, ret_run.
    erewrite bind_run; last first.
    { erewrite (hal_set_sda_any handle (board_bus ops 100) ops) by done.
      by rewrite Hsda. }
    erewrite (hal_set_scl_any handle (board_bus ops 100) ops) by done.
    rewrite Hscl, !step_step. done.
Qed.

(** X5: [iic_init] does nothing on a NULL handle or a NULL table.
    Otherwise it overwrites the handle, whatever it held, with the table,
    100 kHz, a 1000 ms timeout and a clear busy flag, and releases both
    wires: [sda_mode(1)] if the table has that hook, then [set_sda(1)] and
    [set_scl(1)].  The two wire hooks are called unguarded: a table
    without one of them has no defined result. *)
Theorem iic_init_configures handle h m :
  handle ≠ 0%N →
  iic_handles m !! handle = Some h →
  (∀ hal, iic_init 0%N hal m = Some (tt, m)) ∧
  iic_init handle None m = Some (tt, m) ∧
  (∀ ops, set_sda ops = true → set_scl ops = true →
     ∃ m',
       iic_init handle (Some ops) m = Some (tt, m') ∧
       iic_handles m' = <[handle := board_bus ops 100]> (iic_handles m) ∧
       pins m' = pins m ++ (if sda_mode ops then [EvSdaMode 1] else []) ++
                 [EvSetSda 1; EvSetScl 1] ∧
       sda_reads m' = sda_reads m ∧
       aht21_handles m' = aht21_handles m) ∧
  (∀ ops, set_sda ops = false ∨ set_scl ops = false →
     iic_init handle (Some ops) m = None).
Proof.
  intros Hnonnull Hm. split_and!; try done.
  - unfold iic_init. by rewrite decide_False.
  - intros ops Hsda Hscl. eexists.
    split; first by eapply iic_init_run. done.
  - intros ops Hmissing. unfold iic_init. rewrite decide_False by done.
    erewrite bind_run; last by (unfold store_iic; rewrite Hm).
    fold (board_bus ops 100).
    assert (Hm' : iic_handles (put_iic handle (board_bus ops 100) m) !! handle
                  = Some (board_bus ops 100)) by apply lookup_put_iic.
    erewrite bind_run; last by (eapply (load_hal_any handle (board_bus ops 100) ops)).
    rewrite bind_unfold.
    assert (Hrest : ∀ m0,
              iic_handles m0 !! handle = Some (board_bus ops 100) →
              (hal_set_sda handle 1;; hal_set_scl handle 1) m0 = None).
    { intros m0 Hm0. rewrite bind_unfold.
      erewrite (hal_set_sda_any handle (board_bus ops 100) ops) by done.
      destruct (set_sda ops) eqn:Hsda; last done.
      erewrite (hal_set_scl_any handle (board_bus ops 100) ops) by done.
      destruct Hmissing as [|Hscl]; first done. by rewrite Hscl. }
    destruct (sda_mode ops) eqn:Hmode.
    + erewrite (hal_sda_mode_any handle (board_bus ops 100) ops) by done.
      rewrite Hmode. by apply Hrest.
    + rewrite ret_run. by apply Hrest.
Qed.

Lemma iic_init_configures_witness :
  ∃ m',
    iic_init 1%N (Some quiet_hal)
      (board demo_hal 400 (line_of [] 0) AHT21_STATE_IDLE) = Some (tt, m') ∧
    iic_handles m' !! 1%N = Some (board_bus quiet_hal 100).
Proof.
  destruct (iic_init_configures 1%N (board_bus demo_hal 400)
              (board demo_hal 400 (line_of [] 0) AHT21_STATE_IDLE))
    as (_ & _ & Hinit & _); [done | reflexivity |].
  destruct (Hinit quiet_hal) as (m' & Hrun & Hh & _); [done | done |].
  exists m'. split; first done. rewrite Hh. apply lookup_insert_eq.
Defined.

(** X6: [iic_init] accepts a table without the [sda_mode] hook, but every
    transfer function calls that hook unguarded: after such an init
    start, stop, byte and multi-byte transfers have no defined result. *)
Theorem iic_init_without_sda_mode handle h ops m :
  handle ≠ 0%N →
  iic_handles m !! handle = Some h →
  set_sda ops = true → set_scl ops = true → sda_mode ops = false →
  ∃ m',
    iic_init handle (Some ops) m = Some (tt, m') ∧
    iic_start handle m' = None ∧
    iic_stop handle m' = None ∧
    (∀ data, iic_write_byte handle data m' = None) ∧
    (∀ ack, iic_read_byte handle true ack m' = None) ∧
    (∀ addr bytes len, 0 < len →
       iic_write handle addr (Some bytes) len m' = None) ∧
    (∀ addr len, 0 < len → iic_read handle addr true len m' = None).
Proof.
  intros Hnonnull Hm Hsda Hscl Hmode. eexists.
  split; first by eapply iic_init_run.
  set (m' := step _ 0 _).
  assert (Hm' : iic_handles m' !! handle = Some (board_bus ops 100))
    by apply lookup_put_iic.
  assert (Hcall : ∀ o, hal_sda_mode handle o m' = None).
  { intros o. erewrite (hal_sda_mode_any handle (board_bus ops 100) ops) by done.
    by rewrite Hmode. }
  assert (Hstart : iic_start handle m' = None).
  { unfold iic_start. rewrite decide_False by done.
    by rewrite bind_unfold, Hcall. }
  split_and!; try done.
  - unfold iic_stop. rewrite decide_False by done.
    by rewrite bind_unfold, Hcall.
  - intros data. unfold iic_write_byte. rewrite decide_False by done.
    by rewrite bind_unfold, Hcall.
  - intros ack. unfold iic_read_byte. rewrite decide_False by done.
    cbn [negb]. by rewrite bind_unfold, Hcall.
  - intros addr bytes len Hlen. unfold iic_write.
    rewrite decide_False by done.
    destruct (Z.eqb_spec len 0) as [|_]; first lia.
    by rewrite bind_unfold, Hstart.
  - intros addr len Hlen. unfold iic_read.
    rewrite decide_False by done. cbn [negb].
    destruct (Z.eqb_spec len 0) as [|_]; first lia.
    by rewrite bind_unfold, Hstart.
Qed.

(** A table with the wire hooks but no direction hook. *)
Lemma iic_init_without_sda_mode_witness :
  ∃ m',
    iic_init 1%N
      (Some {| delay_us := true; delay_ms := true; set_sda := true;
               set_scl := true; read_sda := true; sda_mode := false |})
      (demo_mem (line_of [] 0) AHT21_STATE_IDLE) = Some (tt, m') ∧
    iic_start 1%N m' = None.
Proof.
  destruct (iic_init_without_sda_mode 1%N demo_bus
              {| delay_us := true; delay_ms := true; set_sda := true;
                 set_scl := true; read_sda := true; sda_mode := false |}
              (demo_mem (line_of [] 0) AHT21_STATE_IDLE))
    as (m' & Hrun & Hstart & _); try done.
  by exists m'.
Defined.

(** ** The timeout and the busy flag *)

Lemma iic_set_timeout_run handle h timeout m :
  handle ≠ 0%N →
  iic_handles m !! handle = Some h →
  iic_set_timeout handle timeout m =
    Some (tt, put_iic handle
                (with_timeout_busy (u16 timeout) (bus_busy h) h) m).
Proof.
  intros Hnonnull Hm. unfold iic_set_timeout. rewrite decide_False by done.
  erewrite bind_run; last by (unfold load_iic; rewrite Hm).
  unfold store_iic. by rewrite Hm.
Qed.

Lemma half_period_timeout_busy t b h :
  half_period (with_timeout_busy t b h) = half_period h.
Proof. reflexivity. Qed.

Lemma hal_complete_timeout_busy t b h ops :
  hal_complete h ops → hal_complete (with_timeout_busy t b h) ops.
Proof. done. Qed.

(** X7: the timeout and the busy flag of a handle are stored and never
    read.  [iic_set_timeout] keeps the low 16 bits of its argument and
    leaves the rest of the handle alone (on NULL it does nothing); a write
    or a read on a handle with any timeout and any busy flag returns the
    same result after the same platform calls as with any other, starts
    even when the flag says busy, and leaves the timeout as it was and the
    flag cleared. *)
Theorem iic_timeout_and_busy_unused handle h ops t b addr bytes len m :
  handle ≠ 0%N →
  hal_complete h ops →
  iic_handles m !! handle = Some h →
  0 < len → (Z.to_nat len ≤ length bytes)%nat →
  let m0 := put_iic handle (with_timeout_busy t b h) m in
  iic_set_timeout 0%N t m = Some (tt, m) ∧
  iic_set_timeout handle t m =
    Some (tt, put_iic handle (with_timeout_busy (t mod 65536) (bus_busy h) h) m) ∧
  bus_outcome (iic_write handle addr (Some bytes) len m0) =
    bus_outcome (iic_write handle addr (Some bytes) len m) ∧
  bus_outcome (iic_read handle addr true len m0) =
    bus_outcome (iic_read handle addr true len m) ∧
  (∃ r m', iic_write handle addr (Some bytes) len m0 = Some (r, m') ∧
           iic_handles m' !! handle = Some (with_timeout_busy t 0 h)) ∧
  (∃ r m', iic_read handle addr true len m0 = Some (r, m') ∧
           iic_handles m' !! handle = Some (with_timeout_busy t 0 h)).
Proof.
  intros Hnonnull Hhal Hm Hlen Hbytes. cbn zeta.
  set (h0 := with_timeout_busy t b h).
  assert (Hm0 : iic_handles (put_iic handle h0 m) !! handle = Some h0)
    by apply lookup_put_iic.
  assert (Hhal0 : hal_complete h0 ops) by done.
  split_and!.
  - done.
  - by apply iic_set_timeout_run.
  - rewrite (iic_write_run handle ops Hnonnull h0 addr bytes len _ Hhal0 Hm0)
      by done.
    rewrite (iic_write_run handle ops Hnonnull h addr bytes len m Hhal Hm)
      by done.
    done.
  - rewrite (iic_read_run handle ops Hnonnull h0 addr len _ Hhal0 Hm0) by done.
    rewrite (iic_read_run handle ops Hnonnull h addr len m Hhal Hm) by done.
    cbn zeta. rewrite sample_put_iic. by destruct (sample m =? 0).
  - rewrite (iic_write_run handle ops Hnonnull h0 addr bytes len _ Hhal0 Hm0)
      by done.
    do 2 eexists. split; first done. cbn. by rewrite lookup_insert_eq.
  - rewrite (iic_read_run handle ops Hnonnull h0 addr len _ Hhal0 Hm0) by done.
    cbn zeta. destruct (sample _ =? 0);
      do 2 eexists; (split; first done); cbn; by rewrite lookup_insert_eq.
Qed.

Lemma iic_timeout_and_busy_unused_witness :
  bus_outcome
    (iic_write 1%N AHT21_ADDR (Some [AHT21_CMD_SOFT_RESET]) 1
       (put_iic 1%N (with_timeout_busy 0 1 demo_bus)
          (demo_mem (line_of [] 0) AHT21_STATE_IDLE))) =
  bus_outcome
    (iic_write 1%N AHT21_ADDR (Some [AHT21_CMD_SOFT_RESET]) 1
       (demo_mem (line_of [] 0) AHT21_STATE_IDLE)).
Proof.
  destruct (iic_timeout_and_busy_unused 1%N demo_bus demo_hal 0 1 AHT21_ADDR
              [AHT21_CMD_SOFT_RESET] 1
              (demo_mem (line_of [] 0) AHT21_STATE_IDLE))
    as (_ & _ & Hwrite & _).
  - done.
  - repeat split; done.
  - reflexivity.
  - lia.
  - cbn. lia.
  - exact Hwrite.
Defined.

(** ** Start and stop conditions *)

Lemma bus_conditions_half_period h rest w :
  bus_conditions (half_period h ++ rest) w = bus_conditions rest w.
Proof.
  unfold half_period. destruct (hal_ops h) as [ops|]; last done.
  by destruct (delay_us ops).
Qed.

Lemma wires_after_half_period h rest w :
  wires_after (half_period h ++ rest) w = wires_after rest w.
Proof.
  unfold half_period. destruct (hal_ops h) as [ops|]; last done.
  by destruct (delay_us ops).
Qed.

Lemma bus_conditions_half_period_end h w : bus_conditions (half_period h) w = [].
Proof.
  unfold half_period. destruct (hal_ops h) as [ops|]; last done.
  by destruct (delay_us ops).
Qed.

Lemma wires_after_half_period_end h w : wires_after (half_period h) w = w.
Proof.
  unfold half_period. destruct (hal_ops h) as [ops|]; last done.
  by destruct (delay_us ops).
Qed.

Ltac scan_step :=
  repeat first
    [ rewrite bus_conditions_half_period
    | rewrite wires_after_half_period
    | rewrite bus_conditions_half_period_end
    | rewrite wires_after_half_period_end
    | rewrite <- app_assoc
    | progress cbn [app bus_conditions wires_after drive condition_of
                    scl_wire sda_wire Z.eqb] ].

Lemma bus_scan_send_bits n h data rest s :
  ∃ s',
    bus_conditions (send_bits_pins n (half_period h) data ++ rest)
      {| scl_wire := 0; sda_wire := s |} =
      bus_conditions rest {| scl_wire := 0; sda_wire := s' |} ∧
    wires_after (send_bits_pins n (half_period h) data ++ rest)
      {| scl_wire := 0; sda_wire := s |} =
      wires_after rest {| scl_wire := 0; sda_wire := s' |}.
Proof.
  revert data s. induction n as [|n IH]; intros data s; first by exists s.
  cbn [send_bits_pins]. scan_step.
  destruct (IH (u8 (Z.shiftl data 1))
              (if Z.land data 128 =? 0 then 0 else 1)) as (s' & Hc & Hw).
  exists s'. by rewrite Hc, Hw.
Qed.

Lemma bus_scan_write_byte h data level rest w :
  bus_conditions (write_byte_pins (half_period h) data level ++ rest) w =
    bus_conditions rest {| scl_wire := 0; sda_wire := 1 |} ∧
  wires_after (write_byte_pins (half_period h) data level ++ rest) w =
    wires_after rest {| scl_wire := 0; sda_wire := 1 |}.
Proof.
  unfold write_byte_pins. scan_step.
  destruct (bus_scan_send_bits 8 h data
              ([EvSetSda 1; EvSdaMode 0] ++ half_period h ++ [EvSetScl 1] ++
               half_period h ++ [EvReadSda level; EvSetScl 0] ++ rest)
              (sda_wire w)) as (s' & Hc & Hw).
  cbn [app] in Hc, Hw.
  rewrite Hc, Hw. by scan_step.
Qed.

Lemma bus_scan_write_bytes h line bytes : ∀ pos rest w,
  scl_wire w = 0 →
  ∃ w',
    bus_conditions (write_bytes_pins (half_period h) line pos bytes ++ rest) w =
      bus_conditions rest w' ∧
    wires_after (write_bytes_pins (half_period h) line pos bytes ++ rest) w =
      wires_after rest w' ∧
    scl_wire w' = 0.
Proof.
  induction bytes as [|b bs IH]; intros pos rest w Hw; first by exists w.
  cbn [write_bytes_pins]. rewrite <- app_assoc.
  destruct (bus_scan_write_byte h b (u8 (line pos))
              (write_bytes_pins (half_period h) line (S pos) bs ++ rest) w)
    as [-> ->].
  by apply IH.
Qed.

Lemma bus_scan_recv_bits n h line rest : ∀ pos w,
  bus_conditions
    (recv_bits_pins n (half_period h) line pos ++ EvSetScl 0 :: rest) w =
    bus_conditions rest {| scl_wire := 0; sda_wire := sda_wire w |} ∧
  wires_after
    (recv_bits_pins n (half_period h) line pos ++ EvSetScl 0 :: rest) w =
    wires_after rest {| scl_wire := 0; sda_wire := sda_wire w |}.
Proof.
  induction n as [|n IH]; intros pos w; first done.
  cbn [recv_bits_pins]. scan_step.
  by destruct (IH (S pos) {| scl_wire := 1; sda_wire := sda_wire w |})
    as [-> ->].
Qed.

Lemma bus_scan_read_byte h line pos ack rest w :
  bus_conditions (read_byte_pins (half_period h) line pos ack ++ rest) w =
    bus_conditions rest
      {| scl_wire := 0; sda_wire := if ack =? 0 then 1 else 0 |} ∧
  wires_after (read_byte_pins (half_period h) line pos ack ++ rest) w =
    wires_after rest
      {| scl_wire := 0; sda_wire := if ack =? 0 then 1 else 0 |}.
Proof.
  unfold read_byte_pins. scan_step.
  destruct (bus_scan_recv_bits 8 h line
              ([EvSdaMode 1; EvSetSda (if ack =? 0 then 1 else 0)] ++
               half_period h ++ [EvSetScl 1] ++ half_period h ++
               [EvSetScl 0] ++ rest) pos w) as [Hc Hw].
  cbn [app] in Hc, Hw. rewrite Hc, Hw. by scan_step.
Qed.

Lemma bus_scan_read_bytes h line len rest n : ∀ pos i w,
  scl_wire w = 0 →
  ∃ w',
    bus_conditions
      (read_bytes_pins (half_period h) line pos len i n ++ rest) w =
      bus_conditions rest w' ∧
    wires_after
      (read_bytes_pins (half_period h) line pos len i n ++ rest) w =
      wires_after rest w' ∧
    scl_wire w' = 0.
Proof.
  induction n as [|n IH]; intros pos i w Hw; first by exists w.
  cbn [read_bytes_pins]. rewrite <- app_assoc.
  destruct (bus_scan_read_byte h line pos (if i <? len - 1 then 1 else 0)
              (read_bytes_pins (half_period h) line (8 + pos) len (i + 1) n ++
               rest) w) as [-> ->].
  by apply IH.
Qed.

Lemma bus_scan_start h rest :
  bus_conditions (start_pins (half_period h) ++ rest) idle_wires =
    StartCondition :: bus_conditions rest {| scl_wire := 0; sda_wire := 0 |} ∧
  wires_after (start_pins (half_period h) ++ rest) idle_wires =
    wires_after rest {| scl_wire := 0; sda_wire := 0 |}.
Proof. unfold start_pins, idle_wires. by scan_step. Qed.

Lemma bus_scan_stop h w :
  scl_wire w = 0 →
  bus_conditions (stop_pins (half_period h)) w = [StopCondition] ∧
  wires_after (stop_pins (half_period h)) w = idle_wires.
Proof. intros Hw. unfold stop_pins. by scan_step. Qed.

(** X8: on the wires a transfer is well formed.  From a bus at rest, the
    platform calls of a complete [iic_write] or [iic_read] make exactly one
    start condition followed by exactly one stop condition, whatever is
    acknowledged: every other change of the data line happens while the
    clock is low; and the transfer leaves the bus at rest again.
    [iic_init] leaves the bus at rest from any wire levels. *)
Theorem iic_transfer_conditions handle h ops addr bytes len m :
  handle ≠ 0%N →
  hal_complete h ops →
  iic_handles m !! handle = Some h →
  0 < len → (Z.to_nat len ≤ length bytes)%nat →
  (∃ result m' evs,
     iic_write handle addr (Some bytes) len m = Some (result, m') ∧
     pins m' = pins m ++ evs ∧
     bus_conditions evs idle_wires = [StartCondition; StopCondition] ∧
     wires_after evs idle_wires = idle_wires) ∧
  (∃ result m' evs,
     iic_read handle addr true len m = Some (result, m') ∧
     pins m' = pins m ++ evs ∧
     bus_conditions evs idle_wires = [StartCondition; StopCondition] ∧
     wires_after evs idle_wires = idle_wires) ∧
  (∃ m' evs,
     iic_init handle (Some ops) m = Some (tt, m') ∧
     pins m' = pins m ++ evs ∧
     ∀ w, wires_after evs w = idle_wires).
Proof.
  intros Hnonnull Hhal Hm Hlen Hbytes. split_and!.
  - rewrite (iic_write_run handle ops Hnonnull h addr bytes len m) by done.
    cbn zeta. do 3 eexists. split; first done. split; first done.
    match goal with
    | |- context [start_pins ?d ++ ?rest] =>
      destruct (bus_scan_start h rest) as [-> ->]
    end.
    match goal with
    | |- context [write_bytes_pins ?d ?line ?pos ?bs ++ ?rest] =>
      destruct (bus_scan_write_bytes h line bs pos rest
                  {| scl_wire := 0; sda_wire := 0 |})
        as (w' & -> & -> & Hw'); first done
    end.
    by destruct (bus_scan_stop h w' Hw') as [-> ->].
  - rewrite (iic_read_run handle ops Hnonnull h addr len m) by done.
    cbn zeta. destruct (sample m =? 0).
    + do 3 eexists. split; first done. split; first done.
      match goal with
      | |- context [start_pins ?d ++ ?rest] =>
        destruct (bus_scan_start h rest) as [-> ->]
      end.
      match goal with
      | |- context [write_byte_pins ?d ?b ?l ++ ?rest] =>
        destruct (bus_scan_write_byte h b l rest
                    {| scl_wire := 0; sda_wire := 0 |}) as [-> ->]
      end.
      match goal with
      | |- context [read_bytes_pins ?d ?line ?pos ?len ?i ?n ++ ?rest] =>
        destruct (bus_scan_read_bytes h line len rest n pos i
                    {| scl_wire := 0; sda_wire := 1 |})
          as (w' & -> & -> & Hw'); first done
      end.
      by destruct (bus_scan_stop h w' Hw') as [-> ->].
    + do 3 eexists. split; first done. split; first done.
      match goal with
      | |- context [start_pins ?d ++ ?rest] =>
        destruct (bus_scan_start h rest) as [-> ->]
      end.
      match goal with
      | |- context [write_byte_pins ?d ?b ?l ++ ?rest] =>
        destruct (bus_scan_write_byte h b l rest
                    {| scl_wire := 0; sda_wire := 0 |}) as [-> ->]
      end.
      by destruct (bus_scan_stop h {| scl_wire := 0; sda_wire := 1 |})
        as [-> ->].
  - destruct Hhal as (_ & Hsda & Hscl & _).
    rewrite (iic_init_run handle h ops m) by done.
    do 2 eexists. split; first done. split; first done.
    intros w. by destruct (sda_mode ops).
Qed.

Lemma iic_transfer_conditions_witness :
  ∃ result m' evs,
    iic_write 1%N AHT21_ADDR (Some [AHT21_CMD_TRIGGER; 0x33; 0x00]) 3
      (demo_mem (line_of [0; 1] 1) AHT21_STATE_IDLE) = Some (result, m') ∧
    pins m' = evs ∧
    bus_conditions evs idle_wires = [StartCondition; StopCondition].
Proof.
  destruct (iic_transfer_conditions 1%N demo_bus demo_hal AHT21_ADDR
              [AHT21_CMD_TRIGGER; 0x33; 0x00] 3
              (demo_mem (line_of [0; 1] 1) AHT21_STATE_IDLE))
    as ((result & m' & evs & Hrun & Hpins & Hscan & _) & _).
  - done.
  - repeat split; done.
  - reflexivity.
  - lia.
  - cbn. lia.
  - by exists result, m', evs.
Defined.

(** ** Handles the driver cannot use *)

(** X9: the driver checks its pointers before it uses them.  Every entry
    point returns the invalid-parameter result (the tick returns) on a NULL
    handle, and the getters and the blocking read also on a NULL
    destination, with nothing touched.  A handle whose bus pointer is NULL,
    as zeroed memory has it, makes every bus operation report a bus failure,
    again with nothing touched: the bus engine rejects the NULL bus before
    the driver dereferences it. *)
Theorem aht21_rejects_unusable_handles m :
  (∀ iic_p, aht21_init 0%N iic_p m = Some (AHT21_ERR_INVALID_PARAM, m)) ∧
  (∀ handle, aht21_init handle 0%N m = Some (AHT21_ERR_INVALID_PARAM, m)) ∧
  aht21_soft_reset 0%N m = Some (AHT21_ERR_INVALID_PARAM, m) ∧
  aht21_trigger_measure 0%N m = Some (AHT21_ERR_INVALID_PARAM, m) ∧
  aht21_read_data 0%N m = Some (AHT21_ERR_INVALID_PARAM, m) ∧
  aht21_ticks 0%N m = Some (tt, m) ∧
  (∀ handle temp, handle = 0%N ∨ temp = false →
     aht21_get_temperature handle temp m =
       Some ((AHT21_ERR_INVALID_PARAM, None), m)) ∧
  (∀ handle humi, handle = 0%N ∨ humi = false →
     aht21_get_humidity handle humi m =
       Some ((AHT21_ERR_INVALID_PARAM, None), m)) ∧
  (∀ handle temp humi, handle = 0%N ∨ temp = false ∨ humi = false →
     aht21_read_blocking handle temp humi m =
       Some ((AHT21_ERR_INVALID_PARAM, None), m)) ∧
  (∀ handle dev,
     handle ≠ 0%N → aht21_handles m !! handle = Some dev → iic dev = 0%N →
     aht21_soft_reset handle m = Some (AHT21_ERR_IIC, m) ∧
     aht21_read_data handle m = Some (AHT21_ERR_IIC, m) ∧
     (state dev ≠ AHT21_STATE_WAIT_MEASURE →
      aht21_trigger_measure handle m = Some (AHT21_ERR_IIC, m) ∧
      aht21_read_blocking handle true true m =
        Some ((AHT21_ERR_IIC, None), m))).
Proof.
  split_and!; try done.
  - intros handle. unfold aht21_init. by destruct (decide _).
  - intros handle temp [->| ->]; first done.
    unfold aht21_get_temperature. by destruct (decide _).
  - intros handle humi [->| ->]; first done.
    unfold aht21_get_humidity. by destruct (decide _).
  - intros handle temp humi [->|[->| ->]]; first done.
    + unfold aht21_read_blocking. by destruct (decide _).
    + unfold aht21_read_blocking. destruct (decide _); first done.
      by destruct temp.
  - intros handle dev Hnonnull Hdev Hiic.
    assert (Htrigger : state dev ≠ AHT21_STATE_WAIT_MEASURE →
              aht21_trigger_measure handle m = Some (AHT21_ERR_IIC, m)).
    { intros Hstate. unfold aht21_trigger_measure.
      rewrite decide_False by done.
      erewrite bind_run; last by apply load_aht21_run.
      rewrite decide_False by done. by rewrite Hiic. }
    split_and!.
    + unfold aht21_soft_reset. rewrite decide_False by done.
      erewrite bind_run; last by apply load_aht21_run.
      by rewrite Hiic.
    + unfold aht21_read_data. rewrite decide_False by done.
      unfold aht21_check_status.
      rewrite !bind_unfold. erewrite load_aht21_run by done.
      by rewrite Hiic.
    + intros Hstate. split; first by apply Htrigger.
      unfold aht21_read_blocking. rewrite decide_False by done. cbn [negb].
      by rewrite bind_unfold, Htrigger.
Qed.

Lemma aht21_rejects_unusable_handles_witness :
  aht21_read_data 2%N
    (put_aht21 2%N (fresh_device 0%N) (demo_mem (line_of [] 0) AHT21_STATE_IDLE))
  = Some (AHT21_ERR_IIC,
          put_aht21 2%N (fresh_device 0%N)
            (demo_mem (line_of [] 0) AHT21_STATE_IDLE)).
Proof.
  destruct (aht21_rejects_unusable_handles
              (put_aht21 2%N (fresh_device 0%N)
                 (demo_mem (line_of [] 0) AHT21_STATE_IDLE)))
    as (_ & _ & _ & _ & _ & _ & _ & _ & _ & Hunbound).
  destruct (Hunbound 2%N (fresh_device 0%N)) as (_ & Hread & _); done.
Defined.

(** ** Construction *)

Lemma pins_settle ops ms m : pins (settle ops ms m) = pins m ++ settle_pins ops ms.
Proof.
  unfold settle, settle_pins. destruct (delay_ms ops); first done.
  by rewrite app_nil_r.
Qed.

Lemma sda_reads_settle ops ms m : sda_reads (settle ops ms m) = sda_reads m.
Proof. unfold settle. by destruct (delay_ms ops). Qed.

Lemma sda_line_settle ops ms m : sda_line (settle ops ms m) = sda_line m.
Proof. unfold settle. by destruct (delay_ms ops). Qed.

Lemma aht21_handles_settle ops ms m :
  aht21_handles (settle ops ms m) = aht21_handles m.
Proof. unfold settle. by destruct (delay_ms ops). Qed.

Lemma iic_handles_settle ops ms m :
  iic_handles (settle ops ms m) = iic_handles m.
Proof. unfold settle. by destruct (delay_ms ops). Qed.

Lemma sample_settle ops ms m : sample (settle ops ms m) = sample m.
Proof. unfold settle. by destruct (delay_ms ops). Qed.

Section Init.
Context (handle iic_p : N) (dev0 : AHT21_Handle) (bus : IIC_Handle)
        (ops : IIC_HAL_Ops) (m : Mem).
Hypothesis Hnonnull : handle ≠ 0%N.
Hypothesis Hiic : iic_p ≠ 0%N.
Hypothesis Hdev0 : aht21_handles m !! handle = Some dev0.
Hypothesis Hbus : iic_handles m !! iic_p = Some bus.
Hypothesis Hhal : hal_complete bus ops.

Let fresh := fresh_device iic_p.
Let command := [AHT21_CMD_INIT; 0x08; 0x00].
Let m1 := settle ops 40 (put_aht21 handle fresh m).
Let acked := frame_acked (sda_line m) (sda_reads m)
               (write_frame AHT21_ADDR command 3).
Let m2 := write_mem iic_p bus AHT21_ADDR command 3 m1.
Let m3 := settle ops 10 m2.
Let m4 := read_mem iic_p (with_bus_busy 0 bus) AHT21_ADDR 1 m3.
Let status := bus_byte (sda_line m3) (S (sda_reads m3)).

Lemma aht21_init_run :
  aht21_init handle iic_p m =
    Some (if acked then
            if sample m3 =? 0 then
              if Z.land status AHT21_STATUS_CALIBRATED =? 0
              then AHT21_ERR_NOT_INIT else AHT21_OK
            else AHT21_ERR_IIC
          else AHT21_ERR_IIC,
          if acked then
            put_aht21 handle
              (with_state
                 (if sample m3 =? 0 then
                    if Z.land status AHT21_STATUS_CALIBRATED =? 0
                    then AHT21_STATE_ERROR else AHT21_STATE_IDLE
                  else AHT21_STATE_ERROR) fresh) m4
          else put_aht21 handle (with_state AHT21_STATE_ERROR fresh) m2).
Proof.
  unfold aht21_init. rewrite !decide_False by done.
  change {| iic := iic_p; state := AHT21_STATE_INIT; measure_ticks := 0;
            raw_data := replicate 7 0; temperature := f32_zero;
            humidity := f32_zero; measure_interval := 100 |} with fresh.
  erewrite bind_run; last by (unfold store_aht21; rewrite Hdev0).
  assert (Hok0 : driver_ok handle fresh bus ops (put_aht21 handle fresh m)).
  { unfold driver_ok. split_and!; try done. apply lookup_put_aht21. }
  erewrite bind_run; last by eapply load_hal_run.
  erewrite bind_run; last by eapply settle_run.
  assert (Hok1 : driver_ok handle fresh bus ops m1)
    by by apply driver_ok_settle.
  erewrite bind_run; last first.
  { eapply (iic_write_mem iic_p bus ops); try done.
    by destruct Hok1 as (_ & _ & _ & ? & _). }
  rewrite sda_line_settle, sda_reads_settle.
  cbn [sda_line sda_reads put_aht21]. fold command acked m2.
  pose proof (driver_ok_write_mem _ _ _ _ AHT21_ADDR command 3 _ Hok1) as Hok2.
  cbn [iic fresh fresh_device] in Hok2. fold m2 in Hok2.
  destruct acked; last first.
  { rewrite decide_True by done.
    erewrite bind_run; last first.
    { apply update_aht21_run. by destruct Hok2 as (_ & ? & _). }
    done. }
  rewrite decide_False by (intros ?; done).
  pose proof Hok2 as (_ & _ & _ & Hbus2 & Hhal2).
  erewrite bind_run; last by eapply load_hal_run.
  erewrite bind_run; last by eapply settle_run.
  pose proof (driver_ok_settle _ _ _ _ 10 _ Hok2) as Hok3. fold m3 in Hok3.
  erewrite bind_run; last by eapply aht21_check_status_run.
  cbn [iic fresh fresh_device]. fold fresh m1. fold m2. fold m3. fold m4 status.
  pose proof (driver_ok_read_mem _ _ _ _ AHT21_ADDR 1 _ Hok3) as Hok4.
  cbn [iic fresh fresh_device] in Hok4. fold m4 in Hok4.
  pose proof Hok4 as (_ & Hdev4 & _).
  destruct (sample m3 =? 0).
  - rewrite decide_False by (intros ?; done).
    destruct (Z.land status AHT21_STATUS_CALIBRATED =? 0).
    + erewrite bind_run; last by apply update_aht21_run. done.
    + erewrite bind_run; last by apply update_aht21_run. done.
  - rewrite decide_True by done.
    erewrite bind_run; last by apply update_aht21_run. done.
Qed.

End Init.

Lemma calibrated_bit status :
  (Z.land status AHT21_STATUS_CALIBRATED =? 0) = negb (Z.testbit status 3).
Proof.
  change AHT21_STATUS_CALIBRATED with (2 ^ 3). rewrite land_bit by lia.
  by destruct (Z.testbit status 3).
Qed.

Lemma acked_prefix line pos frame n :
  length frame = n →
  frame_acked line pos frame = true ↔
  ∀ i, (i < n)%nat → u8 (line (i + pos)%nat) = 0.
Proof. intros <-. apply frame_acked_spec. Qed.

Lemma write_mem_acked handle h addr bytes len m :
  frame_acked (sda_line m) (sda_reads m) (write_frame addr bytes len) = true →
  write_mem handle h addr bytes len m =
    step (write_frame_pins (half_period h) (sda_line m) (sda_reads m)
            (write_frame addr bytes len))
         (length (write_frame addr bytes len))
         (put_iic handle (with_bus_busy 0 h) m).
Proof.
  intros Hacked. unfold write_mem, write_frame_pins. cbn zeta.
  rewrite (transmitted_acked _ _ _ Hacked). by rewrite firstn_all.
Qed.

Lemma pins_read_mem_acked handle h n m :
  sample m = 0 →
  pins (read_mem handle h AHT21_ADDR (Z.of_nat n) m) =
    pins m ++ read_frame_pins (half_period h) (sda_line m) (sda_reads m) n.
Proof.
  intros Hack. unfold read_mem, read_frame_pins. cbn zeta.
  rewrite Hack, Nat2Z.id. reflexivity.
Qed.

(** X10: [aht21_init] on a working bus always returns, and what it returns
    is decided by the sensor's answers.  It sends the init frame and polls
    the status once: OK and state IDLE when all five acknowledgments come
    and status bit 3 (calibrated) is set; NOT_INIT and state ERROR when
    they come and the bit is clear; the bus failure and state ERROR when an
    acknowledgment is missing.  Whatever the handle held before, it then
    holds the bus pointer, a zero tick count, a zero reply buffer, zero
    readings and the interval 100: the status byte is not kept.  The bus
    handle keeps its configuration with the busy flag cleared. *)
Theorem aht21_init_outcome handle iic_p dev0 bus ops m :
  handle ≠ 0%N → iic_p ≠ 0%N →
  aht21_handles m !! handle = Some dev0 →
  iic_handles m !! iic_p = Some bus →
  hal_complete bus ops →
  let status := bus_byte (sda_line m) (5 + sda_reads m) in
  let answered := ∀ i, (i < 5)%nat → ack_level m i = 0 in
  ∃ result s m',
    aht21_init handle iic_p m = Some (result, m') ∧
    aht21_handles m' =
      <[handle := with_state s (fresh_device iic_p)]> (aht21_handles m) ∧
    iic_handles m' = <[iic_p := with_bus_busy 0 bus]> (iic_handles m) ∧
    (result = AHT21_OK ∧ s = AHT21_STATE_IDLE ∨
     result = AHT21_ERR_NOT_INIT ∧ s = AHT21_STATE_ERROR ∨
     result = AHT21_ERR_IIC ∧ s = AHT21_STATE_ERROR) ∧
    (result = AHT21_OK ↔ answered ∧ Z.testbit status 3 = true) ∧
    (result = AHT21_ERR_NOT_INIT ↔ answered ∧ Z.testbit status 3 = false) ∧
    (result = AHT21_ERR_IIC ↔ ¬ answered).
Proof.
  intros Hnonnull Hiic Hdev0 Hbus Hhal. cbn zeta.
  rewrite (aht21_init_run handle iic_p dev0 bus ops m) by done.
  set (command := [AHT21_CMD_INIT; 0x08; 0x00]).
  set (frame := write_frame AHT21_ADDR command 3).
  pose proof (acked_prefix (sda_line m) (sda_reads m) frame 4 eq_refl)
    as Hacked.
  set (m1 := settle ops 40 (put_aht21 handle (fresh_device iic_p) m)).
  assert (Hline1 : sda_line m1 = sda_line m)
    by (unfold m1; by rewrite sda_line_settle).
  assert (Hreads1 : sda_reads m1 = sda_reads m)
    by (unfold m1; by rewrite sda_reads_settle).
  destruct (frame_acked (sda_line m) (sda_reads m) frame) eqn:Hframe;
    last first.
  { exists AHT21_ERR_IIC, AHT21_STATE_ERROR. eexists. split; first done.
    assert (Hmissing : ¬ ∀ i, (i < 5)%nat → ack_level m i = 0).
    { intros Hall. assert (false = true); last done.
      apply Hacked. intros i Hi. apply Hall. lia. }
    split_and!.
    - unfold put_aht21, write_mem, m1, settle.
      destruct (delay_ms ops); cbn; by rewrite insert_insert_eq.
    - unfold write_mem, m1, settle. by destruct (delay_ms ops).
    - by right; right.
    - split; first done. by intros [? _].
    - split; first done. by intros [? _].
    - done. }
  set (m2 := write_mem iic_p bus AHT21_ADDR command 3 m1).
  assert (Hm2 : m2 = step (write_frame_pins (half_period bus) (sda_line m)
                             (sda_reads m) frame) 4
                       (put_iic iic_p (with_bus_busy 0 bus) m1)).
  { unfold m2. rewrite write_mem_acked; rewrite Hline1, Hreads1; done. }
  set (m3 := settle ops 10 m2).
  assert (Hsample : sample m3 = ack_level m 4).
  { unfold m3. rewrite sample_settle, Hm2, sample_step.
    unfold ack_level. cbn [sda_line sda_reads put_iic].
    by rewrite Hline1, Hreads1. }
  assert (Hstatus : bus_byte (sda_line m3) (S (sda_reads m3)) =
                    bus_byte (sda_line m) (5 + sda_reads m)).
  { unfold m3. rewrite sda_line_settle, sda_reads_settle, Hm2.
    cbn [sda_line sda_reads step put_iic]. by rewrite Hline1, Hreads1. }
  rewrite Hsample, Hstatus, calibrated_bit.
  assert (Hhandles : ∀ s,
    aht21_handles
      (put_aht21 handle (with_state s (fresh_device iic_p))
         (read_mem iic_p (with_bus_busy 0 bus) AHT21_ADDR 1 m3)) =
    <[handle := with_state s (fresh_device iic_p)]> (aht21_handles m)).
  { intros s. cbn [aht21_handles put_aht21].
    rewrite aht21_handles_read_mem. unfold m3.
    rewrite aht21_handles_settle, Hm2. cbn [aht21_handles step put_iic].
    unfold m1. rewrite aht21_handles_settle. cbn.
    by rewrite insert_insert_eq. }
  assert (Hbuses : ∀ s,
    iic_handles
      (put_aht21 handle (with_state s (fresh_device iic_p))
         (read_mem iic_p (with_bus_busy 0 bus) AHT21_ADDR 1 m3)) =
    <[iic_p := with_bus_busy 0 bus]> (iic_handles m)).
  { intros s. cbn [iic_handles put_aht21].
    rewrite iic_handles_read_mem. unfold m3.
    rewrite iic_handles_settle, Hm2. cbn [iic_handles step put_iic].
    unfold m1. rewrite iic_handles_settle. cbn.
    by rewrite insert_insert_eq. }
  destruct (Z.eqb_spec (ack_level m 4) 0) as [Hack4|Hnack4]; last first.
  { exists AHT21_ERR_IIC, AHT21_STATE_ERROR. eexists. split; first done.
    assert (Hmissing : ¬ ∀ i, (i < 5)%nat → ack_level m i = 0).
    { intros Hall. apply Hnack4, Hall. lia. }
    split_and!; try done.
    - by right; right.
    - split; first done. by intros [? _].
    - split; first done. by intros [? _]. }
  assert (Hall : ∀ i, (i < 5)%nat → ack_level m i = 0).
  { intros i Hi. destruct (decide (i = 4%nat)) as [->|]; first done.
    apply Hacked; [done | lia]. }
  destruct (Z.testbit _ 3) eqn:Hbit; cbn [negb].
  - exists AHT21_OK, AHT21_STATE_IDLE. eexists. split; first done.
    split_and!; try done; try (by left);
      try (split; first done; by intros [_ ?]);
      try (split; first done; intros Hno; exfalso; by apply Hno).
  - exists AHT21_ERR_NOT_INIT, AHT21_STATE_ERROR. eexists.
    split; first done.
    split_and!; try done; try (by right; left);
      try (split; first done; by intros [_ ?]);
      try (split; first done; intros Hno; exfalso; by apply Hno).
Qed.

Lemma aht21_init_outcome_witness :
  outcome 2%N
    (aht21_init 2%N 1%N
       (demo_mem (line_of (replicate 5 0 ++ byte_levels 0x18) 1)
          AHT21_STATE_READY))
  = Some (AHT21_OK, Some AHT21_STATE_IDLE).
Proof.
  destruct (aht21_init_outcome 2%N 1%N (demo_device AHT21_STATE_READY)
              demo_bus demo_hal
              (demo_mem (line_of (replicate 5 0 ++ byte_levels 0x18) 1)
                 AHT21_STATE_READY))
    as (result & s & m' & Hrun & Hdev & _ & Hcases & Hok & _).
  - done.
  - done.
  - reflexivity.
  - reflexivity.
  - repeat split; done.
  - assert (result = AHT21_OK) as ->.
    { apply Hok. split; last by vm_compute.
      intros i Hi. do 5 (destruct i as [|i]; first done). lia. }
    destruct Hcases as [[_ ->]|[[[=] _]|[[=] _]]].
    rewrite Hrun. unfold outcome, state_at. rewrite Hdev.
    by rewrite lookup_insert_eq.
Defined.

(** ** The frames on the wire *)



(** ** Reading the results *)

Lemma aht21_get_temperature_run handle dev m :
  handle ≠ 0%N →
  aht21_handles m !! handle = Some dev →
  aht21_get_temperature handle true m =
    Some (if decide (state dev = AHT21_STATE_READY)
          then (AHT21_OK, Some (temperature dev))
          else (AHT21_ERR_NOT_INIT, None), m).
Proof.
  intros Hnonnull Hdev. unfold aht21_get_temperature.
  rewrite decide_False by done. cbn [negb].
  erewrite bind_run; last by apply load_aht21_run.
  by destruct (decide (state dev = _)), (decide (state dev ≠ _)).
Qed.

Lemma aht21_get_humidity_run handle dev m :
  handle ≠ 0%N →
  aht21_handles m !! handle = Some dev →
  aht21_get_humidity handle true m =
    Some (if decide (state dev = AHT21_STATE_READY)
          then (AHT21_OK, Some (humidity dev))
          else (AHT21_ERR_NOT_INIT, None), m).
Proof.
  intros Hnonnull Hdev. unfold aht21_get_humidity.
  rewrite decide_False by done. cbn [negb].
  erewrite bind_run; last by apply load_aht21_run.
  by destruct (decide (state dev = _)), (decide (state dev ≠ _)).
Qed.

(** X12: the readings can be fetched exactly while the state is READY.  The
    two getters never change the memory; they return OK with the stored
    value in READY and NOT_INIT with nothing stored in every other state.
    So right after a read that returned OK they deliver the temperature and
    humidity decoded from the reply, that is from the seven bytes the input
    line carried after the second address acknowledgment, which are also
    the first seven bytes of the reply buffer by then; and right after a
    trigger that returned OK they deliver nothing, although the handle
    still holds the earlier readings. *)
Theorem aht21_readings_when_ready handle dev bus ops m :
  driver_ok handle dev bus ops m →
  (∃ rt vt rh vh,
     aht21_get_temperature handle true m = Some ((rt, vt), m) ∧
     aht21_get_humidity handle true m = Some ((rh, vh), m) ∧
     (rt = AHT21_OK ↔ state dev = AHT21_STATE_READY) ∧
     (rh = AHT21_OK ↔ state dev = AHT21_STATE_READY) ∧
     (state dev = AHT21_STATE_READY →
      vt = Some (temperature dev) ∧ vh = Some (humidity dev)) ∧
     (state dev ≠ AHT21_STATE_READY →
      rt = AHT21_ERR_NOT_INIT ∧ rh = AHT21_ERR_NOT_INIT ∧
      vt = None ∧ vh = None)) ∧
  (∀ m', aht21_read_data handle m = Some (AHT21_OK, m') →
     let bytes := read_bytes (sda_line m) (10 + sda_reads m) 7 in
     ∃ dev',
       aht21_handles m' !! handle = Some dev' ∧
       state dev' = AHT21_STATE_READY ∧
       take 7 (raw_data dev') = bytes ∧
       temperature dev' =
         temperature_of_raw
           (temperature_raw_of (nth 3 bytes 0) (nth 4 bytes 0)
              (nth 5 bytes 0)) ∧
       humidity dev' =
         humidity_of_raw
           (humidity_raw_of (nth 1 bytes 0) (nth 2 bytes 0) (nth 3 bytes 0)) ∧
       aht21_get_temperature handle true m' =
         Some ((AHT21_OK,
                Some (temperature_of_raw
                        (temperature_raw_of (nth 3 bytes 0) (nth 4 bytes 0)
                           (nth 5 bytes 0)))), m') ∧
       aht21_get_humidity handle true m' =
         Some ((AHT21_OK,
                Some (humidity_of_raw
                        (humidity_raw_of (nth 1 bytes 0) (nth 2 bytes 0)
                           (nth 3 bytes 0)))), m')) ∧
  (∀ m', aht21_trigger_measure handle m = Some (AHT21_OK, m') →
     aht21_get_temperature handle true m' =
       Some ((AHT21_ERR_NOT_INIT, None), m') ∧
     aht21_get_humidity handle true m' =
       Some ((AHT21_ERR_NOT_INIT, None), m') ∧
     (temperature <$> aht21_handles m' !! handle) = Some (temperature dev) ∧
     (humidity <$> aht21_handles m' !! handle) = Some (humidity dev)).
Proof.
  intros Hok. pose proof Hok as (Hnonnull & Hdev & _). split_and!.
  - rewrite (aht21_get_temperature_run handle dev m) by done.
    rewrite (aht21_get_humidity_run handle dev m) by done.
    destruct (decide (state dev = AHT21_STATE_READY)) as [Hr|Hr].
    + do 4 eexists. split; first done. split; first done.
      split_and!; done.
    + do 4 eexists. split; first done. split; first done.
      split_and!; done.
  - intros m' Hrun.
    destruct (decide (sample m = 0)) as [Hack|Hnack]; last first.
    { by rewrite (aht21_read_data_nack handle dev bus ops m Hok) in Hrun. }
    destruct (decide (Z.land (bus_byte (sda_line m) (S (sda_reads m)))
                        AHT21_STATUS_BUSY = 0)) as [Hfree|Hbusy]; last first.
    { by rewrite (aht21_read_data_busy handle dev bus ops m Hok) in Hrun. }
    destruct (decide (ack_level m 9 = 0)) as [Hack2|Hnack2]; last first.
    { by rewrite (aht21_read_data_nack2 handle dev bus ops m Hok) in Hrun. }
    rewrite (aht21_read_data_ok handle dev bus ops m Hok) in Hrun by done.
    cbn zeta.
    remember (read_bytes (sda_line m) (10 + sda_reads m) 7) as bytes eqn:Hb.
    assert (Hlen : length bytes = 7%nat)
      by (rewrite Hb; apply read_bytes_length).
    clear Hb.
    assert (Hm' : m' = put_aht21 handle (decoded bytes dev)
                         (read_mem (iic dev) (with_bus_busy 0 bus) AHT21_ADDR 7
                            (read_mem (iic dev) bus AHT21_ADDR 1 m)))
      by congruence.
    clear Hrun. subst m'.
    exists (decoded bytes dev). split; first apply lookup_put_aht21.
    erewrite aht21_get_temperature_run;
      [|done|apply lookup_put_aht21].
    erewrite aht21_get_humidity_run;
      [|done|apply lookup_put_aht21].
    unfold decoded.
    cbn [state with_state temperature humidity raw_data with_readings
         with_raw_data].
    rewrite !decide_True by done.
    assert (Hnth : ∀ i, nth i (bytes ++ drop (length bytes) (raw_data dev)) 0
                        = nth i bytes 0 ∨ (7 ≤ i)%nat).
    { intros i. destruct (decide (i < 7)%nat); last (right; lia).
      left. rewrite app_nth1; [done | lia]. }
    destruct (Hnth 1%nat) as [->|]; last lia.
    destruct (Hnth 2%nat) as [->|]; last lia.
    destruct (Hnth 3%nat) as [->|]; last lia.
    destruct (Hnth 4%nat) as [->|]; last lia.
    destruct (Hnth 5%nat) as [->|]; last lia.
    split_and!; try done.
    by rewrite take_app_length' by done.
  - intros m' Hrun.
    destruct (decide (state dev = AHT21_STATE_WAIT_MEASURE)) as [Hw|Hw].
    { by rewrite (aht21_trigger_measure_busy handle dev m) in Hrun. }
    rewrite (aht21_trigger_measure_run handle dev bus ops m Hok Hw) in Hrun.
    cbn zeta in Hrun. destruct (frame_acked _ _ _); last done.
    injection Hrun as <-.
    erewrite aht21_get_temperature_run;
      [|done|apply lookup_put_aht21].
    erewrite aht21_get_humidity_run;
      [|done|apply lookup_put_aht21].
    cbn [state with_state with_measure_ticks].
    rewrite !decide_False by done.
    split_and!; try done.
    + by rewrite lookup_put_aht21.
    + by rewrite lookup_put_aht21.
Qed.

Lemma aht21_readings_when_ready_witness :
  aht21_get_temperature 2%N true (demo_mem (line_of [] 0) AHT21_STATE_READY)
  = Some ((AHT21_OK, Some f32_zero), demo_mem (line_of [] 0) AHT21_STATE_READY).
Proof.
  destruct (aht21_readings_when_ready 2%N (demo_device AHT21_STATE_READY)
              demo_bus demo_hal (demo_mem (line_of [] 0) AHT21_STATE_READY))
    as ((rt & vt & rh & vh & Ht & _ & Hrt & _ & Hv & _) & _).
  - unfold driver_ok, hal_complete. split_and!; done.
  - destruct Hv as [-> _]; first done.
    rewrite Ht. do 3 f_equal. by apply Hrt.
Defined.

(** ** The tick-driven cycle *)

Lemma with_measure_ticks_same dev :
  with_measure_ticks (measure_ticks dev) dev = dev.
Proof. by destruct dev. Qed.

Lemma with_state_same dev : with_state (state dev) dev = dev.
Proof. by destruct dev. Qed.

Lemma counted_0 dev : counted 0 dev = dev.
Proof.
  unfold counted. rewrite Z.add_0_r. apply with_measure_ticks_same.
Qed.

Lemma counted_S n dev :
  counted n (counted 1 dev) = counted (S n) dev.
Proof.
  unfold counted. cbn [measure_ticks with_measure_ticks].
  unfold with_measure_ticks. cbn. f_equal. lia.
Qed.

Lemma run_steps_app a b handle m :
  run_steps (a ++ b) handle m = (run_steps a handle;; run_steps b handle) m.
Proof.
  revert m. induction a as [|s a IH]; intros m; first done.
  cbn [app run_steps]. rewrite !bind_unfold.
  destruct (run_step s handle m) as [[[] m1]|]; last done.
  by rewrite IH.
Qed.

Lemma u32_small z : 0 ≤ z < 2 ^ 32 → u32 z = z.
Proof. intros H. unfold u32. apply Z.mod_small. pow_consts. lia. Qed.

Section TickSteps.
Context (handle : N) (dev : AHT21_Handle) (m : Mem).
Hypothesis Hnonnull : handle ≠ 0%N.
Hypothesis Hdev : aht21_handles m !! handle = Some dev.

Lemma aht21_ticks_wait_run :
  state dev = AHT21_STATE_WAIT_MEASURE →
  0 ≤ measure_ticks dev < 2 ^ 32 - 1 →
  aht21_ticks handle m =
    if 16 <=? measure_ticks dev + 1 then
      (result ← aht21_read_data handle;
       if decide (result = AHT21_OK)
       then update_aht21 handle (with_state AHT21_STATE_READY)
       else mret tt) (put_aht21 handle (counted 1 dev) m)
    else Some (tt, put_aht21 handle (counted 1 dev) m).
Proof.
  intros Hstate Hticks. unfold aht21_ticks. rewrite decide_False by done.
  erewrite bind_run; last by apply load_aht21_run.
  rewrite Hstate.
  erewrite bind_run; last by apply update_aht21_run.
  erewrite bind_run; last by (apply load_aht21_run, lookup_put_aht21).
  cbn [measure_ticks with_measure_ticks]. change (80 / 5) with 16.
  rewrite u32_small by lia. by destruct (16 <=? _).
Qed.

Lemma aht21_ticks_ready_run :
  state dev = AHT21_STATE_READY →
  0 ≤ measure_ticks dev < 2 ^ 32 - 1 →
  aht21_ticks handle m =
    Some (tt, put_aht21 handle
                (if measure_interval dev / 5 <=? measure_ticks dev + 1
                 then with_measure_ticks 0 (with_state AHT21_STATE_IDLE dev)
                 else counted 1 dev) m).
Proof.
  intros Hstate Hticks. unfold aht21_ticks. rewrite decide_False by done.
  erewrite bind_run; last by apply load_aht21_run.
  rewrite Hstate.
  erewrite bind_run; last by apply update_aht21_run.
  erewrite bind_run; last by (apply load_aht21_run, lookup_put_aht21).
  cbn [measure_ticks measure_interval with_measure_ticks].
  rewrite u32_small by lia.
  destruct (_ <=? _); last done.
  erewrite bind_run; last by (apply update_aht21_run, lookup_put_aht21).
  erewrite update_aht21_run by apply lookup_put_aht21.
  by rewrite !put_aht21_put_aht21.
Qed.

End TickSteps.

(** The tick at the largest value of the counter. *)
Lemma aht21_ticks_wrap handle dev m :
  handle ≠ 0%N →
  aht21_handles m !! handle = Some dev →
  measure_ticks dev = 2 ^ 32 - 1 →
  (state dev = AHT21_STATE_WAIT_MEASURE →
   aht21_ticks handle m =
     Some (tt, put_aht21 handle (with_measure_ticks 0 dev) m)) ∧
  (state dev = AHT21_STATE_READY →
   aht21_ticks handle m =
     Some (tt, put_aht21 handle
                 (if measure_interval dev / 5 <=? 0
                  then with_measure_ticks 0 (with_state AHT21_STATE_IDLE dev)
                  else with_measure_ticks 0 dev) m)).
Proof.
  intros Hnonnull Hdev Hmax.
  assert (Hu : u32 (measure_ticks dev + 1) = 0).
  { rewrite Hmax. unfold u32. pow_consts. reflexivity. }
  split; intros Hstate; unfold aht21_ticks; rewrite decide_False by done.
  - erewrite bind_run; last by apply load_aht21_run.
    rewrite Hstate.
    erewrite bind_run; last by apply update_aht21_run.
    erewrite bind_run; last by (apply load_aht21_run, lookup_put_aht21).
    cbn [measure_ticks with_measure_ticks]. by rewrite Hu.
  - erewrite bind_run; last by apply load_aht21_run.
    rewrite Hstate.
    erewrite bind_run; last by apply update_aht21_run.
    erewrite bind_run; last by (apply load_aht21_run, lookup_put_aht21).
    cbn [measure_ticks measure_interval with_measure_ticks]. rewrite Hu.
    destruct (_ <=? _); last done.
    erewrite bind_run; last by (apply update_aht21_run, lookup_put_aht21).
    erewrite update_aht21_run by apply lookup_put_aht21.
    by rewrite !put_aht21_put_aht21.
Qed.

(** Ticks that only count: in WAIT_MEASURE below the poll threshold, and
    in READY below the interval. *)
Lemma aht21_ticks_counting handle limit n : ∀ dev m,
  handle ≠ 0%N →
  aht21_handles m !! handle = Some dev →
  (state dev = AHT21_STATE_WAIT_MEASURE ∧ limit = 16 ∨
   state dev = AHT21_STATE_READY ∧ limit = measure_interval dev / 5) →
  0 ≤ measure_ticks dev →
  measure_ticks dev + Z.of_nat n < limit →
  measure_ticks dev + Z.of_nat n < 2 ^ 32 →
  run_steps (replicate n StepTicks) handle m =
    Some (tt, put_aht21 handle (counted n dev) m).
Proof.
  induction n as [|n IH]; intros dev m Hnonnull Hdev Hstate Hpos Hlimit Hwrap.
  - cbn. by rewrite counted_0, put_aht21_same.
  - cbn [replicate run_steps run_step].
    assert (Hstep : aht21_ticks handle m =
                    Some (tt, put_aht21 handle (counted 1 dev) m)).
    { destruct Hstate as [[Hs ->]|[Hs ->]].
      - rewrite (aht21_ticks_wait_run handle dev m) by (done || lia).
        by rewrite (proj2 (Z.leb_gt _ _)) by lia.
      - rewrite (aht21_ticks_ready_run handle dev m) by (done || lia).
        by rewrite (proj2 (Z.leb_gt _ _)) by lia. }
    rewrite bind_unfold, Hstep.
    rewrite (IH (counted 1 dev)); try done.
    + by rewrite put_aht21_put_aht21, counted_S.
    + apply lookup_put_aht21.
    + unfold counted. cbn. lia.
    + unfold counted. cbn. lia.
    + unfold counted. cbn. lia.
Qed.

Lemma aht21_ticks_poll handle dev bus ops m :
  driver_ok handle dev bus ops m →
  state dev = AHT21_STATE_WAIT_MEASURE →
  15 ≤ measure_ticks dev < 2 ^ 32 - 1 →
  aht21_ticks handle m =
    (aht21_read_data handle;; mret tt) (put_aht21 handle (counted 1 dev) m).
Proof.
  intros Hok Hstate Hticks. pose proof Hok as (Hnonnull & Hdev & _).
  rewrite (aht21_ticks_wait_run handle dev m) by (done || lia).
  rewrite (proj2 (Z.leb_le _ _)) by lia.
  assert (Hok1 : driver_ok handle (counted 1 dev) bus ops
                   (put_aht21 handle (counted 1 dev) m))
    by by apply (driver_ok_put_aht21 handle dev).
  destruct (lands_read_data handle ops _ bus _ Hok1)
    as (r & m2 & dev2 & bus2 & Hrun & Hok2 & Hr).
  rewrite !bind_unfold, Hrun.
  destruct Hr as [(-> & bytes & ->)|[(-> & ->)|(-> & ->)]]; try done.
  rewrite decide_True by done.
  destruct Hok2 as (_ & Hdev2 & _).
  erewrite update_aht21_run by exact Hdev2.
  by rewrite put_aht21_same.
Qed.

(** X13: after a trigger the tick only counts until the measurement time
    has passed: in WAIT_MEASURE with the counter below 15, a tick raises the
    counter and makes no platform call, so any number of ticks that keeps
    the counter below 16 leaves the memory as it was but for the counter.
    With the counter from 15 to 2^32 - 2, a tick is the count and one
    [aht21_read_data]: the state becomes READY when the read returns OK and
    stays WAIT_MEASURE, to poll again at the next tick, when it does not.
    The counter is not reset when READY is entered.  With the counter at
    2^32 - 1, the largest value it holds, the count wraps to 0 and the tick
    makes no platform call: the wait starts again. *)
Theorem aht21_ticks_measurement_wait handle dev bus ops m :
  driver_ok handle dev bus ops m →
  state dev = AHT21_STATE_WAIT_MEASURE →
  0 ≤ measure_ticks dev < 2 ^ 32 →
  (∀ n, measure_ticks dev + Z.of_nat n < 16 →
     run_steps (replicate n StepTicks) handle m =
       Some (tt, put_aht21 handle (counted n dev) m)) ∧
  (15 ≤ measure_ticks dev < 2 ^ 32 - 1 →
   aht21_ticks handle m =
     (aht21_read_data handle;; mret tt) (put_aht21 handle (counted 1 dev) m) ∧
   ∃ m' dev' bus',
     aht21_ticks handle m = Some (tt, m') ∧
     driver_ok handle dev' bus' ops m' ∧
     measure_ticks dev' = measure_ticks dev + 1 ∧
     (state dev' = AHT21_STATE_READY ∨ dev' = counted 1 dev)) ∧
  (measure_ticks dev = 2 ^ 32 - 1 →
   aht21_ticks handle m =
     Some (tt, put_aht21 handle (with_measure_ticks 0 dev) m)).
Proof.
  intros Hok Hstate [Hpos Hmax]. pose proof Hok as (Hnonnull & Hdev & _).
  split_and!.
  - intros n Hn. apply (aht21_ticks_counting handle 16); try done.
    + by left.
    + pow_consts. lia.
  - intros Hticks.
    pose proof (aht21_ticks_poll handle dev bus ops m Hok Hstate Hticks)
      as Hpoll.
    split; first done. rewrite Hpoll.
    assert (Hok1 : driver_ok handle (counted 1 dev) bus ops
                     (put_aht21 handle (counted 1 dev) m))
      by by apply (driver_ok_put_aht21 handle dev).
    destruct (lands_read_data handle ops _ bus _ Hok1)
      as (r & m2 & dev2 & bus2 & Hrun & Hok2 & Hr).
    rewrite bind_unfold, Hrun. exists m2, dev2, bus2.
    split; first done. split; first done.
    destruct Hr as [(-> & bytes & ->)|[(-> & ->)|(-> & ->)]].
    + split; [done | by left].
    + split; [done | by right].
    + split; [done | by right].
  - intros Hwrap.
    by apply (aht21_ticks_wrap handle dev m Hnonnull Hdev Hwrap).
Qed.

Lemma aht21_ticks_measurement_wait_witness :
  run_steps (replicate 15 StepTicks) 2%N
    (demo_mem (line_of [] 1) AHT21_STATE_WAIT_MEASURE) =
  Some (tt, put_aht21 2%N (counted 15 (demo_device AHT21_STATE_WAIT_MEASURE))
              (demo_mem (line_of [] 1) AHT21_STATE_WAIT_MEASURE)).
Proof.
  destruct (aht21_ticks_measurement_wait 2%N
              (demo_device AHT21_STATE_WAIT_MEASURE) demo_bus demo_hal
              (demo_mem (line_of [] 1) AHT21_STATE_WAIT_MEASURE))
    as (Hcount & _).
  - unfold driver_ok, hal_complete. split_and!; done.
  - reflexivity.
  - cbn. lia.
  - apply (Hcount 15%nat). cbn. lia.
Defined.

(** X14: READY lasts until the counter reaches a fifth of the measurement
    interval.  Below that a tick only raises the counter, without a
    platform call; the tick that reaches it, from a counter below 2^32 - 1,
    puts the driver back in IDLE with the counter at zero and the readings
    untouched, again without a platform call, so that the next tick
    triggers a new measurement.  With the counter at 2^32 - 1, the largest
    value it holds, the count wraps to 0: the tick leaves the driver in
    READY with the counter at zero, unless a fifth of the interval is zero,
    and makes no platform call either. *)
Theorem aht21_ticks_ready_interval handle dev bus ops m :
  driver_ok handle dev bus ops m →
  state dev = AHT21_STATE_READY →
  0 ≤ measure_ticks dev < 2 ^ 32 →
  let limit := measure_interval dev / 5 in
  (∀ n, measure_ticks dev + Z.of_nat n < limit →
        measure_ticks dev + Z.of_nat n < 2 ^ 32 →
     run_steps (replicate n StepTicks) handle m =
       Some (tt, put_aht21 handle (counted n dev) m)) ∧
  (limit ≤ measure_ticks dev + 1 → measure_ticks dev < 2 ^ 32 - 1 →
   aht21_ticks handle m =
     Some (tt, put_aht21 handle
                 (with_measure_ticks 0 (with_state AHT21_STATE_IDLE dev)) m) ∧
   ∃ m', (aht21_ticks handle;; aht21_ticks handle) m = Some (tt, m') ∧
         (aht21_ticks handle;; aht21_trigger_measure handle;; mret tt) m
           = Some (tt, m')) ∧
  (measure_ticks dev = 2 ^ 32 - 1 →
   aht21_ticks handle m =
     Some (tt, put_aht21 handle
                 (if limit <=? 0
                  then with_measure_ticks 0 (with_state AHT21_STATE_IDLE dev)
                  else with_measure_ticks 0 dev) m)).
Proof.
  intros Hok Hstate [Hpos Hmax]. pose proof Hok as (Hnonnull & Hdev & _).
  cbn zeta. split_and!.
  - intros n Hn Hwrap.
    apply (aht21_ticks_counting handle (measure_interval dev / 5)); try done.
    by right.
  - intros Hlimit Hwrap.
    assert (Htick : aht21_ticks handle m =
              Some (tt, put_aht21 handle
                          (with_measure_ticks 0
                             (with_state AHT21_STATE_IDLE dev)) m)).
    { rewrite (aht21_ticks_ready_run handle dev m) by (done || lia).
      by rewrite (proj2 (Z.leb_le _ _)) by lia. }
    split; first done.
    rewrite !bind_unfold, Htick.
    set (idle := with_measure_ticks 0 (with_state AHT21_STATE_IDLE dev)).
    assert (Hok1 : driver_ok handle idle bus ops (put_aht21 handle idle m))
      by by apply (driver_ok_put_aht21 handle dev).
    destruct (lands_trigger handle ops idle bus _ Hok1)
      as (r & m2 & dev2 & bus2 & Hrun & _ & _).
    exists m2. unfold aht21_ticks at 1. rewrite decide_False by done.
    erewrite bind_run; last by (apply load_aht21_run, lookup_put_aht21).
    cbn [state idle with_measure_ticks with_state].
    by rewrite !bind_unfold, Hrun.
  - intros Hwrap.
    by apply (aht21_ticks_wrap handle dev m Hnonnull Hdev Hwrap).
Qed.

Lemma aht21_ticks_ready_interval_witness :
  outcome 2%N
    (run_steps (replicate 19 StepTicks) 2%N
       (demo_mem (line_of [] 1) AHT21_STATE_READY)) =
    Some (tt, Some AHT21_STATE_READY) ∧
  outcome 2%N
    (aht21_ticks 2%N
       (put_aht21 2%N (counted 19 (demo_device AHT21_STATE_READY))
          (demo_mem (line_of [] 1) AHT21_STATE_READY))) =
    Some (tt, Some AHT21_STATE_IDLE).
Proof.
  split.
  - destruct (aht21_ticks_ready_interval 2%N
                (demo_device AHT21_STATE_READY) demo_bus demo_hal
                (demo_mem (line_of [] 1) AHT21_STATE_READY))
      as (Hcount & _).
    + unfold driver_ok, hal_complete. split_and!; done.
    + reflexivity.
    + cbn. lia.
    + rewrite (Hcount 19%nat); [done | by cbn | by cbn].
  - destruct (aht21_ticks_ready_interval 2%N
                (counted 19 (demo_device AHT21_STATE_READY)) demo_bus demo_hal
                (put_aht21 2%N (counted 19 (demo_device AHT21_STATE_READY))
                   (demo_mem (line_of [] 1) AHT21_STATE_READY)))
      as (_ & Hback & _).
    + unfold driver_ok, hal_complete. split_and!; done.
    + reflexivity.
    + cbn. lia.
    + destruct Hback as (-> & _); [by cbn | by cbn | done].
Defined.

(** ** One measurement cycle under the tick *)

Lemma outcome_put_aht21 {A} handle (a : A) dev m :
  outcome handle (Some (a, put_aht21 handle dev m)) = Some (a, Some (state dev)).
Proof. unfold outcome, state_at. by rewrite lookup_put_aht21. Qed.

Lemma aht21_ticks_idle_run handle dev bus ops m :
  driver_ok handle dev bus ops m →
  state dev = AHT21_STATE_IDLE →
  (∀ i, (i < 4)%nat → ack_level m i = 0) →
  aht21_ticks handle m =
    Some (tt, put_aht21 handle (triggered dev)
                (write_mem (iic dev) bus AHT21_ADDR
                   [AHT21_CMD_TRIGGER; 0x33; 0x00] 3 m)).
Proof.
  intros Hok Hstate Hacks. pose proof Hok as (Hnonnull & Hdev & _).
  unfold aht21_ticks. rewrite decide_False by done.
  erewrite bind_run; last by apply load_aht21_run.
  rewrite Hstate, bind_unfold.
  rewrite (aht21_trigger_measure_run handle dev bus ops m Hok)
    by by rewrite Hstate.
  cbn zeta.
  assert (Hacked : frame_acked (sda_line m) (sda_reads m)
            (write_frame AHT21_ADDR [AHT21_CMD_TRIGGER; 0x33; 0x00] 3) = true)
    by by apply (acked_prefix _ _ _ 4).
  by rewrite Hacked.
Qed.

Lemma read_mem_put_aht21 p h addr len q dev m :
  read_mem p h addr len (put_aht21 q dev m) =
    put_aht21 q dev (read_mem p h addr len m).
Proof.
  unfold read_mem. change (sample (put_aht21 q dev m)) with (sample m).
  by destruct (sample m =? 0).
Qed.

Section Cycle.
Context (handle : N) (dev : AHT21_Handle) (bus : IIC_Handle)
        (ops : IIC_HAL_Ops) (m : Mem) (rest : nat).
Hypothesis Hok : driver_ok handle dev bus ops m.
Hypothesis Hstate : state dev = AHT21_STATE_IDLE.
Hypothesis Hinterval : measure_interval dev / 5 = 17 + Z.of_nat rest.
Hypothesis Hshort : measure_interval dev < 65536.
Hypothesis Hacks : ∀ i, (i < 5)%nat → ack_level m i = 0.
Hypothesis Hfree :
  Z.testbit (bus_byte (sda_line m) (5 + sda_reads m)) 7 = false.
Hypothesis Hack2 : ack_level m 13 = 0.

Let command := [AHT21_CMD_TRIGGER; 0x33; 0x00].
Let bytes := read_bytes (sda_line m) (14 + sda_reads m) 7.
Let m1 := write_mem (iic dev) bus AHT21_ADDR command 3 m.
Let m2 := read_mem (iic dev) (with_bus_busy 0 (with_bus_busy 0 bus))
            AHT21_ADDR 7
            (read_mem (iic dev) (with_bus_busy 0 bus) AHT21_ADDR 1 m1).
Let ready := decoded bytes (counted 16 (triggered dev)).

Lemma cycle_m1 :
  m1 = step (write_frame_pins (half_period bus) (sda_line m) (sda_reads m)
               trigger_frame) 4
         (put_iic (iic dev) (with_bus_busy 0 bus) m).
Proof.
  unfold m1. rewrite write_mem_acked; first done.
  apply (acked_prefix _ _ _ 4); first done. intros i Hi. apply Hacks. lia.
Qed.

Lemma cycle_waiting k :
  (k ≤ 15)%nat →
  run_steps (replicate (S k) StepTicks) handle m =
    Some (tt, put_aht21 handle (counted k (triggered dev)) m1).
Proof.
  intros Hk. pose proof Hok as (Hnonnull & Hdev & _).
  cbn [replicate run_steps run_step]. rewrite bind_unfold.
  rewrite (aht21_ticks_idle_run handle dev bus ops m) by
    (try done; intros i Hi; apply Hacks; lia).
  fold command m1.
  rewrite (aht21_ticks_counting handle 16 k (triggered dev));
    try done; try (cbn; pow_consts; lia).
  - by rewrite put_aht21_put_aht21.
  - apply lookup_put_aht21.
  - by left.
Qed.

Lemma cycle_ready_mem :
  run_steps (replicate 17 StepTicks) handle m =
    Some (tt, put_aht21 handle ready m2).
Proof.
  pose proof Hok as (Hnonnull & Hdev & _).
  change 17%nat with (16 + 1)%nat.
  rewrite replicate_add, run_steps_app, bind_unfold.
  rewrite (cycle_waiting 15) by lia.
  cbn [replicate run_steps run_step]. rewrite !bind_unfold.
  set (dev15 := counted 15 (triggered dev)).
  assert (Hok1 : driver_ok handle dev (with_bus_busy 0 bus) ops m1)
    by by apply driver_ok_write_mem.
  assert (Hok15 : driver_ok handle dev15 (with_bus_busy 0 bus) ops
                    (put_aht21 handle dev15 m1))
    by by apply (driver_ok_put_aht21 handle dev).
  rewrite (aht21_ticks_poll handle dev15 (with_bus_busy 0 bus) ops _ Hok15);
    [|done|cbn; pow_consts; lia].
  rewrite put_aht21_put_aht21, bind_unfold.
  set (dev16 := counted 1 dev15).
  assert (Hok16 : driver_ok handle dev16 (with_bus_busy 0 bus) ops
                    (put_aht21 handle dev16 m1))
    by by apply (driver_ok_put_aht21 handle dev).
  rewrite (aht21_read_data_ok handle dev16 (with_bus_busy 0 bus) ops _ Hok16).
  - rewrite ret_run. cbn [sda_line sda_reads put_aht21].
    rewrite cycle_m1 at 1 2. cbn [sda_line sda_reads step put_iic].
    fold bytes.
    assert (Hdev16 : dev16 = counted 16 (triggered dev)).
    { unfold dev16, dev15, counted, with_measure_ticks. cbn. f_equal. }
    rewrite Hdev16. fold ready.
    by rewrite !read_mem_put_aht21, put_aht21_put_aht21.
  - unfold sample. cbn [sda_line sda_reads put_aht21].
    rewrite cycle_m1. cbn. apply (Hacks 4%nat). lia.
  - cbn [sda_line sda_reads put_aht21]. rewrite cycle_m1.
    cbn [sda_line sda_reads step put_iic].
    destruct (decide (Z.land (bus_byte (sda_line m) (S (4 + sda_reads m)))
                        AHT21_STATUS_BUSY = 0)) as [|Hne]; first done.
    apply busy_bit in Hne.
    change (S (4 + sda_reads m)) with (5 + sda_reads m)%nat in Hne.
    congruence.
  - unfold ack_level. cbn [sda_line sda_reads put_aht21]. rewrite cycle_m1.
    cbn [sda_line sda_reads step put_iic]. exact Hack2.
Qed.

Lemma cycle_ready k :
  (k ≤ rest)%nat →
  run_steps (replicate (17 + k) StepTicks) handle m =
    Some (tt, put_aht21 handle (counted k ready) m2).
Proof.
  intros Hk. pose proof Hok as (Hnonnull & Hdev & _).
  rewrite replicate_add, run_steps_app, bind_unfold, cycle_ready_mem.
  pose proof (Z.div_le_upper_bound (measure_interval dev) 5 13108
                ltac:(lia) ltac:(lia)) as Hlimit.
  rewrite (aht21_ticks_counting handle (measure_interval dev / 5) k ready);
    try done.
  - by rewrite put_aht21_put_aht21.
  - apply lookup_put_aht21.
  - by right.
  - cbn. lia.
  - cbn. pow_consts. lia.
Qed.

Lemma cycle_idle :
  run_steps (replicate (18 + rest) StepTicks) handle m =
    Some (tt, put_aht21 handle
                (with_measure_ticks 0 (with_state AHT21_STATE_IDLE ready)) m2).
Proof.
  pose proof Hok as (Hnonnull & Hdev & _).
  replace (18 + rest)%nat with ((17 + rest) + 1)%nat by lia.
  rewrite replicate_add, run_steps_app, bind_unfold, (cycle_ready rest) by lia.
  cbn [replicate run_steps run_step]. rewrite !bind_unfold.
  pose proof (Z.div_le_upper_bound (measure_interval dev) 5 13108
                ltac:(lia) ltac:(lia)) as Hlimit.
  rewrite (aht21_ticks_ready_run handle (counted rest ready));
    [|done|apply lookup_put_aht21|done|cbn; pow_consts; lia].
  cbn [measure_interval measure_ticks counted ready decoded with_state
       with_readings with_raw_data with_measure_ticks triggered].
  rewrite (proj2 (Z.leb_le _ _)) by lia.
  by rewrite ret_run, put_aht21_put_aht21.
Qed.

Lemma cycle_pins :
  pins m2 = pins m ++
    write_frame_pins (half_period bus) (sda_line m) (sda_reads m)
      trigger_frame ++
    read_frame_pins (half_period bus) (sda_line m) (4 + sda_reads m) 1 ++
    read_frame_pins (half_period bus) (sda_line m) (13 + sda_reads m) 7.
Proof.
  assert (Hs1 : sample m1 = 0).
  { rewrite cycle_m1. apply (Hacks 4%nat). lia. }
  unfold m2. rewrite (pins_read_mem_acked _ _ 7); last first.
  { rewrite sample_read_mem by done. unfold ack_level.
    rewrite cycle_m1. exact Hack2. }
  rewrite (pins_read_mem_acked _ _ 1) by done.
  rewrite sda_line_read_mem, sda_reads_read_mem by done.
  rewrite cycle_m1. cbn [pins sda_line sda_reads step put_iic].
  by rewrite <- !app_assoc.
Qed.

End Cycle.

(** X15: one measurement cycle as the tick drives it.  From IDLE, with a
    sensor that acknowledges and reports not busy, the first tick sends the
    trigger, ticks 2 to 16 only count, tick 17 polls the status and reads
    the reply, and the driver is READY from tick 17 until the counter, which
    kept running through the wait, reaches a fifth of the interval; that
    tick puts it back in IDLE.  With the interval 100 that [aht21_init]
    sets, READY lasts for ticks 17 to 20 and tick 21 ends the cycle.  The
    whole cycle puts one trigger frame, one status poll and one seven-byte
    read on the wire, and leaves the reply and the readings decoded from it
    in the handle. *)
Theorem aht21_ticks_cycle handle dev bus ops m rest :
  driver_ok handle dev bus ops m →
  state dev = AHT21_STATE_IDLE →
  length (raw_data dev) = 7%nat →
  measure_interval dev / 5 = 17 + Z.of_nat rest →
  measure_interval dev < 65536 →
  (∀ i, (i < 5)%nat → ack_level m i = 0) →
  Z.testbit (bus_byte (sda_line m) (5 + sda_reads m)) 7 = false →
  ack_level m 13 = 0 →
  let d := half_period bus in
  let line := sda_line m in
  let pos := sda_reads m in
  let bytes := read_bytes line (14 + pos) 7 in
  let after n :=
    outcome handle (run_steps (replicate n StepTicks) handle m) in
  (∀ n, (1 ≤ n ≤ 16)%nat →
     after n = Some (tt, Some AHT21_STATE_WAIT_MEASURE)) ∧
  (∀ n, (17 ≤ n ≤ 17 + rest)%nat →
     after n = Some (tt, Some AHT21_STATE_READY)) ∧
  after (18 + rest)%nat = Some (tt, Some AHT21_STATE_IDLE) ∧
  ∃ m' dev',
    run_steps (replicate (18 + rest) StepTicks) handle m = Some (tt, m') ∧
    aht21_handles m' !! handle = Some dev' ∧
    measure_ticks dev' = 0 ∧
    raw_data dev' = bytes ∧
    temperature dev' =
      temperature_of_raw
        (temperature_raw_of (nth 3 bytes 0) (nth 4 bytes 0) (nth 5 bytes 0)) ∧
    humidity dev' =
      humidity_of_raw
        (humidity_raw_of (nth 1 bytes 0) (nth 2 bytes 0) (nth 3 bytes 0)) ∧
    pins m' = pins m ++ write_frame_pins d line pos trigger_frame ++
              read_frame_pins d line (4 + pos) 1 ++
              read_frame_pins d line (13 + pos) 7 ∧
    sda_reads m' = (70 + pos)%nat.
Proof.
  intros Hok Hstate Hraw Hinterval Hshort Hacks Hfree Hack2. cbn zeta.
  split_and!.
  - intros n Hn. destruct n as [|k]; first lia.
    rewrite (cycle_waiting handle dev bus ops m rest Hok Hstate Hacks k) by lia.
    by rewrite outcome_put_aht21.
  - intros n Hn. replace n with (17 + (n - 17))%nat by lia.
    rewrite (cycle_ready handle dev bus ops m rest) by (done || lia).
    by rewrite outcome_put_aht21.
  - rewrite (cycle_idle handle dev bus ops m rest) by done.
    by rewrite outcome_put_aht21.
  - rewrite (cycle_idle handle dev bus ops m rest) by done.
    do 2 eexists. split; first done.
    split; first apply lookup_put_aht21.
    pose proof (read_bytes_length (sda_line m) (14 + sda_reads m) 7) as Hlen.
    remember (read_bytes (sda_line m) (14 + sda_reads m) 7) as bytes eqn:Hb.
    assert (Hall : bytes ++ drop (length bytes) (raw_data dev) = bytes).
    { rewrite drop_ge by lia. apply app_nil_r. }
    unfold decoded, counted, triggered.
    cbn [raw_data with_measure_ticks with_state]. cbn zeta. rewrite Hall.
    cbn [measure_ticks raw_data temperature humidity with_measure_ticks
         with_state with_readings with_raw_data].
    split_and!; try done.
    + cbn [pins put_aht21]. by rewrite (cycle_pins dev bus m rest Hacks Hack2).
    + cbn [sda_reads put_aht21].
      assert (Hs1 : sample (write_mem (iic dev) bus AHT21_ADDR
                              [AHT21_CMD_TRIGGER; 0x33; 0x00] 3 m) = 0).
      { rewrite (cycle_m1 dev bus m rest Hacks). apply (Hacks 4%nat). lia. }
      rewrite sda_reads_read_mem; last first.
      { rewrite sample_read_mem by done. unfold ack_level.
        rewrite (cycle_m1 dev bus m rest Hacks). exact Hack2. }
      rewrite sda_reads_read_mem by done.
      rewrite (cycle_m1 dev bus m rest Hacks). cbn. lia.
Qed.

Lemma aht21_ticks_cycle_witness :
  outcome 2%N
    (run_steps (replicate 21 StepTicks) 2%N
       (demo_mem
          (line_of (replicate 5 0 ++ byte_levels 0x1C ++ [0] ++
                    concat (map byte_levels
                              [0x1C; 0x80; 0x00; 0x06; 0x00; 0x00; 0x00])) 1)
          AHT21_STATE_IDLE)) =
    Some (tt, Some AHT21_STATE_IDLE) ∧
  outcome 2%N
    (run_steps (replicate 20 StepTicks) 2%N
       (demo_mem
          (line_of (replicate 5 0 ++ byte_levels 0x1C ++ [0] ++
                    concat (map byte_levels
                              [0x1C; 0x80; 0x00; 0x06; 0x00; 0x00; 0x00])) 1)
          AHT21_STATE_IDLE)) =
    Some (tt, Some AHT21_STATE_READY).
Proof.
  destruct (aht21_ticks_cycle 2%N (demo_device AHT21_STATE_IDLE) demo_bus
              demo_hal
              (demo_mem
                 (line_of (replicate 5 0 ++ byte_levels 0x1C ++ [0] ++
                           concat (map byte_levels
                                     [0x1C; 0x80; 0x00; 0x06; 0x00; 0x00; 0x00]))
                    1)
                 AHT21_STATE_IDLE) 3)
    as (_ & Hready & Hidle & _).
  - unfold driver_ok, hal_complete. split_and!; done.
  - reflexivity.
  - reflexivity.
  - reflexivity.
  - reflexivity.
  - intros i Hi. do 5 (destruct i as [|i]; first done). lia.
  - vm_compute. reflexivity.
  - reflexivity.
  - split; first exact Hidle. apply (Hready 20%nat). lia.
Defined.

(** ** The blocking read *)

Lemma bind_assoc_run {S A B C} (c : StateErr S A) (f : A → StateErr S B)
    (g : B → StateErr S C) s :
  (c ≫= λ a, f a ≫= g) s = ((c ≫= f) ≫= g) s.
Proof.
  unfold mbind, StateErr_bind. by destruct (c s) as [[a s']|].
Qed.

Lemma lands_settle handle ops dev bus ms m :
  driver_ok handle dev bus ops m →
  lands handle ops
    (ops0 ← load_hal (iic dev);
     if delay_ms ops0 then hal_delay_ms (iic dev) ms else mret tt) m
    (λ _ dev', dev' = dev).
Proof.
  intros Hok. pose proof Hok as (Hnonnull & Hdev & Hiic & Hbus & Hhal).
  eapply lands_after; first by eapply load_hal_run.
  exists tt, (settle ops ms m), dev, bus. split_and!; try done.
  - by eapply settle_run.
  - by apply driver_ok_settle.
Qed.

Ltac blocking_case :=
  split_and!; intros; split_and?; try done;
  try (by left); try (by right);
  try match goal with
  | H : ∀ dev1 bus1 m1, driver_ok _ dev1 bus1 _ m1 → _ |- _ => by eapply H
  end.

Lemma aht21_read_blocking_lands handle dev bus ops m :
  driver_ok handle dev bus ops m →
  ∃ r v m' dev' bus',
    aht21_read_blocking handle true true m = Some ((r, v), m') ∧
    driver_ok handle dev' bus' ops m' ∧
    (state dev = AHT21_STATE_WAIT_MEASURE →
     r = AHT21_ERR_BUSY ∧ v = None ∧ m' = m) ∧
    (r = AHT21_OK →
     state dev ≠ AHT21_STATE_WAIT_MEASURE ∧
     state dev' = AHT21_STATE_READY ∧
     v = Some (temperature dev', humidity dev') ∧
     ∃ bytes, dev' = decoded bytes (triggered dev)) ∧
    (r ≠ AHT21_OK →
     v = None ∧ (r = AHT21_ERR_BUSY ∨ r = AHT21_ERR_IIC) ∧
     (dev' = dev ∨ dev' = triggered dev)) ∧
    (state dev' = AHT21_STATE_WAIT_MEASURE →
     aht21_read_blocking handle true true m' =
       Some ((AHT21_ERR_BUSY, None), m')).
Proof.
  intros Hok. pose proof Hok as (Hnonnull & Hdev & _).
  assert (Hbusy : ∀ dev1 bus1 m1,
            driver_ok handle dev1 bus1 ops m1 →
            state dev1 = AHT21_STATE_WAIT_MEASURE →
            aht21_read_blocking handle true true m1 =
              Some ((AHT21_ERR_BUSY, None), m1)).
  { intros dev1 bus1 m1 (_ & Hdev1 & _) Hstate1.
    unfold aht21_read_blocking. rewrite decide_False by done. cbn [negb].
    by rewrite bind_unfold,
      (aht21_trigger_measure_busy handle dev1 m1 Hnonnull Hdev1 Hstate1). }
  unfold aht21_read_blocking at 1. rewrite decide_False by done. cbn [negb].
  destruct (lands_trigger handle ops dev bus m Hok)
    as (r1 & m1 & dev1 & bus1 & Hrun1 & Hok1 & Hr1).
  rewrite bind_unfold, Hrun1.
  destruct Hr1 as [(-> & Hstate & ->)|[(-> & Hstate & ->)|(-> & Hstate & ->)]].
  - rewrite decide_False by (intros ?; done).
    pose proof Hok1 as (_ & Hdev1 & _).
    erewrite bind_run; last by apply load_aht21_run.
    destruct (lands_settle handle ops _ bus1 80 m1 Hok1)
      as ([] & m2 & dev2 & bus2 & Hrun2 & Hok2 & ->).
    rewrite bind_assoc_run.
    rewrite bind_unfold, Hrun2.
    destruct (lands_read_data handle ops _ bus2 m2 Hok2)
      as (r3 & m3 & dev3 & bus3 & Hrun3 & Hok3 & Hr3).
    rewrite bind_unfold, Hrun3.
    pose proof Hok3 as (_ & Hdev3 & _).
    destruct Hr3 as [(-> & bytes & ->)|[(-> & ->)|(-> & ->)]].
    + rewrite decide_False by (intros ?; done).
      erewrite bind_run; last by apply load_aht21_run.
      rewrite ret_run. do 5 eexists. split; first done.
      split; first exact Hok3. blocking_case. by exists bytes.
    + rewrite decide_True by done. rewrite ret_run.
      do 5 eexists. split; first done. split; first exact Hok3.
      blocking_case.
    + rewrite decide_True by done. rewrite ret_run.
      do 5 eexists. split; first done. split; first exact Hok3.
      blocking_case.
  - rewrite (aht21_trigger_measure_busy handle dev m Hnonnull Hdev Hstate)
      in Hrun1.
    injection Hrun1 as <-.
    rewrite decide_True by done. rewrite ret_run.
    do 5 eexists. split; first done. split; first exact Hok1.
    blocking_case.
  - rewrite decide_True by done. rewrite ret_run.
    do 5 eexists. split; first done. split; first exact Hok1.
    blocking_case.
Qed.

Lemma aht21_read_blocking_ok handle dev bus ops m :
  driver_ok handle dev bus ops m →
  state dev ≠ AHT21_STATE_WAIT_MEASURE →
  (∀ i, (i < 5)%nat → ack_level m i = 0) →
  Z.testbit (bus_byte (sda_line m) (5 + sda_reads m)) 7 = false →
  ack_level m 13 = 0 →
  let dev' := decoded (read_bytes (sda_line m) (14 + sda_reads m) 7)
                (triggered dev) in
  ∃ m',
    aht21_read_blocking handle true true m =
      Some ((AHT21_OK, Some (temperature dev', humidity dev')), m') ∧
    aht21_handles m' !! handle = Some dev' ∧
    pins m' = pins m ++
      write_frame_pins (half_period bus) (sda_line m) (sda_reads m)
        trigger_frame ++
      settle_pins ops 80 ++
      read_frame_pins (half_period bus) (sda_line m) (4 + sda_reads m) 1 ++
      read_frame_pins (half_period bus) (sda_line m) (13 + sda_reads m) 7.
Proof.
  intros Hok Hstate Hacks Hfree Hack2. cbn zeta.
  pose proof Hok as (Hnonnull & Hdev & Hiic & Hbus & Hhal).
  set (m1 := write_mem (iic dev) bus AHT21_ADDR
               [AHT21_CMD_TRIGGER; 0x33; 0x00] 3 m).
  assert (Hacked : frame_acked (sda_line m) (sda_reads m)
            (write_frame AHT21_ADDR [AHT21_CMD_TRIGGER; 0x33; 0x00] 3) = true).
  { apply (acked_prefix _ _ _ 4); first done. intros i Hi. apply Hacks. lia. }
  assert (Hm1 : m1 = step (write_frame_pins (half_period bus) (sda_line m)
                             (sda_reads m) trigger_frame) 4
                       (put_iic (iic dev) (with_bus_busy 0 bus) m)).
  { unfold m1. by rewrite write_mem_acked. }
  assert (Hok1 : driver_ok handle dev (with_bus_busy 0 bus) ops m1)
    by by apply driver_ok_write_mem.
  set (mt := put_aht21 handle (triggered dev) m1).
  assert (Hokt : driver_ok handle (triggered dev) (with_bus_busy 0 bus) ops mt)
    by by apply (driver_ok_put_aht21 handle dev).
  set (ms := settle ops 80 mt).
  assert (Hoks : driver_ok handle (triggered dev) (with_bus_busy 0 bus) ops ms)
    by by apply driver_ok_settle.
  assert (Hline : sda_line ms = sda_line m).
  { unfold ms. rewrite sda_line_settle. unfold mt. by rewrite Hm1. }
  assert (Hreads : sda_reads ms = (4 + sda_reads m)%nat).
  { unfold ms. rewrite sda_reads_settle. unfold mt. by rewrite Hm1. }
  assert (Hsample : sample ms = 0).
  { unfold sample. rewrite Hline, Hreads. apply (Hacks 4%nat). lia. }
  assert (Hpins : pins ms = pins m ++
            write_frame_pins (half_period bus) (sda_line m) (sda_reads m)
              trigger_frame ++ settle_pins ops 80).
  { unfold ms. rewrite pins_settle. unfold mt. rewrite Hm1.
    cbn [pins put_aht21 step put_iic]. by rewrite <- app_assoc. }
  pose proof Hokt as (_ & Hdevt & _ & Hbust & Hhalt).
  unfold aht21_read_blocking. rewrite decide_False by done. cbn [negb].
  erewrite bind_run; last first.
  { rewrite (aht21_trigger_measure_run handle dev bus ops m Hok Hstate).
    cbn zeta. rewrite Hacked. reflexivity. }
  rewrite decide_False by (intros ?; done).
  fold m1 mt.
  erewrite bind_run; last by apply load_aht21_run.
  erewrite bind_run; last by eapply load_hal_run.
  erewrite bind_run; last by eapply settle_run.
  fold ms.
  erewrite bind_run; last first.
  { apply (aht21_read_data_ok handle (triggered dev) (with_bus_busy 0 bus)
             ops ms Hoks Hsample).
    - rewrite Hline, Hreads.
      destruct (decide (Z.land (bus_byte (sda_line m) (S (4 + sda_reads m)))
                          AHT21_STATUS_BUSY = 0)) as [|Hne]; first done.
      apply busy_bit in Hne.
      change (S (4 + sda_reads m)) with (5 + sda_reads m)%nat in Hne.
      congruence.
    - unfold ack_level. rewrite Hline, Hreads. exact Hack2. }
  rewrite decide_False by (intros ?; done).
  erewrite bind_run;
    last by (apply load_aht21_run; apply lookup_put_aht21).
  rewrite ret_run, Hline, Hreads.
  eexists. split; first reflexivity.
  split; first apply lookup_put_aht21.
  cbn [pins put_aht21].
  rewrite (pins_read_mem_acked _ _ 7); last first.
  { rewrite sample_read_mem by done. unfold ack_level.
    rewrite Hline, Hreads. exact Hack2. }
  rewrite (pins_read_mem_acked _ _ 1) by done.
  rewrite sda_line_read_mem, sda_reads_read_mem by done.
  rewrite Hpins, Hline, Hreads. cbn [half_period with_bus_busy hal_ops
                                       speed_khz].
  by rewrite <- !app_assoc.
Qed.

Lemma aht21_read_blocking_steps handle dev bus ops m :
  driver_ok handle dev bus ops m →
  ∃ r1 m1,
    aht21_trigger_measure handle m = Some (r1, m1) ∧
    (r1 ≠ AHT21_OK →
     aht21_read_blocking handle true true m = Some ((r1, None), m1) ∧
     aht21_handles m1 !! handle = Some dev) ∧
    (r1 = AHT21_OK →
     ∃ r2 m2 v2,
       aht21_read_data handle (settle ops 80 m1) = Some (r2, m2) ∧
       aht21_read_blocking handle true true m = Some ((r2, v2), m2) ∧
       (r2 ≠ AHT21_OK →
        v2 = None ∧ aht21_handles m2 !! handle = Some (triggered dev))).
Proof.
  intros Hok. pose proof Hok as (Hnonnull & Hdev & _).
  destruct (lands_trigger handle ops dev bus m Hok)
    as (r1 & m1 & dev1 & bus1 & Hrun1 & Hok1 & Hr1).
  exists r1, m1. split; first done.
  pose proof Hok1 as (_ & Hdev1 & _ & Hbus1 & Hhal1).
  split.
  - intros Hne. split.
    + unfold aht21_read_blocking. rewrite decide_False by done. cbn [negb].
      rewrite bind_unfold, Hrun1. by rewrite decide_True by done.
    + by destruct Hr1 as [(-> & _)|[(_ & _ & ->)|(_ & _ & ->)]].
  - intros ->.
    destruct Hr1 as [(_ & Hstate & ->)|[(? & _)|(? & _)]]; try done.
    assert (Hoks : driver_ok handle (triggered dev) bus1 ops (settle ops 80 m1))
      by by apply driver_ok_settle.
    destruct (lands_read_data handle ops _ bus1 _ Hoks)
      as (r2 & m2 & dev2 & bus2 & Hrun2 & Hok2 & Hr2).
    pose proof Hok2 as (_ & Hdev2 & _).
    assert (Hunfold : aht21_read_blocking handle true true m =
              (if decide (r2 ≠ AHT21_OK) then mret (r2, None)
               else h ← load_aht21 handle;
                    mret (AHT21_OK, Some (temperature h, humidity h))) m2).
    { unfold aht21_read_blocking. rewrite decide_False by done. cbn [negb].
      rewrite bind_unfold, Hrun1. rewrite decide_False by (intros ?; done).
      erewrite bind_run; last by apply load_aht21_run.
      erewrite bind_run; last by eapply load_hal_run.
      erewrite bind_run; last by eapply settle_run.
      by rewrite bind_unfold, Hrun2. }
    destruct (decide (r2 = AHT21_OK)) as [->|Hne].
    + rewrite decide_False in Hunfold by (intros ?; done).
      erewrite bind_run in Hunfold; last by apply load_aht21_run.
      rewrite ret_run in Hunfold.
      exists AHT21_OK, m2, (Some (temperature dev2, humidity dev2)).
      split_and!; done.
    + rewrite decide_True in Hunfold by done.
      exists r2, m2, None. split_and!; try done. intros _. split; first done.
      by destruct Hr2 as [(-> & _)|[(_ & ->)|(_ & ->)]].
Qed.

(** X16: [aht21_read_blocking] is a trigger, the 80 ms wait if the table
    has the millisecond hook, and one read; it returns the first result
    that is not OK, and on OK the two readings just decoded, with the driver
    in READY.  When the trigger does not return OK, the blocking read
    returns the trigger's result and ends where the trigger ended, with the
    handle as it was; when it does, the read is made on the memory after
    the wait, and a result of the read other than OK is returned with the
    handle as the trigger left it, in WAIT_MEASURE.  With a sensor that
    acknowledges and reports not busy the platform calls are the trigger
    frame, the wait, the status poll and the seven-byte read, and the
    result is OK.  While a measurement is pending it returns BUSY at once
    and touches nothing.  It polls the status once only: when the read
    fails, because the sensor is still busy or the bus fails, the driver is
    left in WAIT_MEASURE, and the next blocking read returns BUSY without a
    single platform call. *)
Theorem aht21_read_blocking_outcome handle dev bus ops m :
  driver_ok handle dev bus ops m →
  ∃ r v m' dev' bus',
    aht21_read_blocking handle true true m = Some ((r, v), m') ∧
    driver_ok handle dev' bus' ops m' ∧
    (state dev = AHT21_STATE_WAIT_MEASURE →
     r = AHT21_ERR_BUSY ∧ v = None ∧ m' = m) ∧
    (r = AHT21_OK →
     state dev ≠ AHT21_STATE_WAIT_MEASURE ∧
     state dev' = AHT21_STATE_READY ∧
     v = Some (temperature dev', humidity dev') ∧
     ∃ bytes, dev' = decoded bytes (triggered dev)) ∧
    (r ≠ AHT21_OK →
     v = None ∧ (r = AHT21_ERR_BUSY ∨ r = AHT21_ERR_IIC) ∧
     (dev' = dev ∨ dev' = triggered dev)) ∧
    (state dev' = AHT21_STATE_WAIT_MEASURE →
     aht21_read_blocking handle true true m' =
       Some ((AHT21_ERR_BUSY, None), m')) ∧
    (state dev ≠ AHT21_STATE_WAIT_MEASURE →
     (∀ i, (i < 5)%nat → ack_level m i = 0) →
     Z.testbit (bus_byte (sda_line m) (5 + sda_reads m)) 7 = false →
     ack_level m 13 = 0 →
     r = AHT21_OK ∧
     dev' = decoded (read_bytes (sda_line m) (14 + sda_reads m) 7)
              (triggered dev) ∧
     pins m' = pins m ++
       write_frame_pins (half_period bus) (sda_line m) (sda_reads m)
         trigger_frame ++
       settle_pins ops 80 ++
       read_frame_pins (half_period bus) (sda_line m) (4 + sda_reads m) 1 ++
       read_frame_pins (half_period bus) (sda_line m) (13 + sda_reads m) 7) ∧
    (∃ r1 m1,
       aht21_trigger_measure handle m = Some (r1, m1) ∧
       (r1 ≠ AHT21_OK → r = r1 ∧ v = None ∧ m' = m1 ∧ dev' = dev) ∧
       (r1 = AHT21_OK →
        ∃ r2,
          aht21_read_data handle (settle ops 80 m1) = Some (r2, m') ∧
          r = r2 ∧
          (r2 ≠ AHT21_OK →
           v = None ∧ dev' = triggered dev ∧
           state dev' = AHT21_STATE_WAIT_MEASURE))).
Proof.
  intros Hok.
  destruct (aht21_read_blocking_lands handle dev bus ops m Hok)
    as (r & v & m' & dev' & bus' & Hrun & Hok' & Hwait & Hgood & Hbad & Hnext).
  exists r, v, m', dev', bus'. split_and!; try done.
  - intros Hstate Hacks Hfree Hack2.
    destruct (aht21_read_blocking_ok handle dev bus ops m Hok Hstate Hacks
                Hfree Hack2) as (m'' & Hrun' & Hdev'' & Hpins).
    rewrite Hrun in Hrun'.
    assert (Hr : r = AHT21_OK) by congruence.
    assert (Hm : m' = m'') by congruence.
    subst m''. destruct Hok' as (_ & Hdev' & _).
    rewrite Hdev' in Hdev''. split; first done.
    split; last done. congruence.
  - destruct (aht21_read_blocking_steps handle dev bus ops m Hok)
      as (r1 & m1 & Hrun1 & Hfail & Hnext1).
    pose proof Hok' as (_ & Hdev' & _).
    exists r1, m1. split; first done. split.
    + intros Hne. destruct (Hfail Hne) as (Hrun' & Hdev1).
      rewrite Hrun in Hrun'.
      assert (r = r1) by congruence. assert (v = None) by congruence.
      assert (m' = m1) by congruence. subst.
      split_and!; try done. congruence.
    + intros Hr1.
      destruct (Hnext1 Hr1) as (r2 & m2 & v2 & Hrun2 & Hrun' & Hfail2).
      rewrite Hrun in Hrun'.
      assert (r = r2) by congruence. assert (v = v2) by congruence.
      assert (m' = m2) by congruence. subst.
      exists r2. split_and!; try done.
      intros Hne. destruct (Hfail2 Hne) as (-> & Hdev2).
      rewrite Hdev' in Hdev2.
      assert (dev' = triggered dev) by congruence. by subst.
Qed.

Lemma aht21_read_blocking_outcome_witness :
  ∃ m',
    aht21_read_blocking 2%N true true
      (demo_mem (line_of [] 0) AHT21_STATE_WAIT_MEASURE) =
      Some ((AHT21_ERR_BUSY, None), m') ∧
    m' = demo_mem (line_of [] 0) AHT21_STATE_WAIT_MEASURE.
Proof.
  destruct (aht21_read_blocking_outcome 2%N
              (demo_device AHT21_STATE_WAIT_MEASURE) demo_bus demo_hal
              (demo_mem (line_of [] 0) AHT21_STATE_WAIT_MEASURE))
    as (r & v & m' & dev' & bus' & Hrun & _ & Hwait & _).
  - unfold driver_ok, hal_complete. split_and!; done.
  - destruct Hwait as (-> & -> & ->); first reflexivity.
    eexists. split; [exact Hrun | reflexivity].
Defined.

(** ** Registering and unregistering *)

Section RoundTrip.
Context {D : Type}.
Implicit Types (w : SensorWorld D).

Lemma put_sensor_same w p node :
  sensors w !! p = Some node → put_sensor p node w = w.
Proof.
  intros H. destruct w. unfold put_sensor; cbn in *. by rewrite insert_id.
Qed.

Lemma put_driver_same w : put_driver (driver w) w = w.
Proof. by destruct w. Qed.

Lemma with_next_same (node : TempHumiSensor D) :
  with_next (sensor_next node) node = node.
Proof. by destruct node. Qed.

Lemma sensor_stop_head w fuel handle node :
  handle ≠ 0%N →
  head_sensor w = handle →
  sensors w !! handle = Some node →
  sensor_stop (S fuel) handle w =
    Some (tt, put_sensor handle (with_next 0%N node)
                (put_head (sensor_next node) w)).
Proof.
  intros Hnonnull Hhead Hnode. unfold sensor_stop.
  rewrite decide_False by done. cbn [sensor_stop_loop read_link].
  rewrite !bind_unfold. cbn [get_state_of]. rewrite ret_run, Hhead.
  rewrite decide_False by done. rewrite decide_True by done.
  erewrite bind_run; last by apply load_sensor_run.
  cbn [write_link]. rewrite bind_unfold. cbn [modify].
  by erewrite update_sensor_run by exact Hnode.
Qed.

Lemma update_sensor_alloc w w' p (f : TempHumiSensor D → TempHumiSensor D) :
  update_sensor p f w = Some (tt, w') →
  head_sensor w' = head_sensor w ∧ driver w' = driver w ∧
  ∀ q, is_Some (sensors w' !! q) ↔ is_Some (sensors w !! q).
Proof.
  unfold update_sensor, load_sensor, store_sensor. rewrite bind_unfold.
  destruct (sensors w !! p) as [node|] eqn:Hp; last done.
  rewrite Hp. intros [= <-]. split; first done. split; first done.
  intros q. cbn. rewrite lookup_insert_is_Some.
  split.
  - intros [<-|[_ ?]]; [by rewrite Hp | done].
  - intros ?. destruct (decide (p = q)); [by left | by right].
Qed.

Lemma sensor_stop_loop_alloc fuel : ∀ curr handle w w',
  sensor_stop_loop fuel curr handle w = Some (tt, w') →
  ∀ q, is_Some (sensors w' !! q) ↔ is_Some (sensors w !! q).
Proof.
  induction fuel as [|fuel IH]; intros curr handle w w'; first done.
  cbn [sensor_stop_loop]. rewrite bind_unfold.
  destruct (read_link curr w) as [[entry w0]|] eqn:Hread; last done.
  assert (w0 = w) as ->.
  { destruct curr as [|y]; cbn in Hread.
    - by injection Hread as _ <-.
    - rewrite bind_unfold in Hread. unfold load_sensor in Hread.
      destruct (sensors w !! y); last done. by injection Hread as _ <-. }
  destruct (decide (entry = 0%N)); first by intros [= <-].
  destruct (decide (entry = handle)); last by apply IH.
  rewrite bind_unfold. unfold load_sensor at 1.
  destruct (sensors w !! entry) as [node0|]; last done.
  rewrite bind_unfold.
  destruct (write_link curr (sensor_next node0) w) as [[[] w1]|] eqn:Hwrite;
    last done.
  intros Hupd q.
  destruct (update_sensor_alloc _ _ _ _ Hupd) as (_ & _ & ->).
  destruct curr as [|y]; cbn in Hwrite.
  - by injection Hwrite as <-.
  - by destruct (update_sensor_alloc _ _ _ _ Hwrite) as (_ & _ & ->).
Qed.

(** X17: registering an instance and unregistering it again is a round
    trip.  [sensor_start] on an allocated instance that is not registered
    returns 0 and puts it at the front, and the [sensor_stop] that follows
    puts the head and every other instance back as they were and leaves the
    instance itself with a NULL [next]: when its [next] was NULL before, as
    [sensor_init] leaves it, the whole world is as before.  The other way
    round, [sensor_stop] on a registered instance takes it out, and the
    [sensor_start] that follows returns 0 and puts it at the front, with
    the others in the order they had and the driver side untouched. *)
Theorem sensor_start_stop_round_trip w l fuel handle node :
  registry w l → (S (length l) < fuel)%nat →
  handle ≠ 0%N →
  sensors w !! handle = Some node →
  (handle ∉ l →
   ∃ w1,
     sensor_start fuel handle w = Some (0, w1) ∧
     registry w1 (handle :: l) ∧
     sensor_stop fuel handle w1 =
       Some (tt, put_sensor handle (with_next 0%N node) w) ∧
     registry (put_sensor handle (with_next 0%N node) w) l ∧
     (sensor_next node = 0%N → sensor_stop fuel handle w1 = Some (tt, w))) ∧
  (handle ∈ l →
   ∃ w1 w2,
     sensor_stop fuel handle w = Some (tt, w1) ∧
     registry w1 (filter (λ x, x ≠ handle) l) ∧
     sensor_start fuel handle w1 = Some (0, w2) ∧
     registry w2 (handle :: filter (λ x, x ≠ handle) l) ∧
     driver w2 = driver w).
Proof.
  intros Hreg Hfuel Hnonnull Hnode. split.
  - intros Hnotin.
    destruct (sensor_start_fresh w fuel l handle node) as [Hstart Hreg'];
      [done | lia | done | done | done |].
    eexists. split; first exact Hstart. split; first exact Hreg'.
    assert (Hstop : sensor_stop fuel handle
                      (put_head handle
                         (put_sensor handle
                            (with_next (head_sensor w) node) w))
                    = Some (tt, put_sensor handle (with_next 0%N node) w)).
    { destruct fuel as [|fuel]; first lia.
      erewrite sensor_stop_head; [|done|done|apply lookup_insert_eq].
      destruct w as [d s hd]. unfold put_sensor, put_head. cbn.
      by rewrite insert_insert_eq. }
    split; first exact Hstop. split.
    + unfold registry. cbn. by apply chain_insert_other.
    + intros Hnext. rewrite Hstop. rewrite <- Hnext, with_next_same.
      by rewrite put_sensor_same.
  - intros Hin.
    destruct (sensor_stop_loop_run l w fuel LinkHead (head_sensor w) handle)
      as (w1 & Hstop & (p' & Hp' & Hc') & Hdrv1 & _);
      [done | done | done | lia |].
    cbn in Hp'. injection Hp' as <-.
    assert (Hnode1 : is_Some (sensors w1 !! handle)).
    { apply (sensor_stop_loop_alloc _ _ _ _ _ Hstop). by exists node. }
    destruct Hnode1 as [node1 Hnode1].
    destruct (sensor_start_fresh w1 fuel (filter (λ x, x ≠ handle) l)
                handle node1) as [Hstart Hreg2]; try done.
    { pose proof (length_filter (λ x, x ≠ handle) l). lia. }
    { rewrite list_elem_of_filter. by intros [? _]. }
    eexists w1, _. split.
    { unfold sensor_stop. by rewrite decide_False by done. }
    split; first done. split; first exact Hstart.
    split; first done. by rewrite <- Hdrv1.
Qed.

End RoundTrip.

Lemma sensor_start_stop_round_trip_witness :
  (∃ w1,
     sensor_start 4 12%N (demo_world (line_of [] 0) AHT21_STATE_IDLE)
       = Some (0, w1) ∧
     sensor_stop 4 12%N w1
       = Some (tt, demo_world (line_of [] 0) AHT21_STATE_IDLE)) ∧
  ∃ w1 w2,
    sensor_stop 4 10%N (demo_world (line_of [] 0) AHT21_STATE_IDLE)
      = Some (tt, w1) ∧
    sensor_start 4 10%N w1 = Some (0, w2) ∧
    registry w2 [10%N; 11%N].
Proof.
  assert (Hreg : registry (demo_world (line_of [] 0) AHT21_STATE_IDLE)
                   [11%N; 10%N]).
  { unfold registry. cbn. split_and!; try done.
    eexists. split; first reflexivity. cbn. split_and!; try done.
    eexists. split; first reflexivity. done. }
  split.
  - destruct (sensor_start_stop_round_trip
                (demo_world (line_of [] 0) AHT21_STATE_IDLE) [11%N; 10%N] 4
                12%N (demo_sensor 2%N 0%N)) as [Hfresh _].
    + exact Hreg.
    + cbn. lia.
    + done.
    + reflexivity.
    + destruct Hfresh as (w1 & Hstart & _ & _ & _ & Hsame);
        first compute_done.
      exists w1. split; first exact Hstart. by apply Hsame.
  - destruct (sensor_start_stop_round_trip
                (demo_world (line_of [] 0) AHT21_STATE_IDLE) [11%N; 10%N] 4
                10%N (demo_sensor 2%N 0%N)) as [_ Hmove].
    + exact Hreg.
    + cbn. lia.
    + done.
    + reflexivity.
    + destruct Hmove as (w1 & w2 & Hstop & _ & Hstart & Hreg' & _);
        first compute_done.
      exists w1, w2. split; first exact Hstop.
      split; first exact Hstart. exact Hreg'.
Defined.

(** ** The calls of the sensor layer in closed form *)

Section SensorCalls.
Context {D : Type}.
Implicit Types (w : SensorWorld D) (h : TempHumiSensor D).

Lemma load_ops_run w p h table :
  sensors w !! p = Some h → sensor_ops h = Some table →
  load_ops p w = Some (table, w).
Proof.
  intros Hh Hops. unfold load_ops.
  erewrite bind_run; last by apply load_sensor_run. by rewrite Hops.
Qed.

Lemma call_backend_run {A} (f : StateErr D A) w a d :
  f (driver w) = Some (a, d) → call_backend f w = Some (a, put_driver d w).
Proof. intros H. unfold call_backend. by rewrite H. Qed.

Lemma put_sensor_put_sensor w p h1 h2 :
  put_sensor p h2 (put_sensor p h1 w) = put_sensor p h2 w.
Proof. unfold put_sensor. cbn. by rewrite insert_insert_eq. Qed.

Lemma lookup_put_sensor w p h : sensors (put_sensor p h w) !! p = Some h.
Proof. apply lookup_insert_eq. Qed.

Lemma sensor_get_temperature_run w handle h :
  handle ≠ 0%N → sensors w !! handle = Some h →
  sensor_get_temperature handle true w =
    Some (if decide (sensor_state h = SENSOR_STATE_READY)
          then (SENSOR_OK, Some (sensor_temperature h))
          else (SENSOR_ERR_NOT_READY, None), w).
Proof.
  intros Hnonnull Hh. unfold sensor_get_temperature.
  rewrite decide_False by done. cbn [negb].
  erewrite bind_run; last by apply load_sensor_run.
  by destruct (sensor_state h).
Qed.

Lemma sensor_get_humidity_run w handle h :
  handle ≠ 0%N → sensors w !! handle = Some h →
  sensor_get_humidity handle true w =
    Some (if decide (sensor_state h = SENSOR_STATE_READY)
          then (SENSOR_OK, Some (sensor_humidity h))
          else (SENSOR_ERR_NOT_READY, None), w).
Proof.
  intros Hnonnull Hh. unfold sensor_get_humidity.
  rewrite decide_False by done. cbn [negb].
  erewrite bind_run; last by apply load_sensor_run.
  by destruct (sensor_state h).
Qed.

Lemma sensor_get_both_run w handle h :
  handle ≠ 0%N → sensors w !! handle = Some h →
  sensor_get_both handle true true w =
    Some (if decide (sensor_state h = SENSOR_STATE_READY)
          then (SENSOR_OK, Some (sensor_temperature h, sensor_humidity h))
          else (SENSOR_ERR_NOT_READY, None), w).
Proof.
  intros Hnonnull Hh. unfold sensor_get_both.
  rewrite decide_False by done. cbn [negb].
  erewrite bind_run; last by apply load_sensor_run.
  by destruct (sensor_state h).
Qed.

Lemma sensor_trigger_measure_run w handle h table f r d :
  handle ≠ 0%N → sensors w !! handle = Some h →
  sensor_ops h = Some table → trigger table = Some f →
  f (sensor_driver_handle h) (driver w) = Some (r, d) →
  sensor_trigger_measure handle w =
    Some (r, if decide (r = SENSOR_OK)
             then put_sensor handle
                    (with_cached_state SENSOR_STATE_MEASURING h)
                    (put_driver d w)
             else put_driver d w).
Proof.
  intros Hnonnull Hh Hops Hslot Hrun. unfold sensor_trigger_measure.
  rewrite decide_False by done.
  erewrite bind_run; last by eapply load_ops_run. rewrite Hslot.
  erewrite bind_run; last by apply load_sensor_run.
  erewrite bind_run; last by apply call_backend_run.
  destruct (decide (r = SENSOR_OK)); last done.
  by erewrite bind_run; last by apply update_sensor_run.
Qed.

Lemma sensor_reset_run w handle h table f r d :
  handle ≠ 0%N → sensors w !! handle = Some h →
  sensor_ops h = Some table → reset table = Some f →
  f (sensor_driver_handle h) (driver w) = Some (r, d) →
  sensor_reset handle w =
    Some (r, if decide (r = SENSOR_OK)
             then put_sensor handle
                    (with_cached_state SENSOR_STATE_IDLE h)
                    (put_driver d w)
             else put_driver d w).
Proof.
  intros Hnonnull Hh Hops Hslot Hrun. unfold sensor_reset.
  rewrite decide_False by done.
  erewrite bind_run; last by eapply load_ops_run. rewrite Hslot.
  erewrite bind_run; last by apply load_sensor_run.
  erewrite bind_run; last by apply call_backend_run.
  destruct (decide (r = SENSOR_OK)); last done.
  by erewrite bind_run; last by apply update_sensor_run.
Qed.

Lemma sensor_read_data_failed w handle h table f r d :
  handle ≠ 0%N → sensors w !! handle = Some h →
  sensor_ops h = Some table → read table = Some f →
  f (sensor_driver_handle h) (driver w) = Some (r, d) →
  r ≠ SENSOR_OK →
  sensor_read_data handle w = Some (r, put_driver d w).
Proof.
  intros Hnonnull Hh Hops Hslot Hrun Hr. unfold sensor_read_data.
  rewrite decide_False by done.
  erewrite bind_run; last by eapply load_ops_run. rewrite Hslot.
  erewrite bind_run; last by apply load_sensor_run.
  erewrite bind_run; last by apply call_backend_run.
  by rewrite decide_False by done.
Qed.

Lemma sensor_read_data_ok w handle h table f gt gh d1 r1 t d2 r2 hu d3 :
  handle ≠ 0%N → sensors w !! handle = Some h →
  sensor_ops h = Some table → read table = Some f →
  f (sensor_driver_handle h) (driver w) = Some (SENSOR_OK, d1) →
  get_temp table = Some gt →
  gt (sensor_driver_handle h) d1 = Some ((r1, t), d2) →
  get_humi table = Some gh →
  gh (sensor_driver_handle h) d2 = Some ((r2, hu), d3) →
  sensor_read_data handle w =
    Some (SENSOR_OK,
          put_sensor handle (with_cached_readings t hu h) (put_driver d3 w)).
Proof.
  intros Hnonnull Hh Hops Hslot Hrun Hgt Hrun1 Hgh Hrun2.
  unfold sensor_read_data. rewrite decide_False by done.
  erewrite bind_run; last by eapply load_ops_run. rewrite Hslot.
  erewrite bind_run; last by apply load_sensor_run.
  erewrite bind_run; last by apply call_backend_run.
  rewrite decide_True by done.
  assert (Hput : ∀ d d' (w0 : SensorWorld D),
            put_driver d (put_driver d' w0) = put_driver d w0) by done.
  assert (Hswap : ∀ d p h0 (w0 : SensorWorld D),
            put_driver d (put_sensor p h0 w0)
            = put_sensor p h0 (put_driver d w0)) by done.
  match goal with
  | |- (?c ≫= _) _ = _ =>
    assert (Hinner : c (put_driver d1 w) =
              Some (tt, put_sensor handle (with_cached_readings t hu h)
                          (put_driver d3 w)))
  end.
  { erewrite bind_run; last by eapply load_ops_run.
    erewrite bind_run; last by apply load_sensor_run.
    rewrite Hgt. cbn [call_slot].
    erewrite bind_run; last by apply call_backend_run.
    rewrite Hput.
    unfold with_cached_readings.
    destruct t as [t|].
    - erewrite bind_run; last by apply update_sensor_run.
      erewrite bind_run; last by (eapply load_ops_run;
                                  [apply lookup_put_sensor | done]).
      erewrite bind_run;
        last by (apply load_sensor_run; apply lookup_put_sensor).
      rewrite Hgh. cbn [call_slot with_cached_temperature sensor_driver_handle].
      erewrite bind_run; last by apply call_backend_run.
      rewrite Hswap, Hput.
      destruct hu as [hu|].
      + erewrite bind_run;
          last by (apply update_sensor_run; apply lookup_put_sensor).
        rewrite put_sensor_put_sensor.
        erewrite update_sensor_run by apply lookup_put_sensor.
        by rewrite put_sensor_put_sensor.
      + rewrite bind_unfold, ret_run.
        erewrite update_sensor_run by apply lookup_put_sensor.
        by rewrite put_sensor_put_sensor.
    - rewrite bind_unfold, ret_run.
      erewrite bind_run; last by eapply load_ops_run.
      erewrite bind_run; last by apply load_sensor_run.
      rewrite Hgh. cbn [call_slot].
      erewrite bind_run; last by apply call_backend_run.
      rewrite Hput.
      destruct hu as [hu|].
      + erewrite bind_run; last by apply update_sensor_run.
        erewrite update_sensor_run by apply lookup_put_sensor.
        by rewrite put_sensor_put_sensor.
      + rewrite bind_unfold, ret_run.
        by erewrite update_sensor_run by done. }
  erewrite bind_run; last exact Hinner.
  by rewrite ret_run.
Qed.

End SensorCalls.

Section SensorCache.
Context {D : Type}.
Implicit Types (w : SensorWorld D) (h : TempHumiSensor D).

(** X18: [sensor_trigger_measure] and [sensor_reset] hand back the result of
    the backend slot as it is.  On OK the cached state becomes MEASURING,
    IDLE for the reset, and the cached readings stay in the instance, but
    the three getters of the sensor layer now answer NOT_READY; on any
    other result the instance is not written at all.  With a NULL slot the
    call returns INVALID_PARAM and the backend is not called. *)
Theorem sensor_command_outcome w handle h table :
  handle ≠ 0%N → sensors w !! handle = Some h →
  sensor_ops h = Some table →
  (trigger table = None →
   sensor_trigger_measure handle w = Some (SENSOR_ERR_INVALID_PARAM, w)) ∧
  (reset table = None →
   sensor_reset handle w = Some (SENSOR_ERR_INVALID_PARAM, w)) ∧
  (∀ f r d,
     f (sensor_driver_handle h) (driver w) = Some (r, d) →
     r ≠ SENSOR_OK →
     (trigger table = Some f →
      sensor_trigger_measure handle w = Some (r, put_driver d w)) ∧
     (reset table = Some f →
      sensor_reset handle w = Some (r, put_driver d w))) ∧
  (∀ f d,
     f (sensor_driver_handle h) (driver w) = Some (SENSOR_OK, d) →
     (trigger table = Some f →
      sensor_trigger_measure handle w =
        Some (SENSOR_OK,
              put_sensor handle (with_cached_state SENSOR_STATE_MEASURING h)
                (put_driver d w))) ∧
     (reset table = Some f →
      sensor_reset handle w =
        Some (SENSOR_OK,
              put_sensor handle (with_cached_state SENSOR_STATE_IDLE h)
                (put_driver d w)))) ∧
  (∀ s d,
     s = SENSOR_STATE_MEASURING ∨ s = SENSOR_STATE_IDLE →
     let h' := with_cached_state s h in
     let w' := put_sensor handle h' (put_driver d w) in
     sensor_temperature h' = sensor_temperature h ∧
     sensor_humidity h' = sensor_humidity h ∧
     sensor_get_temperature handle true w'
       = Some ((SENSOR_ERR_NOT_READY, None), w') ∧
     sensor_get_humidity handle true w'
       = Some ((SENSOR_ERR_NOT_READY, None), w') ∧
     sensor_get_both handle true true w'
       = Some ((SENSOR_ERR_NOT_READY, None), w')).
Proof.
  intros Hnonnull Hh Hops. split_and!.
  - intros Hslot. unfold sensor_trigger_measure.
    rewrite decide_False by done.
    erewrite bind_run; last by eapply load_ops_run. by rewrite Hslot.
  - intros Hslot. unfold sensor_reset. rewrite decide_False by done.
    erewrite bind_run; last by eapply load_ops_run. by rewrite Hslot.
  - intros f r d Hrun Hr. split; intros Hslot.
    + erewrite sensor_trigger_measure_run by done.
      by rewrite decide_False by done.
    + erewrite sensor_reset_run by done. by rewrite decide_False by done.
  - intros f d Hrun. split; intros Hslot.
    + erewrite sensor_trigger_measure_run by done.
      by rewrite decide_True by done.
    + erewrite sensor_reset_run by done. by rewrite decide_True by done.
  - intros s d Hs. cbn zeta.
    assert (Hs' : s ≠ SENSOR_STATE_READY) by (by destruct Hs as [-> | ->]).
    split_and!; try done.
    + erewrite sensor_get_temperature_run;
        [|done|apply lookup_put_sensor].
      cbn [with_cached_state sensor_state]. by rewrite decide_False by done.
    + erewrite sensor_get_humidity_run; [|done|apply lookup_put_sensor].
      cbn [with_cached_state sensor_state]. by rewrite decide_False by done.
    + erewrite sensor_get_both_run; [|done|apply lookup_put_sensor].
      cbn [with_cached_state sensor_state]. by rewrite decide_False by done.
Qed.

(** X19: [sensor_read_data] returns what the read slot returned.  On OK it
    calls the two getter slots one after the other, drops their result
    codes, keeps in the instance what they stored, and marks the instance
    READY: the three getters of the sensor layer then return the cached
    values, the old ones where a getter stored nothing, and call nothing.
    A getter slot that is NULL is called all the same.  On any other result
    of the read slot the instance is not written, and with a NULL read slot
    the call returns INVALID_PARAM. *)
Theorem sensor_read_data_cache w handle h table :
  handle ≠ 0%N → sensors w !! handle = Some h →
  sensor_ops h = Some table →
  (read table = None →
   sensor_read_data handle w = Some (SENSOR_ERR_INVALID_PARAM, w)) ∧
  (∀ f r d,
     read table = Some f →
     f (sensor_driver_handle h) (driver w) = Some (r, d) →
     r ≠ SENSOR_OK →
     sensor_read_data handle w = Some (r, put_driver d w)) ∧
  (∀ f d1,
     read table = Some f →
     f (sensor_driver_handle h) (driver w) = Some (SENSOR_OK, d1) →
     (get_temp table = None → sensor_read_data handle w = None) ∧
     (∀ gt r1 t d2,
        get_temp table = Some gt →
        gt (sensor_driver_handle h) d1 = Some ((r1, t), d2) →
        (get_humi table = None → sensor_read_data handle w = None) ∧
        (∀ gh r2 hu d3,
           get_humi table = Some gh →
           gh (sensor_driver_handle h) d2 = Some ((r2, hu), d3) →
           let h' := with_cached_readings t hu h in
           let w' := put_sensor handle h' (put_driver d3 w) in
           sensor_read_data handle w = Some (SENSOR_OK, w') ∧
           sensor_temperature h' = default (sensor_temperature h) t ∧
           sensor_humidity h' = default (sensor_humidity h) hu ∧
           sensor_get_temperature handle true w'
             = Some ((SENSOR_OK, Some (sensor_temperature h')), w') ∧
           sensor_get_humidity handle true w'
             = Some ((SENSOR_OK, Some (sensor_humidity h')), w') ∧
           sensor_get_both handle true true w'
             = Some ((SENSOR_OK,
                      Some (sensor_temperature h', sensor_humidity h')),
                     w')))).
Proof.
  intros Hnonnull Hh Hops. split_and!.
  - intros Hslot. unfold sensor_read_data. rewrite decide_False by done.
    erewrite bind_run; last by eapply load_ops_run. by rewrite Hslot.
  - intros f r d Hslot Hrun Hr. by eapply sensor_read_data_failed.
  - intros f d1 Hslot Hrun.
    assert (Hopen : ∀ c' : StateErr (SensorWorld D) unit,
              c' (put_driver d1 w) = None →
              (result ← call_backend (f (sensor_driver_handle h));
               (if decide (result = SENSOR_OK) then c' else mret tt);;
               mret result) w = None).
    { intros c' Hc.
      erewrite bind_run; last by apply call_backend_run.
      rewrite decide_True by done. by rewrite bind_unfold, Hc. }
    split.
    + intros Hgt. unfold sensor_read_data. rewrite decide_False by done.
      erewrite bind_run; last by eapply load_ops_run. rewrite Hslot.
      erewrite bind_run; last by apply load_sensor_run.
      apply Hopen.
      erewrite bind_run; last by eapply load_ops_run.
      erewrite bind_run; last by apply load_sensor_run.
      by rewrite Hgt.
    + intros gt r1 t d2 Hgt Hrun1. split.
      * intros Hgh. unfold sensor_read_data. rewrite decide_False by done.
        erewrite bind_run; last by eapply load_ops_run. rewrite Hslot.
        erewrite bind_run; last by apply load_sensor_run.
        apply Hopen.
        erewrite bind_run; last by eapply load_ops_run.
        erewrite bind_run; last by apply load_sensor_run.
        rewrite Hgt. cbn [call_slot].
        erewrite bind_run; last by apply call_backend_run.
        destruct t as [t|].
        -- erewrite bind_run; last by apply update_sensor_run.
           erewrite bind_run; last by (eapply load_ops_run;
                                       [apply lookup_put_sensor | done]).
           erewrite bind_run;
             last by (apply load_sensor_run; apply lookup_put_sensor).
           by rewrite Hgh.
        -- rewrite bind_unfold, ret_run.
           erewrite bind_run; last by eapply load_ops_run.
           erewrite bind_run; last by apply load_sensor_run.
           by rewrite Hgh.
      * intros gh r2 hu d3 Hgh Hrun2. cbn zeta.
        assert (Hready : sensor_state (with_cached_readings t hu h)
                         = SENSOR_STATE_READY) by done.
        split_and!.
        -- by eapply sensor_read_data_ok.
        -- unfold with_cached_readings. by destruct t, hu.
        -- unfold with_cached_readings. by destruct t, hu.
        -- erewrite sensor_get_temperature_run;
             [|done|apply lookup_put_sensor].
           by rewrite decide_True by done.
        -- erewrite sensor_get_humidity_run;
             [|done|apply lookup_put_sensor].
           by rewrite decide_True by done.
        -- erewrite sensor_get_both_run; [|done|apply lookup_put_sensor].
           by rewrite decide_True by done.
Qed.

Lemma sensor_handler_ready w handle h table f :
  handle ≠ 0%N → sensors w !! handle = Some h →
  sensor_ops h = Some table → get_state table = Some f →
  f (sensor_driver_handle h) (driver w) = Some (SENSOR_STATE_READY, driver w) →
  sensor_handler handle w = Some (tt, w).
Proof.
  intros Hnonnull Hh Hops Hslot Hrun. unfold sensor_handler, sensor_get_state.
  rewrite decide_False by done.
  erewrite bind_run; last first.
  { erewrite bind_run; last by eapply load_ops_run. rewrite Hslot.
    erewrite bind_run; last by apply load_sensor_run.
    by apply call_backend_run. }
  by rewrite put_driver_same.
Qed.

(** X20: READY is where the scheduler stops.  When the backend of every
    registered instance reports READY, without changing the driver side,
    a call of [sensor_ticks] changes nothing at all, and so does any
    number of calls in a row: nothing in the sensor layer starts the next
    measurement. *)
Theorem sensor_ticks_ready_is_final w l fuel :
  registry w l → (length l < fuel)%nat →
  (∀ p, p ∈ l →
     ∃ h table f,
       sensors w !! p = Some h ∧ sensor_ops h = Some table ∧
       get_state table = Some f ∧
       f (sensor_driver_handle h) (driver w)
         = Some (SENSOR_STATE_READY, driver w)) →
  sensor_ticks fuel w = Some (tt, w) ∧
  ∀ n, sensor_ticks_times n fuel w = Some (tt, w).
Proof.
  intros Hreg Hfuel Hready.
  assert (Hnull : 0%N ∉ l) by by eapply chain_nonnull.
  assert (Hall : ∀ l', l' ⊆ l → for_each l' sensor_handler w = Some (tt, w)).
  { induction l' as [|x l' IH]; intros Hsub; first done.
    cbn [for_each].
    assert (Hx : x ∈ l) by (apply Hsub; by left).
    destruct (Hready x Hx) as (h & table & f & Hh & Hops & Hslot & Hrun).
    erewrite bind_run; last first.
    { eapply sensor_handler_ready; try done. by intros ->. }
    apply IH. intros y Hy. apply Hsub. by right. }
  assert (Hone : sensor_ticks fuel w = Some (tt, w)).
  { unfold sensor_ticks. rewrite bind_unfold. cbn [get_state_of].
    rewrite (sensor_ticks_loop_run l) by done. by apply Hall. }
  split; first done.
  induction n as [|n IH]; first done.
  cbn [sensor_ticks_times]. by rewrite bind_unfold, Hone.
Qed.

End SensorCache.

Lemma sensor_command_outcome_witness :
  sensor_trigger_measure 11%N
     (demo_world (line_of [] 0) AHT21_STATE_WAIT_MEASURE)
    = Some (SENSOR_ERR_BUSY,
            put_driver (demo_mem (line_of [] 0) AHT21_STATE_WAIT_MEASURE)
              (demo_world (line_of [] 0) AHT21_STATE_WAIT_MEASURE)) ∧
  sensor_get_both 11%N true true
     (put_sensor 11%N
        (with_cached_state SENSOR_STATE_MEASURING (demo_sensor 2%N 10%N))
        (demo_world (line_of [] 0) AHT21_STATE_WAIT_MEASURE))
    = Some ((SENSOR_ERR_NOT_READY, None),
            put_sensor 11%N
              (with_cached_state SENSOR_STATE_MEASURING (demo_sensor 2%N 10%N))
              (demo_world (line_of [] 0) AHT21_STATE_WAIT_MEASURE)).
Proof.
  destruct (sensor_command_outcome
              (demo_world (line_of [] 0) AHT21_STATE_WAIT_MEASURE) 11%N
              (demo_sensor 2%N 10%N) aht21_ops)
    as (_ & _ & Hfail & _ & Hgetters).
  - done.
  - reflexivity.
  - reflexivity.
  - split.
    + apply (Hfail aht21_adapter_trigger SENSOR_ERR_BUSY
               (demo_mem (line_of [] 0) AHT21_STATE_WAIT_MEASURE)).
      * reflexivity.
      * done.
      * reflexivity.
    + apply (Hgetters SENSOR_STATE_MEASURING
               (demo_mem (line_of [] 0) AHT21_STATE_WAIT_MEASURE)).
      by left.
Defined.

Lemma sensor_read_data_cache_witness :
  ∃ w' t hu,
    sensor_read_data 11%N
      (demo_world (line_of [] 0) AHT21_STATE_WAIT_MEASURE)
      = Some (SENSOR_OK, w') ∧
    sensor_get_both 11%N true true w' = Some ((SENSOR_OK, Some (t, hu)), w') ∧
    t = temperature_of_raw 0 ∧ hu = humidity_of_raw 0.
Proof.
  destruct (sensor_read_data_cache
              (demo_world (line_of [] 0) AHT21_STATE_WAIT_MEASURE) 11%N
              (demo_sensor 2%N 10%N) aht21_ops)
    as (_ & _ & Hok).
  - done.
  - reflexivity.
  - reflexivity.
  - edestruct (Hok aht21_adapter_read) as (_ & Htemp).
    + reflexivity.
    + vm_compute. reflexivity.
    + edestruct (Htemp (λ handle, aht21_adapter_get_temp handle true))
        as (_ & Hhumi).
      * reflexivity.
      * vm_compute. reflexivity.
      * edestruct (Hhumi (λ handle, aht21_adapter_get_humi handle true))
          as (Hrun & Ht & Hhu & _ & _ & Hboth).
        -- reflexivity.
        -- vm_compute. reflexivity.
        -- eexists _, _, _. split; first exact Hrun.
           split; first exact Hboth.
           split; [rewrite Ht | rewrite Hhu]; vm_compute; reflexivity.
Defined.

Lemma sensor_ticks_ready_is_final_witness :
  sensor_ticks_times 5 3 (demo_world (line_of [] 0) AHT21_STATE_READY)
    = Some (tt, demo_world (line_of [] 0) AHT21_STATE_READY).
Proof.
  apply (sensor_ticks_ready_is_final
           (demo_world (line_of [] 0) AHT21_STATE_READY) [11%N; 10%N] 3).
  - unfold registry. cbn. split_and!; try done.
    eexists. split; first reflexivity. cbn. split_and!; try done.
    eexists. split; first reflexivity. done.
  - cbn. lia.
  - intros p Hp.
    apply elem_of_cons in Hp as [->|Hp];
      [|apply elem_of_cons in Hp as [->|Hp]; [|by apply elem_of_nil in Hp]].
    + exists (demo_sensor 2%N 10%N), aht21_ops, aht21_adapter_get_state.
      split_and!; reflexivity.
    + exists (demo_sensor 2%N 0%N), aht21_ops, aht21_adapter_get_state.
      split_and!; reflexivity.
Defined.

(** ** A trigger followed at once by a read *)

Lemma trigger_then_read ops d dev bus m :
  driver_ok d dev bus ops m →
  state dev ≠ AHT21_STATE_WAIT_MEASURE →
  (∀ i, (i < 5)%nat → ack_level m i = 0) →
  let mt := put_aht21 d (triggered dev)
              (write_mem (iic dev) bus AHT21_ADDR
                 [AHT21_CMD_TRIGGER; 0x33; 0x00] 3 m) in
  let status := bus_byte (sda_line m) (5 + sda_reads m) in
  aht21_trigger_measure d m = Some (AHT21_OK, mt) ∧
  (Z.testbit status 7 = true →
   ∃ m', aht21_read_data d mt = Some (AHT21_ERR_BUSY, m')) ∧
  (Z.testbit status 7 = false → ack_level m 13 = 0 →
   ∃ m', aht21_read_data d mt =
           Some (AHT21_OK,
                 put_aht21 d
                   (decoded (read_bytes (sda_line m) (14 + sda_reads m) 7)
                      (triggered dev)) m')).
Proof.
  intros Hok Hstate Hacks. cbn zeta.
  set (m1 := write_mem (iic dev) bus AHT21_ADDR
               [AHT21_CMD_TRIGGER; 0x33; 0x00] 3 m).
  assert (Hacked : frame_acked (sda_line m) (sda_reads m)
            (write_frame AHT21_ADDR [AHT21_CMD_TRIGGER; 0x33; 0x00] 3) = true).
  { apply (acked_prefix _ _ _ 4); first done. intros i Hi. apply Hacks. lia. }
  assert (Hm1 : m1 = step (write_frame_pins (half_period bus) (sda_line m)
                             (sda_reads m) trigger_frame) 4
                       (put_iic (iic dev) (with_bus_busy 0 bus) m)).
  { unfold m1. by rewrite write_mem_acked. }
  assert (Hok1 : driver_ok d dev (with_bus_busy 0 bus) ops m1)
    by by apply driver_ok_write_mem.
  assert (Hokt : driver_ok d (triggered dev) (with_bus_busy 0 bus) ops
                   (put_aht21 d (triggered dev) m1))
    by by apply (driver_ok_put_aht21 d dev).
  assert (Hsample : sample (put_aht21 d (triggered dev) m1) = 0).
  { unfold sample. cbn [sda_line sda_reads put_aht21].
    rewrite Hm1. cbn. apply (Hacks 4%nat). lia. }
  assert (Hstatus : bus_byte (sda_line (put_aht21 d (triggered dev) m1))
                      (S (sda_reads (put_aht21 d (triggered dev) m1)))
                    = bus_byte (sda_line m) (5 + sda_reads m)).
  { cbn [sda_line sda_reads put_aht21]. rewrite Hm1. reflexivity. }
  split_and!.
  - rewrite (aht21_trigger_measure_run d dev bus ops m Hok Hstate).
    cbn zeta. by rewrite Hacked.
  - intros Hbusy. eexists.
    apply (aht21_read_data_busy d (triggered dev) (with_bus_busy 0 bus) ops
             _ Hokt Hsample).
    rewrite Hstatus. by apply busy_bit.
  - intros Hfree Hack2. eexists.
    rewrite (aht21_read_data_ok d (triggered dev) (with_bus_busy 0 bus) ops
               _ Hokt Hsample).
    + cbn [sda_line sda_reads put_aht21]. rewrite Hm1 at 1 2.
      cbn [sda_line sda_reads step put_iic]. reflexivity.
    + rewrite Hstatus.
      destruct (decide (Z.land (bus_byte (sda_line m) (5 + sda_reads m))
                          AHT21_STATUS_BUSY = 0)) as [|Hne]; first done.
      apply busy_bit in Hne. congruence.
    + unfold ack_level. cbn [sda_line sda_reads put_aht21]. rewrite Hm1.
      cbn [sda_line sda_reads step put_iic]. exact Hack2.
Qed.

(** ** The sensor layer over the AHT21 backend *)

Section OverAht21.
Context (handle : N) (ops : IIC_HAL_Ops).
Implicit Types (w : SensorWorld Mem) (h : TempHumiSensor Mem).

Lemma sensor_ok_put w h h' dev dev' bus bus' m' :
  sensor_ok handle h dev bus ops w →
  sensor_ops h' = sensor_ops h →
  sensor_driver_handle h' = sensor_driver_handle h →
  driver_ok (sensor_driver_handle h) dev' bus' ops m' →
  sensor_ok handle h' dev' bus' ops (put_sensor handle h' (put_driver m' w)).
Proof.
  intros (Hnonnull & Hh & Hops & Hok) Hops' Hdh' Hok'.
  unfold sensor_ok. rewrite Hops', Hdh'. split_and!; try done.
  apply lookup_put_sensor.
Qed.

Lemma put_sensor_put_driver_same w h m' :
  sensors w !! handle = Some h →
  put_sensor handle h (put_driver m' w) = put_driver m' w.
Proof. intros Hh. by apply put_sensor_same. Qed.

Lemma sensor_get_state_over_aht21 w h dev bus :
  sensor_ok handle h dev bus ops w →
  sensor_get_state handle w = Some (adapter_state (state dev), w).
Proof.
  intros (Hnonnull & Hh & Hops & Hok).
  pose proof Hok as (_ & Hdev & _).
  unfold sensor_get_state. rewrite decide_False by done.
  erewrite bind_run; last by eapply load_ops_run. cbn [get_state aht21_ops].
  erewrite bind_run; last by apply load_sensor_run.
  erewrite call_backend_run; last first.
  { unfold aht21_adapter_get_state.
    erewrite bind_run; last by apply load_aht21_run. reflexivity. }
  by rewrite put_driver_same.
Qed.

Lemma sensor_trigger_over_aht21 w h dev bus :
  sensor_ok handle h dev bus ops w →
  ∃ r0 w' h' dev' bus',
    aht21_trigger_measure (sensor_driver_handle h) (driver w)
      = Some (r0, driver w') ∧
    sensor_trigger_measure handle w = Some (adapter_measure_result r0, w') ∧
    sensor_ok handle h' dev' bus' ops w' ∧
    w' = put_sensor handle h' (put_driver (driver w') w) ∧
    ((r0 = AHT21_OK ∧ state dev ≠ AHT21_STATE_WAIT_MEASURE ∧
      dev' = triggered dev ∧
      h' = with_cached_state SENSOR_STATE_MEASURING h) ∨
     (r0 = AHT21_ERR_BUSY ∧ state dev = AHT21_STATE_WAIT_MEASURE ∧
      dev' = dev ∧ h' = h ∧ w' = w) ∨
     (r0 = AHT21_ERR_IIC ∧ state dev ≠ AHT21_STATE_WAIT_MEASURE ∧
      dev' = dev ∧ h' = h)).
Proof.
  intros Hsok. pose proof Hsok as (Hnonnull & Hh & Hops & Hok).
  pose proof Hok as (Hdnonnull & Hdev & _).
  destruct (lands_trigger _ ops dev bus _ Hok)
    as (r0 & m1 & dev1 & bus1 & Hrun & Hok1 & Hr).
  assert (Hcall : sensor_trigger_measure handle w =
            Some (adapter_measure_result r0,
                  if decide (adapter_measure_result r0 = SENSOR_OK)
                  then put_sensor handle
                         (with_cached_state SENSOR_STATE_MEASURING h)
                         (put_driver m1 w)
                  else put_driver m1 w)).
  { eapply sensor_trigger_measure_run; try done.
    unfold aht21_adapter_trigger. by erewrite bind_run by exact Hrun. }
  destruct Hr as [(-> & Hstate & ->)|[(-> & Hstate & ->)|(-> & Hstate & ->)]].
  - exists AHT21_OK, (put_sensor handle
                        (with_cached_state SENSOR_STATE_MEASURING h)
                        (put_driver m1 w)),
      (with_cached_state SENSOR_STATE_MEASURING h), (triggered dev), bus1.
    split_and!; try done.
    + eapply sensor_ok_put; [exact Hsok | done | done | exact Hok1].
    + left. done.
  - rewrite (aht21_trigger_measure_busy _ dev _ Hdnonnull Hdev Hstate) in Hrun.
    injection Hrun as <-.
    exists AHT21_ERR_BUSY, w, h, dev, bus1.
    rewrite put_driver_same in Hcall.
    split_and!; try done.
    + by eapply aht21_trigger_measure_busy.
    + by rewrite put_driver_same, put_sensor_same.
    + right. left. done.
  - exists AHT21_ERR_IIC, (put_driver m1 w), h, dev, bus1.
    split_and!; try done.
    + cbn [driver put_driver]. by rewrite put_sensor_put_driver_same.
    + right. right. done.
Qed.

Lemma sensor_reset_over_aht21 w h dev bus :
  sensor_ok handle h dev bus ops w →
  ∃ r0 w' h' dev' bus',
    sensor_reset handle w = Some (adapter_reset_result r0, w') ∧
    sensor_ok handle h' dev' bus' ops w' ∧
    w' = put_sensor handle h' (put_driver (driver w') w) ∧
    ((r0 = AHT21_OK ∧ dev' = with_state AHT21_STATE_IDLE dev ∧
      h' = with_cached_state SENSOR_STATE_IDLE h) ∨
     (r0 = AHT21_ERR_IIC ∧ dev' = dev ∧ h' = h)).
Proof.
  intros Hsok. pose proof Hsok as (Hnonnull & Hh & Hops & Hok).
  destruct (lands_soft_reset _ ops dev bus _ Hok)
    as (r0 & m1 & dev1 & bus1 & Hrun & Hok1 & Hr).
  assert (Hcall : sensor_reset handle w =
            Some (adapter_reset_result r0,
                  if decide (adapter_reset_result r0 = SENSOR_OK)
                  then put_sensor handle
                         (with_cached_state SENSOR_STATE_IDLE h)
                         (put_driver m1 w)
                  else put_driver m1 w)).
  { eapply sensor_reset_run; try done.
    unfold aht21_adapter_reset. by erewrite bind_run by exact Hrun. }
  destruct Hr as [(-> & ->)|(-> & ->)].
  - exists AHT21_OK, (put_sensor handle
                        (with_cached_state SENSOR_STATE_IDLE h)
                        (put_driver m1 w)),
      (with_cached_state SENSOR_STATE_IDLE h),
      (with_state AHT21_STATE_IDLE dev), bus1.
    split_and!; try done.
    + eapply sensor_ok_put; [exact Hsok | done | done | exact Hok1].
    + left. done.
  - exists AHT21_ERR_IIC, (put_driver m1 w), h, dev, bus1.
    split_and!; try done.
    + cbn [driver put_driver]. by rewrite put_sensor_put_driver_same.
    + right. done.
Qed.

Lemma sensor_read_over_aht21 w h dev bus :
  sensor_ok handle h dev bus ops w →
  ∃ r0 w' h' dev' bus',
    aht21_read_data (sensor_driver_handle h) (driver w)
      = Some (r0, driver w') ∧
    sensor_read_data handle w = Some (adapter_measure_result r0, w') ∧
    sensor_ok handle h' dev' bus' ops w' ∧
    w' = put_sensor handle h' (put_driver (driver w') w) ∧
    ((r0 = AHT21_OK ∧ (∃ bytes, dev' = decoded bytes dev) ∧
      h' = with_cached_readings (Some (temperature dev'))
             (Some (humidity dev')) h) ∨
     (r0 = AHT21_ERR_BUSY ∧ dev' = dev ∧ h' = h) ∨
     (r0 = AHT21_ERR_IIC ∧ dev' = dev ∧ h' = h)).
Proof.
  intros Hsok. pose proof Hsok as (Hnonnull & Hh & Hops & Hok).
  pose proof Hok as (Hdnonnull & _).
  destruct (lands_read_data _ ops dev bus _ Hok)
    as (r0 & m1 & dev1 & bus1 & Hrun & Hok1 & Hr).
  pose proof Hok1 as (_ & Hdev1 & _).
  assert (Hread : aht21_adapter_read (sensor_driver_handle h) (driver w)
                  = Some (adapter_measure_result r0, m1)).
  { unfold aht21_adapter_read. by erewrite bind_run by exact Hrun. }
  destruct Hr as [(-> & bytes & ->)|[(-> & ->)|(-> & ->)]].
  - set (dev1 := decoded bytes dev) in *.
    exists AHT21_OK,
      (put_sensor handle
         (with_cached_readings (Some (temperature dev1))
            (Some (humidity dev1)) h) (put_driver m1 w)),
      (with_cached_readings (Some (temperature dev1))
         (Some (humidity dev1)) h), dev1, bus1.
    split_and!; try done.
    + eapply (sensor_read_data_ok w handle h aht21_ops); try done.
      * unfold aht21_adapter_get_temp.
        erewrite bind_run; last by apply aht21_get_temperature_run.
        rewrite decide_True by done. reflexivity.
      * unfold aht21_adapter_get_humi.
        erewrite bind_run; last by apply aht21_get_humidity_run.
        rewrite decide_True by done. reflexivity.
    + eapply sensor_ok_put; [exact Hsok | done | done | exact Hok1].
    + left. split_and!; try done. by exists bytes.
  - exists AHT21_ERR_BUSY, (put_driver m1 w), h, dev, bus1.
    split_and!; try done.
    + by eapply sensor_read_data_failed.
    + cbn [driver put_driver]. by rewrite put_sensor_put_driver_same.
    + right. left. done.
  - exists AHT21_ERR_IIC, (put_driver m1 w), h, dev, bus1.
    split_and!; try done.
    + by eapply sensor_read_data_failed.
    + cbn [driver put_driver]. by rewrite put_sensor_put_driver_same.
    + right. right. done.
Qed.

Lemma run_call_basic w h dev bus c :
  sensor_ok handle h dev bus ops w →
  c ≠ CallHandler →
  ∃ w' h' dev' bus',
    run_call c handle w = Some (tt, w') ∧
    sensor_ok handle h' dev' bus' ops w' ∧
    w' = put_sensor handle h' (put_driver (driver w') w) ∧
    sensor_next h' = sensor_next h ∧
    sensor_driver_handle h' = sensor_driver_handle h ∧
    ((h' = h ∧ dev' = dev) ∨ in_step h' dev').
Proof.
  intros Hsok Hc. destruct c; last done; cbn [run_call].
  - destruct (sensor_trigger_over_aht21 w h dev bus Hsok)
      as (r0 & w' & h' & dev' & bus' & _ & Hrun & Hsok' & Hw' & Hr).
    exists w', h', dev', bus'. rewrite bind_unfold, Hrun.
    destruct Hr as [(_ & _ & -> & ->)|[(_ & _ & -> & -> & _)|(_ & _ & -> & ->)]];
      split_and!; try done; try (by left). by right.
  - destruct (sensor_read_over_aht21 w h dev bus Hsok)
      as (r0 & w' & h' & dev' & bus' & _ & Hrun & Hsok' & Hw' & Hr).
    exists w', h', dev', bus'. rewrite bind_unfold, Hrun.
    destruct Hr as [(_ & (bytes & ->) & ->)|[(_ & -> & ->)|(_ & -> & ->)]];
      split_and!; try done; try (by left). by right.
  - destruct (sensor_reset_over_aht21 w h dev bus Hsok)
      as (r0 & w' & h' & dev' & bus' & Hrun & Hsok' & Hw' & Hr).
    exists w', h', dev', bus'. rewrite bind_unfold, Hrun.
    destruct Hr as [(_ & -> & ->)|(_ & -> & ->)];
      split_and!; try done; try (by left). by right.
Qed.

(** X21: over the AHT21 backend the cache of an instance keeps in step with
    its driver.  Each call of the sensor layer that reaches the backend,
    trigger, read, reset or the handler of the scheduler, returns, writes
    nothing but the driver side and the instance itself, whose links it
    keeps, and either leaves the instance and the driver handle as they
    were, or leaves the cached state equal to the state the adapter
    reports and, in READY, the cached readings equal to the driver's.  So
    an instance in step with its driver stays in step.  The handler does
    nothing at all on a driver in READY. *)
Theorem sensor_cache_in_step w h dev bus c :
  sensor_ok handle h dev bus ops w →
  ∃ w' h' dev' bus',
    run_call c handle w = Some (tt, w') ∧
    sensor_ok handle h' dev' bus' ops w' ∧
    w' = put_sensor handle h' (put_driver (driver w') w) ∧
    sensor_next h' = sensor_next h ∧
    sensor_driver_handle h' = sensor_driver_handle h ∧
    ((h' = h ∧ dev' = dev) ∨ in_step h' dev') ∧
    (in_step h dev → in_step h' dev') ∧
    (c = CallHandler → state dev = AHT21_STATE_READY → w' = w).
Proof.
  intros Hsok.
  assert (Hbasic : ∀ c', c' ≠ CallHandler →
            (c = c' ∨ (c = CallHandler ∧
                        state dev ≠ AHT21_STATE_READY ∧
                        sensor_handler handle w = run_call c' handle w)) →
            ∃ w' h' dev' bus',
              run_call c handle w = Some (tt, w') ∧
              sensor_ok handle h' dev' bus' ops w' ∧
              w' = put_sensor handle h' (put_driver (driver w') w) ∧
              sensor_next h' = sensor_next h ∧
              sensor_driver_handle h' = sensor_driver_handle h ∧
              ((h' = h ∧ dev' = dev) ∨ in_step h' dev') ∧
              (in_step h dev → in_step h' dev') ∧
              (c = CallHandler → state dev = AHT21_STATE_READY → w' = w)).
  { intros c' Hc' Hcase.
    destruct (run_call_basic w h dev bus c' Hsok Hc')
      as (w' & h' & dev' & bus' & Hrun & Hsok' & Hw' & Hnext & Hdh & Hstep).
    exists w', h', dev', bus'. split_and!; try done.
    - destruct Hcase as [->|(-> & _ & Heq)]; first done.
      cbn [run_call]. by rewrite Heq.
    - intros Hin. by destruct Hstep as [[-> ->]|Hstep].
    - intros Hc Hready. destruct Hcase as [Hcc|(_ & ? & _)]; [congruence | done]. }
  pose proof (sensor_get_state_over_aht21 w h dev bus Hsok) as Hstate.
  destruct c.
  - apply (Hbasic CallTrigger); [done | by left].
  - apply (Hbasic CallRead); [done | by left].
  - apply (Hbasic CallReset); [done | by left].
  - destruct (state dev) eqn:Hs.
    + apply (Hbasic CallTrigger); first done. right. split_and!; try done.
      unfold sensor_handler. by rewrite bind_unfold, Hstate.
    + apply (Hbasic CallTrigger); first done. right. split_and!; try done.
      unfold sensor_handler. by rewrite bind_unfold, Hstate.
    + apply (Hbasic CallRead); first done. right. split_and!; try done.
      unfold sensor_handler. by rewrite bind_unfold, Hstate.
    + pose proof Hsok as (_ & Hh & _).
      exists w, h, dev, bus. split_and!; try done.
      * cbn [run_call]. unfold sensor_handler.
        by rewrite bind_unfold, Hstate.
      * by rewrite put_driver_same, put_sensor_same.
      * by left.
    + apply (Hbasic CallReset); first done. right. split_and!; try done.
      unfold sensor_handler. by rewrite bind_unfold, Hstate.
Qed.

Lemma sensor_read_blocking_poll_over_aht21 w h dev bus n :
  sensor_ok handle h dev bus ops w →
  sensor_read_blocking_poll n handle w = Some (tt, w).
Proof.
  intros Hsok. induction n as [|n IH]; first done.
  cbn [sensor_read_blocking_poll].
  erewrite bind_run; last by eapply sensor_get_state_over_aht21.
  by destruct (decide _).
Qed.

Lemma sensor_read_blocking_pending w h dev bus :
  sensor_ok handle h dev bus ops w →
  state dev = AHT21_STATE_WAIT_MEASURE →
  sensor_read_blocking handle true true w =
    Some ((SENSOR_ERR_BUSY, None), w).
Proof.
  intros Hsok Hstate. pose proof Hsok as (Hnonnull & _).
  destruct (sensor_trigger_over_aht21 w h dev bus Hsok)
    as (r0 & w' & h' & dev' & bus' & _ & Hrun & _ & _ & Hr).
  unfold sensor_read_blocking. rewrite decide_False by done. cbn [negb].
  rewrite bind_unfold, Hrun.
  by destruct Hr as [(_ & ? & _)|[(-> & _ & _ & _ & ->)|(_ & ? & _)]].
Qed.

(** X22: [sensor_read_blocking] over the AHT21 backend.  Its polling loop
    changes nothing and waits for nothing: the state the driver reports can
    only change in a call of the driver, and the loop makes none.  So on
    the driver side the call is [aht21_trigger_measure] followed at once,
    if it returned OK, by one [aht21_read_data], and its result is the
    adapter's translation of theirs.  With a sensor that acknowledges, it
    returns OK with the readings just decoded, the instance and its driver
    both READY, if the status poll that follows the trigger frame has the
    busy bit clear; if the bit is set it returns BUSY and leaves the driver
    waiting, and from then on every blocking read returns BUSY and changes
    nothing, as it does on any driver that is waiting already. *)
Theorem sensor_read_blocking_over_aht21 w h dev bus :
  sensor_ok handle h dev bus ops w →
  (∀ n, sensor_read_blocking_poll n handle w = Some (tt, w)) ∧
  ∃ r0 r v w' h' dev' bus',
    sensor_read_blocking handle true true w = Some ((r, v), w') ∧
    (result ← aht21_trigger_measure (sensor_driver_handle h);
     if decide (result ≠ AHT21_OK) then mret result
     else aht21_read_data (sensor_driver_handle h)) (driver w)
      = Some (r0, driver w') ∧
    r = adapter_measure_result r0 ∧
    sensor_ok handle h' dev' bus' ops w' ∧
    w' = put_sensor handle h' (put_driver (driver w') w) ∧
    (state dev = AHT21_STATE_WAIT_MEASURE →
     r = SENSOR_ERR_BUSY ∧ v = None ∧ w' = w) ∧
    (r = SENSOR_OK →
     state dev ≠ AHT21_STATE_WAIT_MEASURE ∧
     (∃ bytes, dev' = decoded bytes (triggered dev)) ∧
     v = Some (temperature dev', humidity dev') ∧
     h' = with_cached_readings (Some (temperature dev'))
            (Some (humidity dev')) h ∧
     in_step h' dev') ∧
    (r ≠ SENSOR_OK →
     v = None ∧ (r = SENSOR_ERR_BUSY ∨ r = SENSOR_ERR_COMM) ∧
     ((dev' = dev ∧ h' = h) ∨
      (dev' = triggered dev ∧
       h' = with_cached_state SENSOR_STATE_MEASURING h))) ∧
    (state dev' = AHT21_STATE_WAIT_MEASURE →
     sensor_read_blocking handle true true w' =
       Some ((SENSOR_ERR_BUSY, None), w')) ∧
    (state dev ≠ AHT21_STATE_WAIT_MEASURE →
     (∀ i, (i < 5)%nat → ack_level (driver w) i = 0) →
     let status :=
       bus_byte (sda_line (driver w)) (5 + sda_reads (driver w)) in
     (Z.testbit status 7 = true →
      r = SENSOR_ERR_BUSY ∧ dev' = triggered dev) ∧
     (Z.testbit status 7 = false → ack_level (driver w) 13 = 0 →
      r = SENSOR_OK ∧
      dev' = decoded (read_bytes (sda_line (driver w))
                        (14 + sda_reads (driver w)) 7) (triggered dev))).
Proof.
  intros Hsok. split.
  { intros n. by eapply sensor_read_blocking_poll_over_aht21. }
  pose proof Hsok as (Hnonnull & Hh & Hops & Hok).
  destruct (sensor_trigger_over_aht21 w h dev bus Hsok)
    as (r1 & w1 & h1 & dev1 & bus1 & Hdrv1 & Hrun1 & Hsok1 & Hw1 & Hr1).
  unfold sensor_read_blocking at 1. rewrite decide_False by done.
  cbn [negb]. rewrite bind_unfold, Hrun1.
  (* what the wire decides *)
  assert (Hwire : state dev ≠ AHT21_STATE_WAIT_MEASURE →
            (∀ i, (i < 5)%nat → ack_level (driver w) i = 0) →
            r1 = AHT21_OK ∧
            (Z.testbit (bus_byte (sda_line (driver w))
                          (5 + sda_reads (driver w))) 7 = true →
             ∃ m', aht21_read_data (sensor_driver_handle h) (driver w1)
                     = Some (AHT21_ERR_BUSY, m')) ∧
            (Z.testbit (bus_byte (sda_line (driver w))
                          (5 + sda_reads (driver w))) 7 = false →
             ack_level (driver w) 13 = 0 →
             ∃ m', aht21_read_data (sensor_driver_handle h) (driver w1) =
                     Some (AHT21_OK,
                           put_aht21 (sensor_driver_handle h)
                             (decoded (read_bytes (sda_line (driver w))
                                         (14 + sda_reads (driver w)) 7)
                                (triggered dev)) m'))).
  { intros Hs Hacks.
    destruct (trigger_then_read ops _ dev bus _ Hok Hs Hacks)
      as (Ht & Hb & Ho).
    rewrite Ht in Hdrv1. injection Hdrv1 as <- <-. done. }
  destruct Hr1 as [(-> & Hstate & -> & ->)|
                   [(-> & Hstate & -> & -> & ->)|(-> & Hstate & -> & ->)]].
  - (* the trigger went through *)
    rewrite decide_False by (intros ?; done).
    erewrite bind_run;
      last by eapply sensor_read_blocking_poll_over_aht21.
    destruct (sensor_read_over_aht21 w1 _ _ bus1 Hsok1)
      as (r2 & w2 & h2 & dev2 & bus2 & Hdrv2 & Hrun2 & Hsok2 & Hw2 & Hr2).
    rewrite bind_unfold, Hrun2.
    pose proof Hsok2 as (_ & Hh2 & _ & (_ & Hdev2 & _)).
    assert (Hframe : ∀ h',
              w2 = put_sensor handle h' (put_driver (driver w2) w1) →
              w2 = put_sensor handle h' (put_driver (driver w2) w)).
    { intros h' Hw. etrans; first exact Hw. rewrite Hw1.
      unfold put_sensor, put_driver. cbn. by rewrite insert_insert_eq. }
    destruct Hr2 as [(-> & (bytes & ->) & ->)|[(-> & -> & ->)|(-> & -> & ->)]].
    + rewrite decide_False by (intros ?; done).
      erewrite sensor_get_both_run by done.
      rewrite decide_True by done.
      do 7 eexists. split; first done.
      split; first (rewrite bind_unfold, Hdrv1;
                    rewrite decide_False by (intros ?; done); exact Hdrv2).
      split; first reflexivity. split; first exact Hsok2.
      split; first by apply Hframe.
      split_and!; try done.
      * intros _. split_and!; try done. by exists bytes.
      * intros Hs Hacks. destruct (Hwire Hs Hacks) as (_ & Hb & Ho).
        cbn zeta. split.
        -- intros Hbusy. destruct (Hb Hbusy) as (m' & Hrun).
           cbn [sensor_driver_handle with_cached_state] in Hdrv2.
           rewrite Hrun in Hdrv2. done.
        -- intros Hfree Hack2. destruct (Ho Hfree Hack2) as (m' & Hrun).
           cbn [sensor_driver_handle with_cached_state] in Hdrv2, Hdev2.
           rewrite Hrun in Hdrv2.
           match type of Hdrv2 with
           | Some (_, ?a) = Some (_, ?b) =>
             assert (Hd : b = a) by congruence
           end.
           rewrite Hd, lookup_put_aht21 in Hdev2.
           split; first done. congruence.
    + rewrite decide_True by done. rewrite ret_run.
      do 7 eexists. split; first done.
      split; first (rewrite bind_unfold, Hdrv1;
                    rewrite decide_False by (intros ?; done); exact Hdrv2).
      split; first reflexivity. split; first exact Hsok2.
      split; first by apply Hframe.
      split_and!; try done.
      * intros _. split_and!; try done; [by left | by right].
      * intros _. by eapply sensor_read_blocking_pending.
      * intros Hs Hacks. destruct (Hwire Hs Hacks) as (_ & Hb & Ho).
        cbn zeta. split; first done.
        intros Hfree Hack2. destruct (Ho Hfree Hack2) as (m' & Hrun).
        cbn [sensor_driver_handle with_cached_state] in Hdrv2.
        rewrite Hrun in Hdrv2. done.
    + rewrite decide_True by done. rewrite ret_run.
      do 7 eexists. split; first done.
      split; first (rewrite bind_unfold, Hdrv1;
                    rewrite decide_False by (intros ?; done); exact Hdrv2).
      split; first reflexivity. split; first exact Hsok2.
      split; first by apply Hframe.
      split_and!; try done.
      * intros _. split_and!; try done; [by right | by right].
      * intros _. by eapply sensor_read_blocking_pending.
      * intros Hs Hacks. destruct (Hwire Hs Hacks) as (_ & Hb & Ho).
        cbn zeta. split.
        -- intros Hbusy. destruct (Hb Hbusy) as (m' & Hrun).
           cbn [sensor_driver_handle with_cached_state] in Hdrv2.
           rewrite Hrun in Hdrv2. done.
        -- intros Hfree Hack2. destruct (Ho Hfree Hack2) as (m' & Hrun).
           cbn [sensor_driver_handle with_cached_state] in Hdrv2.
           rewrite Hrun in Hdrv2. done.
  - (* a measurement was pending *)
    rewrite decide_True by done. rewrite ret_run.
    do 7 eexists. split; first done.
    split; first (rewrite bind_unfold, Hdrv1; by rewrite decide_True by done).
    split; first reflexivity. split; first exact Hsok1.
    split; first exact Hw1.
    split_and!; try done.
    + intros _. split_and!; try done; [by left | by left].
    + intros _. by eapply sensor_read_blocking_pending.
  - (* the trigger frame was not acknowledged *)
    rewrite decide_True by done. rewrite ret_run.
    do 7 eexists. split; first done.
    split; first (rewrite bind_unfold, Hdrv1; by rewrite decide_True by done).
    split; first reflexivity. split; first exact Hsok1.
    split; first exact Hw1.
    split_and!; try done.
    + intros _. split_and!; try done; [by right | by left].
    + intros Hs Hacks. by destruct (Hwire Hs Hacks) as (? & _).
Qed.

End OverAht21.

Lemma sensor_cache_in_step_witness :
  ∃ w' h' dev',
    run_call CallHandler 11%N (demo_world (line_of [] 0) AHT21_STATE_IDLE)
      = Some (tt, w') ∧
    sensors w' !! 11%N = Some h' ∧
    aht21_handles (driver w') !! 2%N = Some dev' ∧
    in_step h' dev'.
Proof.
  destruct (sensor_cache_in_step 11%N demo_hal
              (demo_world (line_of [] 0) AHT21_STATE_IDLE)
              (demo_sensor 2%N 10%N) (demo_device AHT21_STATE_IDLE)
              demo_bus CallHandler)
    as (w' & h' & dev' & bus' & Hrun & Hsok' & _ & _ & Hdh & _ & Hkeep & _).
  - unfold sensor_ok, driver_ok, hal_complete. split_and!; done.
  - destruct Hsok' as (_ & Hh' & _ & (_ & Hdev' & _)).
    rewrite Hdh in Hdev'.
    exists w', h', dev'. split; first exact Hrun.
    split; first exact Hh'. split; first exact Hdev'.
    apply Hkeep. split; [reflexivity | intros [=]].
Defined.

Lemma sensor_read_blocking_over_aht21_witness :
  sensor_read_blocking_poll 1000 11%N
     (demo_world (line_of [] 0) AHT21_STATE_IDLE)
    = Some (tt, demo_world (line_of [] 0) AHT21_STATE_IDLE) ∧
  ∃ v w',
    sensor_read_blocking 11%N true true
      (demo_world (line_of [] 0) AHT21_STATE_IDLE)
      = Some ((SENSOR_OK, v), w') ∧
    v = Some (temperature_of_raw 0, humidity_of_raw 0) ∧
    state_at 2%N (driver w') = Some AHT21_STATE_READY.
Proof.
  destruct (sensor_read_blocking_over_aht21 11%N demo_hal
              (demo_world (line_of [] 0) AHT21_STATE_IDLE)
              (demo_sensor 2%N 10%N) (demo_device AHT21_STATE_IDLE)
              demo_bus)
    as (Hpoll & r0 & r & v & w' & h' & dev' & bus' & Hrun & _ & _ & Hsok' &
        _ & _ & Hok & _ & _ & Hwire).
  - unfold sensor_ok, driver_ok, hal_complete. split_and!; done.
  - split; first apply Hpoll.
    destruct Hwire as (_ & Hfree).
    + done.
    + intros i Hi. unfold ack_level, demo_world, demo_mem, board, line_of.
      cbn. by destruct (i + 0)%nat.
    + destruct Hfree as (Hr & Hdev').
      * reflexivity.
      * reflexivity.
      * destruct (Hok Hr) as (_ & _ & Hv & Hh' & _).
        destruct Hsok' as (_ & _ & _ & (_ & Hlook & _)).
        exists v, w'. rewrite <- Hr. split; first exact Hrun.
        split.
        -- rewrite Hv, Hdev'. vm_compute. reflexivity.
        -- unfold state_at. rewrite Hh' in Hlook.
           cbn [sensor_driver_handle with_cached_readings with_cached_state
                with_cached_humidity with_cached_temperature demo_sensor]
             in Hlook.
           rewrite Hlook, Hdev'. reflexivity.
Defined.
